(** * Proctoria websocket service: violation ingestion, batch aggregation,
      observer interventions and the session sweep

    A shallow embedding of
      - [src/proctoria/websocket-service/src/handlers/violationHandler.js],
      - the admin handler ([handleRequestScreenshot], [handleBulkAction] and
        the helpers they call),
      - [src/proctoria/websocket-service/src/services/sessionManager.js]
        ([deleteSession], [cleanupExpiredSessions], [cleanupInactiveSessions]),
      - the risk score of the store, [calculate_risk_score] and its
        trigger in [src/proctoria/db/init/01-init-database.sql] (module
        [Database])
    followed by the properties of the specification that are settled on it.

    Further parts of the service are embedded in modules of their own, each
    with its state, and their properties close the file:
      - [Auth]: the rate limiter of [middleware/auth.js];
      - [Registry]: the session records and the rooms of
        [services/sessionManager.js] ([createSession], [getSession],
        [updateSession], [validateSession], [joinRoom], [leaveRoom],
        [getRoomSessions], [getActiveSessions], [getStats]);
      - [Monitoring]: the monitoring handler, which calls into the registry;
      - [Admin]: [handleTerminateSession] of the admin handler.

    Conventions of the embedding.
      - JavaScript values that reach the handlers are the scalars of module
        [JS]; numbers are rationals extended with NaN and the two
        infinities, [Fin q] standing for the binary64 value nearest to [q].
        Comparisons against the decimal literals of the source are exact
        under this reading (no binary64 value lies strictly between a
        decimal literal and the double nearest to it); sums and products
        are rounded to binary64, to nearest and ties to even
        ([JS.binary64]).
      - The two conversions between strings and numbers that the language
        run-time performs are fields of [JS.Runtime]; the definitions that
        coerce take the run-time as an argument and the theorems hold for
        every run-time.
      - Handlers are computations in the monad [M]: a state [world] holding
        the handler objects' fields, the socket.io emissions, the pending
        timers and the HTTP requests issued so far, with exceptions.  The
        answers of the outside world (clock, random source, HTTP backend,
        redis link) are fields of [world] that the handlers only read.
      - [async]/[await] is read sequentially: one handler call runs to
        completion. *)

From Stdlib Require Import List String Ascii ZArith QArith Bool Lia Permutation.
From Stdlib Require Import DecimalString Lqa.
From Stdlib Require Import Qround Qpower Qabs.
Import ListNotations.

Open Scope string_scope.
Open Scope list_scope.

(* ------------------------------------------------------------------ *)
(** * JavaScript values *)

Module JS.

Inductive number : Type :=
| Fin (q : Q)
| NaN
| PosInf
| NegInf.

Inductive value : Type :=
| Undefined
| Null
| Bool (b : bool)
| Num (n : number)
| Str (s : string).

(** The part of the language run-time that is not written out here. *)
Record Runtime : Type := {
  StringToNumber : string -> number;   (* ToNumber applied to a string *)
  NumberToString : number -> string    (* Number::toString, radix 10 *)
}.

Definition Qltb (p q : Q) : bool := negb (Qle_bool q p).

(** [a < b] on numbers; a comparison with NaN is false. *)
Definition num_lt (a b : number) : bool :=
  match a, b with
  | NaN, _ | _, NaN => false
  | Fin p, Fin q => Qltb p q
  | Fin _, PosInf => true
  | Fin _, NegInf => false
  | PosInf, _ => false
  | NegInf, NegInf => false
  | NegInf, _ => true
  end.

(** [a <= b] on numbers. *)
Definition num_le (a b : number) : bool :=
  match a, b with
  | NaN, _ | _, NaN => false
  | Fin p, Fin q => Qle_bool p q
  | Fin _, PosInf => true
  | Fin _, NegInf => false
  | PosInf, PosInf => true
  | PosInf, _ => false
  | NegInf, _ => true
  end.

(** The sum and the product of two numbers, exact where both are finite. *)
Definition num_add (a b : number) : number :=
  match a, b with
  | NaN, _ | _, NaN => NaN
  | Fin p, Fin q => Fin (p + q)
  | PosInf, NegInf | NegInf, PosInf => NaN
  | PosInf, _ | _, PosInf => PosInf
  | NegInf, _ | _, NegInf => NegInf
  end.

Definition flip_inf (pos : bool) : number := if pos then PosInf else NegInf.

(** An infinity of sign [pos] times the finite [q]. *)
Definition inf_times (pos : bool) (q : Q) : number :=
  if Qeq_bool q 0 then NaN
  else if Qltb 0 q then flip_inf pos else flip_inf (negb pos).

Definition num_mul (a b : number) : number :=
  match a, b with
  | NaN, _ | _, NaN => NaN
  | Fin p, Fin q => Fin (p * q)
  | PosInf, Fin q | Fin q, PosInf => inf_times true q
  | NegInf, Fin q | Fin q, NegInf => inf_times false q
  | PosInf, PosInf | NegInf, NegInf => PosInf
  | PosInf, NegInf | NegInf, PosInf => NegInf
  end.

(** ** Double precision

    The numbers of the language are the binary64 values, and so are the
    [double precision] values of the database: [Fin q] stands for the double
    nearest to [q].  [num_add] and [num_mul] above are the exact sum and
    product; the operators round them. *)

(** The integer nearest to [q]; of two that are equally near, the even
    one. *)
Definition round_half_even (q : Q) : Z :=
  let f := Qfloor q in
  match Qcompare (q - inject_Z f) (1 # 2) with
  | Lt => f
  | Eq => if Z.even f then f else (f + 1)%Z
  | Gt => (f + 1)%Z
  end.

(** The integer part of the binary logarithm of a positive rational: the
    difference of the bit lengths of numerator and denominator, or one
    less. *)
Definition ilog2 (q : Q) : Z :=
  let k := (Z.log2 (Qnum q) - Z.log2 (Zpos (Qden q)))%Z in
  if Qle_bool (2 ^ k) q then k else (k - 1)%Z.

(** The exponent of the last place of the double nearest to a positive
    rational: 53 significant bits, and no place below 2^-1074. *)
Definition exponent (q : Q) : Z := Z.max (ilog2 q - 52) (-1074).

(** The multiple of [2 ^ e] nearest to [q], ties to the even multiple. *)
Definition grid (e : Z) (q : Q) : Q :=
  (inject_Z (round_half_even (q / 2 ^ e)) * 2 ^ e)%Q.

Definition nearest_double (q : Q) : Q := grid (exponent q) q.

(** Rounding to nearest, ties to even; what rounds to 2^1024 or beyond is
    an infinity. *)
Definition binary64 (n : number) : number :=
  match n with
  | Fin q =>
      match Qcompare q 0 with
      | Eq => Fin 0
      | Gt => let r := nearest_double q in
              if Qle_bool (2 ^ 1024) r then PosInf else Fin (Qred r)
      | Lt => let r := nearest_double (- q) in
              if Qle_bool (2 ^ 1024) r then NegInf else Fin (Qred (- r))
      end
  | _ => n
  end.

(** [a + b] and [a * b] on two doubles. *)
Definition Number_add (a b : number) : number := binary64 (num_add a b).
Definition Number_multiply (a b : number) : number := binary64 (num_mul a b).

(** Truthiness, as tested by [!x] and [x || y]. *)
Definition truthy (v : value) : bool :=
  match v with
  | Undefined | Null => false
  | Bool b => b
  | Num (Fin q) => negb (Qeq_bool q 0)
  | Num NaN => false
  | Num _ => true
  | Str s => negb (String.eqb s "")
  end.

Section Coercions.
Variable rt : Runtime.

Definition ToNumber (v : value) : number :=
  match v with
  | Undefined => NaN
  | Null => Fin 0
  | Bool true => Fin 1
  | Bool false => Fin 0
  | Num n => n
  | Str s => StringToNumber rt s
  end.

(** Also the property key a value denotes and its rendering inside a
    template literal. *)
Definition ToString (v : value) : string :=
  match v with
  | Undefined => "undefined"
  | Null => "null"
  | Bool true => "true"
  | Bool false => "false"
  | Num n => NumberToString rt n
  | Str s => s
  end.

(** [v < k], [v > k], [v >= k] and [v * k] for a numeric literal [k]. *)
Definition lt_lit (v : value) (k : Q) : bool := num_lt (ToNumber v) (Fin k).
Definition gt_lit (v : value) (k : Q) : bool := num_lt (Fin k) (ToNumber v).
Definition ge_lit (v : value) (k : Q) : bool := num_le (Fin k) (ToNumber v).
Definition mul_lit (v : value) (k : Q) : number :=
  Number_multiply (binary64 (ToNumber v)) (binary64 (Fin k)).
End Coercions.

(** [arr.includes(v)] for an array literal of strings (SameValueZero). *)
Definition includes (arr : list string) (v : value) : bool :=
  match v with
  | Str s => existsb (String.eqb s) arr
  | _ => false
  end.

(** [v === "lit"]. *)
Definition is_str (v : value) (lit : string) : bool :=
  match v with
  | Str s => String.eqb s lit
  | _ => false
  end.

(** Names that every object literal inherits from [Object.prototype]:
    a lookup [o[k]] on a plain object with no own property [k] yields a
    function (or, for [__proto__], the prototype object) at these keys and
    [undefined] at every other key. *)
Definition object_prototype_keys : list string :=
  [ "constructor"; "__proto__"; "hasOwnProperty"; "isPrototypeOf";
    "propertyIsEnumerable"; "toLocaleString"; "toString"; "valueOf";
    "__defineGetter__"; "__defineSetter__"; "__lookupGetter__";
    "__lookupSetter__" ].

Definition inherited (k : string) : bool :=
  existsb (String.eqb k) object_prototype_keys.

End JS.

Import JS.

(* ------------------------------------------------------------------ *)
(** * Violations and their severity (violationHandler.js) *)

Inductive severity : Type := critical | high | medium | low.

Definition severity_eqb (a b : severity) : bool :=
  match a, b with
  | critical, critical | high, high | medium, medium | low, low => true
  | _, _ => false
  end.

(** What [behaviorEvent.eventData] holds: the two members the classifier
    reads.  [keys] is an array when present. *)
Record eventData : Type := {
  context : value;
  keys : option (list value)
}.

(** The [metadata] member is carried along and never inspected. *)
Inductive metadata : Type :=
| MetaEmpty                                  (* the literal {} *)
| MetaValue (v : value)
| MetaEvent (d : option eventData).

(** The payload of a 'violation_detected' event, and what [analyzeBehavior]
    pushes. *)
Record violationData : Type := {
  d_type : value;
  d_confidence : value;
  d_details : value;
  d_screenshot : value;
  d_metadata : option metadata
}.

Record violation : Type := {
  sessionId : value;
  userId : value;
  type : value;
  confidence : value;
  details : value;
  timestamp : value;
  screenshot : value;
  meta : metadata
}.

Definition criticalViolations : list string :=
  ["multiple_faces"; "identity_mismatch"; "copy_paste"; "developer_tools"].
Definition highViolations : list string :=
  ["face_not_detected"; "phone_detected"; "tab_switch"; "suspicious_audio"].
Definition mediumViolations : list string :=
  ["gaze_deviation"; "poor_posture"; "window_focus_lost"].

Definition getAlertSeverity (rt : Runtime) (ty conf : value) : severity :=
  if includes criticalViolations ty || ge_lit rt conf (9 # 10) then critical
  else if includes highViolations ty || ge_lit rt conf (7 # 10) then high
  else if includes mediumViolations ty || ge_lit rt conf (5 # 10) then medium
  else low.

Definition requiredFields : list string :=
  ["sessionId"; "userId"; "type"; "confidence"; "timestamp"].

(** [violation[field]] for the names in [requiredFields]. *)
Definition get_field (v : violation) (field : string) : value :=
  if String.eqb field "sessionId" then sessionId v
  else if String.eqb field "userId" then userId v
  else if String.eqb field "type" then type v
  else if String.eqb field "confidence" then confidence v
  else if String.eqb field "timestamp" then timestamp v
  else Undefined.

Definition validateViolation (rt : Runtime) (v : violation) : bool :=
  if existsb (fun field => negb (truthy (get_field v field))) requiredFields
  then false
  else if lt_lit rt (confidence v) 0 || gt_lit rt (confidence v) 1
  then false
  else true.

(* ------------------------------------------------------------------ *)
(** * The state the handlers act on *)

Inductive exn : Type :=
| TypeError (msg : string)
| Error (msg : string).

Definition exn_message (e : exn) : string :=
  match e with TypeError m | Error m => m end.

Inductive result (A : Type) : Type :=
| Ok (a : A)
| Throw (e : exn).

Arguments Ok {A} a.
Arguments Throw {A} e.

(** Where an emission goes: [socket.emit] reaches one connection,
    [io.to(room).emit] every connection that joined the room. *)
Inductive target : Type :=
| ToSocket (socket_id : string)
| ToRoom (room : string).

(** What one item of a bulk action returned. *)
Inductive actionResult : Type :=
| MessageSent (messageId : string) (session : value)
| BackendData (data : value).

(** One element of the [results] array of a bulk action:
    [{sessionId, status: 'success', result}] or
    [{sessionId, status: 'error', error}]. *)
Inductive bulkEntry : Type :=
| Success (session : value) (res : actionResult)
| Failure (session : value) (error : string).

Definition entry_sessionId (e : bulkEntry) : value :=
  match e with Success s _ | Failure s _ => s end.

Definition entry_status (e : bulkEntry) : string :=
  match e with Success _ _ => "success" | Failure _ _ => "error" end.

(** The objects sent with each event.  The human-readable text that
    [getViolationMessage] adds to the two student alerts takes no part in
    any routing decision and is left out. *)
Inductive payload : Type :=
| ErrorMessage (message : string)
| ViolationAlert (sev : severity) (ty conf ts : value)
| WarningPopup (ty ts : value)
| AdminNotification (session user ty conf det ts : value) (sev : severity)
| SessionFlaggedAdmin (session reason : string) (ts : Z)
| SessionFlaggedStudent (ts : Z)
| ScreenshotRequest (requestId : string) (session adminId : value) (ts : Z)
| ScreenshotTimeout (requestId : string) (session : value)
| ScreenshotRequestSent (requestId : string) (session : value) (ts : Z)
| AdminMessage (session message adminId : value) (ts : Z)
| BulkActionCompleted (action : value) (results : list bulkEntry) (ts : Z).

Record emission : Type := {
  to : target;
  event : string;
  body : payload
}.

(** The HTTP calls of the handlers, by endpoint:
    - [PostViolation]: POST /api/v1/violations/{sessionId}
    - [PostRecalculate]: POST /api/v1/risk-score/{sessionId}/recalculate
    - [PostTerminate]: POST /api/v1/sessions/{sessionId}/terminate
    - [PostFlag]: POST /api/v1/sessions/{sessionId}/flag *)
Inductive request : Type :=
| PostViolation (session ty conf det screenshot_url : value)
| PostRecalculate (session : string)
| PostTerminate (session reason terminated_by : value)
| PostFlag (session reason flagged_by : value).

(** The callbacks handed to [setTimeout], one constructor per closure. *)
Inductive callback : Type :=
| ScreenshotTimeoutCallback (socket_id requestId : string) (session : value).

Record timer : Type := {
  delay : Z;             (* milliseconds left *)
  on_fire : callback
}.

(** A record of [sessionManager.sessions]. *)
Record session : Type := {
  lastActivity : Z;      (* the Date, in milliseconds *)
  isActive : bool
}.

Record world : Type := {
  (* ViolationHandler.violationQueue, a Map in insertion order *)
  violationQueue : list (string * violation);
  (* SessionManager.sessions, a Map in insertion order *)
  sessions : list (string * session);
  (* socket.io emissions, oldest first *)
  outbox : list emission;
  (* callbacks registered with setTimeout and not fired yet *)
  timers : list timer;
  (* HTTP requests issued, oldest first *)
  requests : list request;
  (* keys deleted from redis, oldest first *)
  redis_deleted : list string;
  (* how many times the clock and the random source were read *)
  reads : nat;
  (* the outside world: what the n-th read of Date.now() and of
     Math.random() returns, what the backend answers to a request given the
     requests before it (None: the call fails or times out), and whether the
     redis link is up *)
  clock : nat -> Z;
  random : nat -> number;
  backend : list request -> request -> option value;
  redis_connected : bool
}.

Definition set_violationQueue (q : list (string * violation)) (w : world) : world :=
  {| violationQueue := q; sessions := sessions w; outbox := outbox w;
     timers := timers w; requests := requests w;
     redis_deleted := redis_deleted w; reads := reads w; clock := clock w;
     random := random w; backend := backend w;
     redis_connected := redis_connected w |}.

Definition set_sessions (s : list (string * session)) (w : world) : world :=
  {| violationQueue := violationQueue w; sessions := s; outbox := outbox w;
     timers := timers w; requests := requests w;
     redis_deleted := redis_deleted w; reads := reads w; clock := clock w;
     random := random w; backend := backend w;
     redis_connected := redis_connected w |}.

Definition set_outbox (o : list emission) (w : world) : world :=
  {| violationQueue := violationQueue w; sessions := sessions w; outbox := o;
     timers := timers w; requests := requests w;
     redis_deleted := redis_deleted w; reads := reads w; clock := clock w;
     random := random w; backend := backend w;
     redis_connected := redis_connected w |}.

Definition set_timers (t : list timer) (w : world) : world :=
  {| violationQueue := violationQueue w; sessions := sessions w;
     outbox := outbox w; timers := t; requests := requests w;
     redis_deleted := redis_deleted w; reads := reads w; clock := clock w;
     random := random w; backend := backend w;
     redis_connected := redis_connected w |}.

Definition set_requests (r : list request) (w : world) : world :=
  {| violationQueue := violationQueue w; sessions := sessions w;
     outbox := outbox w; timers := timers w; requests := r;
     redis_deleted := redis_deleted w; reads := reads w; clock := clock w;
     random := random w; backend := backend w;
     redis_connected := redis_connected w |}.

Definition set_redis_deleted (d : list string) (w : world) : world :=
  {| violationQueue := violationQueue w; sessions := sessions w;
     outbox := outbox w; timers := timers w; requests := requests w;
     redis_deleted := d; reads := reads w; clock := clock w;
     random := random w; backend := backend w;
     redis_connected := redis_connected w |}.

Definition set_reads (n : nat) (w : world) : world :=
  {| violationQueue := violationQueue w; sessions := sessions w;
     outbox := outbox w; timers := timers w; requests := requests w;
     redis_deleted := redis_deleted w; reads := n; clock := clock w;
     random := random w; backend := backend w;
     redis_connected := redis_connected w |}.

(** ** The handler monad: state and exceptions *)

Definition M (A : Type) : Type := world -> result A * world.

Definition ret {A : Type} (a : A) : M A := fun w => (Ok a, w).

Definition bind {A B : Type} (m : M A) (k : A -> M B) : M B :=
  fun w =>
    match m w with
    | (Ok a, w') => k a w'
    | (Throw e, w') => (Throw e, w')
    end.

Definition throw {A : Type} (e : exn) : M A := fun w => (Throw e, w).

(** [try { m } catch (e) { h e }]. *)
Definition try_catch {A : Type} (m : M A) (h : exn -> M A) : M A :=
  fun w =>
    match m w with
    | (Ok a, w') => (Ok a, w')
    | (Throw e, w') => h e w'
    end.

Declare Scope js_scope.
Delimit Scope js_scope with js.
Notation "x <- m ;; k" := (bind m (fun x => k))
  (at level 61, m at next level, right associativity) : js_scope.
Notation "m ;; k" := (bind m (fun _ => k))
  (at level 61, right associativity) : js_scope.
Open Scope js_scope.

(** [socket.emit(event, body)] and [io.to(room).emit(event, body)]. *)
Definition emit (t : target) (ev : string) (b : payload) : M unit :=
  fun w => (Ok tt, set_outbox (outbox w ++ [{| to := t; event := ev; body := b |}]) w).

Definition Date_now : M Z :=
  fun w => (Ok (clock w (reads w)), set_reads (S (reads w)) w).

Definition Math_random : M number :=
  fun w => (Ok (random w (reads w)), set_reads (S (reads w)) w).

(** [await axios.post(...)]: the request is issued; a failed call throws,
    a successful one yields [response.data]. *)
Definition axios_post (r : request) : M value :=
  fun w =>
    let w' := set_requests (requests w ++ [r]) w in
    match backend w (requests w) r with
    | Some data => (Ok data, w')
    | None => (Throw (Error "Request failed"), w')
    end.

Definition setTimeout (cb : callback) (ms : Z) : M unit :=
  fun w => (Ok tt, set_timers (timers w ++ [{| delay := ms; on_fire := cb |}]) w).

(** [for (const x of xs) { await f x }]. *)
Fixpoint for_of {A : Type} (xs : list A) (f : A -> M unit) : M unit :=
  match xs with
  | [] => ret tt
  | x :: rest => f x ;; for_of rest f
  end.

(* ------------------------------------------------------------------ *)
(** * violationHandler.js *)

(** The members of a connection that the handlers read. *)
Record socket : Type := {
  socket_id : string;
  currentSession : value;
  socket_userId : value;
  isAdmin : bool;
  permissions : option (list value);
  adminId : value
}.

(** The argument of the 'behavior_event' handler. *)
Record behaviorData : Type := {
  eventType : value;
  eventData_of : option eventData
}.

Record behaviorEvent : Type := {
  b_sessionId : value;
  b_userId : value;
  b_eventType : value;
  b_eventData : option eventData;
  b_timestamp : Z
}.

Definition num_of_Z (z : Z) : value := Num (Fin (inject_Z z)).

(** [data.metadata || {}]. *)
Definition metadata_or_empty (m : option metadata) : metadata :=
  match m with
  | None => MetaEmpty
  | Some (MetaValue v) => if truthy v then MetaValue v else MetaEmpty
  | Some (MetaEvent None) => MetaEmpty
  | Some m' => m'
  end.

(** [Map.prototype.set]: the value of an existing key is replaced in place,
    a new key goes last. *)
Fixpoint map_set {V : Type} (k : string) (v : V) (m : list (string * V))
  : list (string * V) :=
  match m with
  | [] => [(k, v)]
  | (k', v') :: rest =>
      if String.eqb k k' then (k, v) :: rest else (k', v') :: map_set k v rest
  end.

Fixpoint map_get {V : Type} (k : string) (m : list (string * V)) : option V :=
  match m with
  | [] => None
  | (k', v') :: rest => if String.eqb k k' then Some v' else map_get k rest
  end.

(** [Map.prototype.delete]. *)
Definition map_delete {V : Type} (k : string) (m : list (string * V))
  : list (string * V) :=
  filter (fun e => negb (String.eqb k (fst e))) m.

Definition addToQueue (rt : Runtime) (v : violation) : M string :=
  rnd <- Math_random ;;
  let violationId :=
    String.append (ToString rt (sessionId v))
      (String.append "_"
         (String.append (ToString rt (timestamp v))
            (String.append "_" (NumberToString rt rnd)))) in
  fun w =>
    (Ok violationId, set_violationQueue (map_set violationId v (violationQueue w)) w).

Definition sendViolationAlert (rt : Runtime) (s : socket) (v : violation) : M unit :=
  let alertSeverity := getAlertSeverity rt (type v) (confidence v) in
  emit (ToSocket (socket_id s)) "violation_alert"
    (ViolationAlert alertSeverity (type v) (confidence v) (timestamp v)) ;;
  if severity_eqb alertSeverity high || severity_eqb alertSeverity critical
  then emit (ToSocket (socket_id s)) "warning_popup"
         (WarningPopup (type v) (timestamp v))
  else ret tt.

Definition notifyAdmins (rt : Runtime) (v : violation) : M unit :=
  let sev := getAlertSeverity rt (type v) (confidence v) in
  let adminNotification :=
    AdminNotification (sessionId v) (userId v) (type v) (confidence v)
      (details v) (timestamp v) sev in
  emit (ToRoom "admin_monitoring") "violation_notification" adminNotification ;;
  if severity_eqb sev critical
  then emit (ToRoom "admin_monitoring") "critical_violation" adminNotification
  else ret tt.

Definition storeViolation (v : violation) : M unit :=
  try_catch
    (axios_post (PostViolation (sessionId v) (type v) (confidence v)
                   (details v) (screenshot v)) ;;
     ret tt)
    (fun _ => ret tt).

(** The object literal that opens [handleViolationDetected]; [now] is what
    [Date.now()] returned. *)
Definition new_violation (s : socket) (d : violationData) (now : Z) : violation :=
  {| sessionId := currentSession s;
     userId := socket_userId s;
     type := d_type d;
     confidence := d_confidence d;
     details := d_details d;
     timestamp := num_of_Z now;
     screenshot := d_screenshot d;
     meta := metadata_or_empty (d_metadata d) |}.

Definition handleViolationDetected (rt : Runtime) (s : socket)
    (data : option violationData) : M unit :=
  try_catch
    (match data with
     | None => throw (TypeError "Cannot read properties of undefined (reading 'type')")
     | Some d =>
         now <- Date_now ;;
         let violation := new_violation s d now in
         if negb (validateViolation rt violation)
         then emit (ToSocket (socket_id s)) "error"
                (ErrorMessage "Invalid violation data")
         else
           addToQueue rt violation ;;
           sendViolationAlert rt s violation ;;
           notifyAdmins rt violation ;;
           storeViolation violation
     end)
    (fun _ =>
       emit (ToSocket (socket_id s)) "error"
         (ErrorMessage "Failed to process violation")).

Definition pushed (ty : string) (conf : Q) (det : string) (e : behaviorEvent)
  : violationData :=
  {| d_type := Str ty;
     d_confidence := Num (Fin conf);
     d_details := Str det;
     d_screenshot := Undefined;
     d_metadata := Some (MetaEvent (b_eventData e)) |}.

(** [analyzeBehavior] touches no state; it can only return or throw. *)
Definition analyzeBehavior (e : behaviorEvent) : result (list violationData) :=
  if is_str (b_eventType e) "tab_switch" then
    Ok [pushed "tab_switch" (9 # 10) "Student switched browser tabs" e]
  else if is_str (b_eventType e) "copy_paste" then
    Ok [pushed "copy_paste" (95 # 100) "Copy-paste activity detected" e]
  else if is_str (b_eventType e) "right_click" then
    match b_eventData e with
    | None => Throw (TypeError "Cannot read properties of undefined (reading 'context')")
    | Some d =>
        if is_str (context d) "text_selection"
        then Ok [pushed "suspicious_interaction" (6 # 10) "Right-click on text detected" e]
        else Ok []
    end
  else if is_str (b_eventType e) "key_combination" then
    match b_eventData e with
    | None => Throw (TypeError "Cannot destructure property 'keys' of undefined")
    | Some d =>
        match keys d with
        | None => Throw (TypeError "Cannot read properties of undefined (reading 'includes')")
        | Some ks =>
            if existsb (fun k => is_str k "ctrl") ks
               && (existsb (fun k => is_str k "c") ks
                   || existsb (fun k => is_str k "v") ks)
            then Ok [pushed "copy_paste_shortcut" (8 # 10)
                       "Copy/paste keyboard shortcut detected" e]
            else Ok []
        end
    end
  else if is_str (b_eventType e) "window_blur" then
    Ok [pushed "window_focus_lost" (7 # 10) "Browser window lost focus" e]
  else if is_str (b_eventType e) "fullscreen_exit" then
    Ok [pushed "fullscreen_violation" (8 # 10) "Student exited fullscreen mode" e]
  else Ok [].

Definition lift {A : Type} (r : result A) : M A := fun w => (r, w).

Definition handleBehaviorEvent (rt : Runtime) (s : socket)
    (data : option behaviorData) : M unit :=
  try_catch
    (match data with
     | None => throw (TypeError "Cannot read properties of undefined (reading 'eventType')")
     | Some d =>
         now <- Date_now ;;
         let behaviorEvent :=
           {| b_sessionId := currentSession s;
              b_userId := socket_userId s;
              b_eventType := eventType d;
              b_eventData := eventData_of d;
              b_timestamp := now |} in
         violations <- lift (analyzeBehavior behaviorEvent) ;;
         for_of violations (fun violation =>
           handleViolationDetected rt s (Some violation))
     end)
    (fun _ => ret tt).

(** ** The aggregator tick *)

(** [violations.reduce((sum, v) => sum + (v.confidence * 0.1), 0)]. *)
Definition riskIncrement (rt : Runtime) (violations : list violation) : number :=
  fold_left (fun sum v => Number_add sum (mul_lit rt (confidence v) (1 # 10)))
    violations (Fin 0).

Definition flagSession (session reason : string) : M unit :=
  t1 <- Date_now ;;
  emit (ToRoom "admin_monitoring") "session_flagged"
    (SessionFlaggedAdmin session reason t1) ;;
  t2 <- Date_now ;;
  emit (ToRoom (String.append "session_" session)) "session_flagged"
    (SessionFlaggedStudent t2).

Definition is_critical (rt : Runtime) (v : violation) : bool :=
  severity_eqb (getAlertSeverity rt (type v) (confidence v)) critical.

Definition processSessionViolations (rt : Runtime) (session : string)
    (violations : list violation) : M unit :=
  let risk := riskIncrement rt violations in
  try_catch (axios_post (PostRecalculate session) ;; ret tt) (fun _ => ret tt) ;;
  let criticals := filter (is_critical rt) violations in
  if (2 <=? List.length criticals)%nat
  then flagSession session "Multiple critical violations detected"
  else ret tt.

(** One step of the grouping [reduce]: [groups] is the accumulator object,
    its own properties in insertion order.  Reading [groups[k]] finds an own
    property or, failing that, what the object inherits; an inherited member
    is truthy and has no [push]. *)
Definition group_step (rt : Runtime) (groups : list (string * list violation))
    (v : violation) : result (list (string * list violation)) :=
  let k := ToString rt (sessionId v) in
  match map_get k groups with
  | Some vs => Ok (map_set k (vs ++ [v]) groups)
  | None =>
      if inherited k
      then Throw (TypeError "groups[violation.sessionId].push is not a function")
      else Ok (map_set k [v] groups)
  end.

Fixpoint reduce {A B : Type} (f : B -> A -> result B) (xs : list A) (init : B)
  : result B :=
  match xs with
  | [] => Ok init
  | x :: rest =>
      match f init x with
      | Ok acc => reduce f rest acc
      | Throw e => Throw e
      end
  end.

Definition sessionGroups (rt : Runtime) (violations : list violation)
  : result (list (string * list violation)) :=
  reduce (group_step rt) violations [].

Definition is_digit (c : ascii) : bool :=
  let n := nat_of_ascii c in (48 <=? n)%nat && (n <=? 57)%nat.

Fixpoint digits_value (s : string) (acc : N) : option N :=
  match s with
  | EmptyString => Some acc
  | String c rest =>
      if is_digit c
      then digits_value rest (acc * 10 + N.of_nat (nat_of_ascii c - 48))%N
      else None
  end.

(** The array index a property key denotes, if any: a canonical decimal
    numeral below 2^32 - 1. *)
Definition array_index (k : string) : option N :=
  match k with
  | EmptyString => None
  | String c rest =>
      if Ascii.eqb c "0"%char && negb (String.eqb rest "") then None
      else match digits_value k 0 with
           | Some n => if (n <=? 4294967294)%N then Some n else None
           | None => None
           end
  end.

Fixpoint insert_by_index {V : Type} (n : N) (e : string * V)
    (l : list (N * (string * V))) : list (N * (string * V)) :=
  match l with
  | [] => [(n, e)]
  | (m, e') :: rest =>
      if (n <? m)%N then (n, e) :: l else (m, e') :: insert_by_index n e rest
  end.

(** [Object.entries]: own properties that are array indices first, in
    ascending order, then the other keys in insertion order. *)
Fixpoint entries_split {V : Type} (o : list (string * V))
  : list (N * (string * V)) * list (string * V) :=
  match o with
  | [] => ([], [])
  | e :: rest =>
      let (ints, strs) := entries_split rest in
      match array_index (fst e) with
      | Some n => (insert_by_index n e ints, strs)
      | None => (ints, e :: strs)
      end
  end.

Definition Object_entries {V : Type} (o : list (string * V)) : list (string * V) :=
  let (ints, strs) := entries_split o in map snd ints ++ strs.

Definition processViolationQueue (rt : Runtime) : M unit :=
  fun w =>
    match violationQueue w with
    | [] => (Ok tt, w)
    | _ :: _ =>
        let violations := map snd (violationQueue w) in
        (groups <- lift (sessionGroups rt violations) ;;
         for_of (Object_entries groups) (fun entry =>
           try_catch
             (processSessionViolations rt (fst entry) (snd entry))
             (fun _ => ret tt)))
          (set_violationQueue [] w)
    end.

(* ------------------------------------------------------------------ *)
(** * The admin handler *)

Definition hasPermission (s : socket) (permission : string) : result bool :=
  if negb (isAdmin s) then Ok false
  else match permissions s with
       | None => Throw (TypeError "Cannot read properties of undefined (reading 'includes')")
       | Some ps =>
           if existsb (fun p => is_str p "super_admin") ps then Ok true
           else Ok (existsb (fun p => is_str p permission) ps)
       end.

Record screenshotData : Type := {
  sc_sessionId : value;
  sc_userId : value
}.

Definition session_room (rt : Runtime) (session : value) : string :=
  String.append "session_" (ToString rt session).

Definition handleRequestScreenshot (rt : Runtime) (s : socket)
    (data : option screenshotData) : M unit :=
  try_catch
    (allowed <- lift (hasPermission s "request_screenshots") ;;
     if negb allowed
     then emit (ToSocket (socket_id s)) "error"
            (ErrorMessage "Insufficient permissions")
     else
       match data with
       | None => throw (TypeError "Cannot destructure property 'sessionId' of undefined")
       | Some d =>
           t1 <- Date_now ;;
           rnd <- Math_random ;;
           let requestId :=
             String.append "scr_"
               (String.append (NumberToString rt (Fin (inject_Z t1)))
                  (String.append "_" (NumberToString rt rnd))) in
           t2 <- Date_now ;;
           emit (ToRoom (session_room rt (sc_sessionId d))) "screenshot_requested"
             (ScreenshotRequest requestId (sc_sessionId d) (adminId s) t2) ;;
           setTimeout
             (ScreenshotTimeoutCallback (socket_id s) requestId (sc_sessionId d))
             30000 ;;
           emit (ToSocket (socket_id s)) "screenshot_request_sent"
             (ScreenshotRequestSent requestId (sc_sessionId d) t2)
       end)
    (fun _ =>
       emit (ToSocket (socket_id s)) "error"
         (ErrorMessage "Failed to request screenshot")).

(** The body of the closure given to [setTimeout]. *)
Definition run_callback (cb : callback) : M unit :=
  match cb with
  | ScreenshotTimeoutCallback sid requestId session =>
      emit (ToSocket sid) "screenshot_timeout" (ScreenshotTimeout requestId session)
  end.

Fixpoint insert_timer (t : timer) (l : list timer) : list timer :=
  match l with
  | [] => [t]
  | t' :: rest =>
      if (delay t <? delay t')%Z then t :: l else t' :: insert_timer t rest
  end.

(** The timer phase of the event loop after [ms] milliseconds with no other
    event: the callbacks that are due run, earliest first, and leave the
    list; the others wait [ms] less. *)
Definition elapse (ms : Z) : M unit :=
  fun w =>
    let due := filter (fun t => (delay t <=? ms)%Z) (timers w) in
    let waiting := filter (fun t => negb (delay t <=? ms)%Z) (timers w) in
    for_of (fold_right insert_timer [] due) (fun t => run_callback (on_fire t))
      (set_timers
         (map (fun t => {| delay := delay t - ms; on_fire := on_fire t |}) waiting)
         w).

Record bulkParameters : Type := {
  p_message : value;
  p_reason : value
}.

Record bulkData : Type := {
  sessionIds : option (list value);
  action : value;
  parameters : option bulkParameters
}.

Definition sendBulkMessage (rt : Runtime) (session message admin : value)
  : M actionResult :=
  t1 <- Date_now ;;
  emit (ToRoom (session_room rt session)) "admin_message"
    (AdminMessage session message admin t1) ;;
  t2 <- Date_now ;;
  ret (MessageSent (String.append "msg_" (NumberToString rt (Fin (inject_Z t2))))
         session).

Definition terminateSessionInBackend (session reason admin : value)
  : M actionResult :=
  try_catch
    (data <- axios_post (PostTerminate session reason admin) ;;
     ret (BackendData data))
    (fun _ => throw (Error "Session termination failed")).

Definition flagSessionForReview (session reason admin : value)
  : M actionResult :=
  try_catch
    (data <- axios_post (PostFlag session reason admin) ;;
     ret (BackendData data))
    (fun _ => throw (Error "Session flagging failed")).

(** The [switch (action)] of the loop body. *)
Definition bulk_item (rt : Runtime) (s : socket) (act : value)
    (params : option bulkParameters) (session : value) : M actionResult :=
  if is_str act "send_message" then
    match params with
    | None => throw (TypeError "Cannot read properties of undefined (reading 'message')")
    | Some p => sendBulkMessage rt session (p_message p) (adminId s)
    end
  else if is_str act "terminate" then
    match params with
    | None => throw (TypeError "Cannot read properties of undefined (reading 'reason')")
    | Some p => terminateSessionInBackend session (p_reason p) (adminId s)
    end
  else if is_str act "flag" then
    match params with
    | None => throw (TypeError "Cannot read properties of undefined (reading 'reason')")
    | Some p => flagSessionForReview session (p_reason p) (adminId s)
    end
  else throw (Error (String.append "Unknown bulk action: " (ToString rt act))).

(** The [for ... of] loop with its inner [try]/[catch]; [results] is the
    array built so far. *)
Fixpoint bulk_loop (rt : Runtime) (s : socket) (act : value)
    (params : option bulkParameters) (ids : list value)
    (results : list bulkEntry) : M (list bulkEntry) :=
  match ids with
  | [] => ret results
  | session :: rest =>
      results' <-
        try_catch
          (res <- bulk_item rt s act params session ;;
           ret (results ++ [Success session res]))
          (fun error => ret (results ++ [Failure session (exn_message error)])) ;;
      bulk_loop rt s act params rest results'
  end.

Definition handleBulkAction (rt : Runtime) (s : socket) (data : option bulkData)
  : M unit :=
  try_catch
    (allowed <- lift (hasPermission s "bulk_actions") ;;
     if negb allowed
     then emit (ToSocket (socket_id s)) "error"
            (ErrorMessage "Insufficient permissions")
     else
       match data with
       | None => throw (TypeError "Cannot destructure property 'sessionIds' of undefined")
       | Some d =>
           match sessionIds d with
           | None => throw (TypeError "sessionIds is not iterable")
           | Some ids =>
               results <- bulk_loop rt s (action d) (parameters d) ids [] ;;
               t <- Date_now ;;
               emit (ToSocket (socket_id s)) "bulk_action_completed"
                 (BulkActionCompleted (action d) results t)
           end
       end)
    (fun _ =>
       emit (ToSocket (socket_id s)) "error"
         (ErrorMessage "Failed to perform bulk action")).

(* ------------------------------------------------------------------ *)
(** * sessionManager.js *)

(** [redisClient.del(key)] on a connected client: the command is issued;
    the wrapper swallows any failure. *)
Definition redis_del (key : string) : M unit :=
  fun w => (Ok tt, set_redis_deleted (redis_deleted w ++ [key]) w).

Definition deleteSession (session : string) : M bool :=
  try_catch
    (fun w =>
       ((if redis_connected w
         then redis_del (String.append "session:" session)
         else ret tt) ;;
        (fun w' => (Ok true, set_sessions (map_delete session (sessions w')) w')))
         w)
    (fun _ => ret false).

(** 2 * 60 * 60 * 1000 *)
Definition expiry_ms : Z := 2 * 60 * 60 * 1000.

Definition expired (now : Z) (s : session) : bool :=
  (expiry_ms <? now - lastActivity s)%Z.

Definition cleanupExpiredSessions : M nat :=
  try_catch
    (now <- Date_now ;;
     fun w =>
       (let expiredSessions :=
          map fst (filter (fun e => expired now (snd e)) (sessions w)) in
        for_of expiredSessions (fun id => deleteSession id ;; ret tt) ;;
        ret (List.length expiredSessions)) w)
    (fun _ => ret 0%nat).

Definition cleanupInactiveSessions : M nat := cleanupExpiredSessions.

(* ------------------------------------------------------------------ *)
(** * A run-time and a world to evaluate the model on *)

(** Integers are rendered and read in decimal, as ECMAScript does; the other
    cases are placeholders, so this run-time is meant for inputs whose
    numbers-as-text are integers. *)
Definition render_number (n : number) : string :=
  match n with
  | Fin q =>
      if (Zpos (Qden q) =? 1)%Z then NilZero.string_of_int (Z.to_int (Qnum q))
      else String.append (NilZero.string_of_int (Z.to_int (Qnum q)))
             (String.append "/" (NilZero.string_of_int (Z.to_int (Zpos (Qden q)))))
  | NaN => "NaN"
  | PosInf => "Infinity"
  | NegInf => "-Infinity"
  end.

Definition read_number (s : string) : number :=
  match NilZero.int_of_string s with
  | Some i => Fin (inject_Z (Z.of_int i))
  | None => NaN
  end.

Definition decimal_runtime : Runtime :=
  {| StringToNumber := read_number; NumberToString := render_number |}.

(** An idle server: nothing queued, registered or sent; the clock starts
    at [t0] and advances by one millisecond per read, the random source
    returns 0 and the backend accepts every request. *)
Definition idle (t0 : Z) : world :=
  {| violationQueue := []; sessions := []; outbox := []; timers := [];
     requests := []; redis_deleted := []; reads := 0;
     clock := fun n => (t0 + Z.of_nat n)%Z;
     random := fun _ => Fin 0;
     backend := fun _ _ => Some Null;
     redis_connected := false |}.

Definition student (sid session user : string) : socket :=
  {| socket_id := sid; currentSession := Str session; socket_userId := Str user;
     isAdmin := false; permissions := None; adminId := Undefined |}.

Definition observer (sid admin : string) (perms : list string) : socket :=
  {| socket_id := sid; currentSession := Undefined; socket_userId := Str admin;
     isAdmin := true; permissions := Some (map Str perms); adminId := Str admin |}.

Definition detection (ty : string) (conf : Q) : violationData :=
  {| d_type := Str ty; d_confidence := Num (Fin conf); d_details := Undefined;
     d_screenshot := Undefined; d_metadata := None |}.

(* ------------------------------------------------------------------ *)
(** * The vocabulary of the properties *)

(** ** Severity *)

(** The derivation as the specification words it: the first matching line
    of "critical if the type is in the critical set or confidence >= 0.9;
    else high if ... >= 0.7; else medium if ... >= 0.5; else low". *)
Inductive severity_spec (t : string) (c : Q) : severity -> Prop :=
| spec_critical :
    In t criticalViolations \/ (9 # 10 <= c)%Q ->
    severity_spec t c critical
| spec_high :
    ~ (In t criticalViolations \/ (9 # 10 <= c)%Q) ->
    In t highViolations \/ (7 # 10 <= c)%Q ->
    severity_spec t c high
| spec_medium :
    ~ (In t criticalViolations \/ (9 # 10 <= c)%Q) ->
    ~ (In t highViolations \/ (7 # 10 <= c)%Q) ->
    In t mediumViolations \/ (5 # 10 <= c)%Q ->
    severity_spec t c medium
| spec_low :
    ~ (In t criticalViolations \/ (9 # 10 <= c)%Q) ->
    ~ (In t highViolations \/ (7 # 10 <= c)%Q) ->
    ~ (In t mediumViolations \/ (5 # 10 <= c)%Q) ->
    severity_spec t c low.

(** ** Validation *)

(** The answer a rejected report gets. *)
Definition rejection (s : socket) : emission :=
  {| to := ToSocket (socket_id s); event := "error";
     body := ErrorMessage "Invalid violation data" |}.

(** A confidence that is a number outside [0,1]. *)
Inductive outside_unit_interval : number -> Prop :=
| below_zero (q : Q) : (q < 0)%Q -> outside_unit_interval (Fin q)
| above_one (q : Q) : (1 < q)%Q -> outside_unit_interval (Fin q)
| plus_infinity : outside_unit_interval PosInf
| minus_infinity : outside_unit_interval NegInf.

(** ** The behaviour classifier *)

(** The violations a call of the classifier hands to its caller: none when
    it throws. *)
Definition yielded {A : Type} (r : result (list A)) : list A :=
  match r with
  | Ok l => l
  | Throw _ => []
  end.

(** One line of the table of the specification: the classifier returns
    exactly one violation, of type [ty], with confidence [conf]. *)
Definition yields_one (e : behaviorEvent) (ty : string) (conf : Q) : Prop :=
  exists d : violationData,
    analyzeBehavior e = Ok [d]
    /\ d_type d = Str ty
    /\ d_confidence d = Num (Fin conf).

Definition has_key (ks : list value) (k : string) : Prop := In (Str k) ks.

Definition known_kinds : list string :=
  ["tab_switch"; "copy_paste"; "right_click"; "key_combination";
   "window_blur"; "fullscreen_exit"].

(** ** Fan-out of an accepted violation *)

(** What the reporting connection is sent: the alert, and a pop-up warning
    when the severity is high or critical. *)
Definition student_alerts (rt : Runtime) (s : socket) (v : violation)
  : list emission :=
  let sev := getAlertSeverity rt (type v) (confidence v) in
  {| to := ToSocket (socket_id s); event := "violation_alert";
     body := ViolationAlert sev (type v) (confidence v) (timestamp v) |}
  :: match sev with
     | critical | high =>
         [{| to := ToSocket (socket_id s); event := "warning_popup";
             body := WarningPopup (type v) (timestamp v) |}]
     | medium | low => []
     end.

(** What the observer room is sent: the notification, always, and the
    emergency alert when the severity is critical. *)
Definition observer_alerts (rt : Runtime) (v : violation) : list emission :=
  let sev := getAlertSeverity rt (type v) (confidence v) in
  let note :=
    AdminNotification (sessionId v) (userId v) (type v) (confidence v)
      (details v) (timestamp v) sev in
  {| to := ToRoom "admin_monitoring"; event := "violation_notification";
     body := note |}
  :: match sev with
     | critical =>
         [{| to := ToRoom "admin_monitoring"; event := "critical_violation";
             body := note |}]
     | high | medium | low => []
     end.

Definition to_room (room : string) (e : emission) : bool :=
  match to e with
  | ToRoom r => String.eqb r room
  | ToSocket _ => false
  end.

Definition to_socket (sid : string) (e : emission) : bool :=
  match to e with
  | ToSocket k => String.eqb k sid
  | ToRoom _ => false
  end.

Definition is_room (e : emission) : bool :=
  match to e with
  | ToRoom _ => true
  | ToSocket _ => false
  end.

(** ** The aggregator tick *)

Definition admin_flag (session : string) (t : Z) : emission :=
  {| to := ToRoom "admin_monitoring"; event := "session_flagged";
     body := SessionFlaggedAdmin session "Multiple critical violations detected" t |}.

Definition student_flag (session : string) (t : Z) : emission :=
  {| to := ToRoom (String.append "session_" session); event := "session_flagged";
     body := SessionFlaggedStudent t |}.

(** The number of violations of a drained group whose derived severity is
    critical. *)
Definition critical_count (rt : Runtime) (vs : list violation) : nat :=
  List.length (filter (is_critical rt) vs).

(** The flag notifications for [session] among the emissions [o]: those
    sent to the session's own room, and those sent to the observer room
    about that session. *)
Definition flags_to_session (session : string) (o : list emission) : nat :=
  List.length
    (filter (fun e => to_room (String.append "session_" session) e
                      && String.eqb (event e) "session_flagged") o).

Definition names_session (session : string) (e : emission) : bool :=
  match body e with
  | SessionFlaggedAdmin k _ _ => String.eqb k session
  | _ => false
  end.

Definition flags_to_observers (session : string) (o : list emission) : nat :=
  List.length
    (filter (fun e => to_room "admin_monitoring" e
                      && String.eqb (event e) "session_flagged"
                      && names_session session e) o).

(** The own properties of the accumulator never shadow an inherited name. *)
Definition clean_keys {V : Type} (groups : list (string * V)) : Prop :=
  Forall (fun e => inherited (fst e) = false) groups.

(** *** Grouping by session *)

(** The property key under which a violation is grouped. *)
Definition session_key (rt : Runtime) (v : violation) : string :=
  ToString rt (sessionId v).

(** The group of [k] in a batch: its violations, in arrival order. *)
Definition group_of (rt : Runtime) (k : string) (vs : list violation)
  : list violation :=
  filter (fun v => String.eqb (session_key rt v) k) vs.

Definition all_clean (rt : Runtime) (vs : list violation) : bool :=
  forallb (fun v => negb (inherited (session_key rt v))) vs.

(** *** Flags per session *)

(** How many entries of the grouping object are the group of [k] and hold
    two critical violations or more. *)
Definition flagged_entries (rt : Runtime) (k : string)
    (entries : list (string * list violation)) : nat :=
  List.length
    (filter (fun e => (2 <=? critical_count rt (snd e))%nat && String.eqb (fst e) k)
       entries).

Definition process_entry (rt : Runtime) (entry : string * list violation) : M unit :=
  try_catch (processSessionViolations rt (fst entry) (snd entry)) (fun _ => ret tt).

(** *** The tick on concrete batches *)

Definition exec {A : Type} (m : M A) (w : world) : world := snd (m w).

(** Two copy-and-paste detections at confidence 0.95 reported on a
    connection of session S1. *)
Definition two_criticals_of_S1 : world :=
  exec (handleViolationDetected decimal_runtime (student "k1" "S1" "u1")
          (Some (detection "copy_paste" (95 # 100))))
    (exec (handleViolationDetected decimal_runtime (student "k1" "S1" "u1")
             (Some (detection "copy_paste" (95 # 100))))
       (idle 1000)).

(** The same, and one detection reported on a connection whose session
    identifier is the string constructor. *)
Definition with_inherited_key : world :=
  exec (handleViolationDetected decimal_runtime (student "k2" "constructor" "u2")
          (Some (detection "gaze_deviation" (6 # 10))))
    two_criticals_of_S1.

(** A behaviour event of the given kind with no payload. *)
Definition behavior (kind : string) : option behaviorData :=
  Some {| eventType := Str kind; eventData_of := None |}.

(** The scenario of the specification: tab_switch, copy_paste and
    tab_switch from one session within one window. *)
Definition scenario_S1 : world :=
  exec (handleBehaviorEvent decimal_runtime (student "k1" "S1" "u1")
          (behavior "tab_switch"))
    (exec (handleBehaviorEvent decimal_runtime (student "k1" "S1" "u1")
             (behavior "copy_paste"))
       (exec (handleBehaviorEvent decimal_runtime (student "k1" "S1" "u1")
                (behavior "tab_switch"))
          (idle 1000))).

(** ** The risk increment of a drained group *)

(** A report of session S1 at the given confidence. *)
Definition report (c : Q) : violation :=
  new_violation (student "k1" "S1" "u1") (detection "phone_detected" c) 1000.

Definition full_confidence_report : violation :=
  new_violation (student "k1" "S1" "u1") (detection "phone_detected" 1) 1000.

(** ** Bulk actions *)

Definition completion (s : socket) (act : value) (results : list bulkEntry) (t : Z)
  : emission :=
  {| to := ToSocket (socket_id s); event := "bulk_action_completed";
     body := BulkActionCompleted act results t |}.

(** What the entries of a bulk termination are, item by item: the entry of
    an identifier records the answer to that identifier's own request,
    which is issued whatever happened to the requests before it. *)
Fixpoint terminate_outcomes (bk : list request -> request -> option value)
    (history : list request) (reason admin : value) (ids : list value)
  : list bulkEntry :=
  match ids with
  | [] => []
  | session :: rest =>
      let r := PostTerminate session reason admin in
      match bk history r with
      | Some data => Success session (BackendData data)
      | None => Failure session "Session termination failed"
      end :: terminate_outcomes bk (history ++ [r]) reason admin rest
  end.

(** The backend of the example of the specification: it refuses to
    terminate session sB and accepts every other request. *)
Definition refuses_sB (w : world) : world :=
  {| violationQueue := violationQueue w; sessions := sessions w;
     outbox := outbox w; timers := timers w; requests := requests w;
     redis_deleted := redis_deleted w; reads := reads w; clock := clock w;
     random := random w;
     backend := fun _ r =>
       match r with
       | PostTerminate (Str "sB") _ _ => None
       | _ => Some Null
       end;
     redis_connected := redis_connected w |}.

Definition terminate_three : bulkData :=
  {| sessionIds := Some [Str "sA"; Str "sB"; Str "sC"];
     action := Str "terminate";
     parameters := Some {| p_message := Undefined; p_reason := Str "exam over" |} |}.

(** ** Screenshot requests and their timeout *)

(** What the callback of a timer sends when it fires. *)
Definition timeout_notice (t : timer) : emission :=
  match on_fire t with
  | ScreenshotTimeoutCallback sid requestId session =>
      {| to := ToSocket sid; event := "screenshot_timeout";
         body := ScreenshotTimeout requestId session |}
  end.

Definition is_timeout (e : emission) : bool :=
  String.eqb (event e) "screenshot_timeout".

(** ** The sweep of the session registry *)

(** Deleting a list of keys one after the other. *)
Definition delete_all (ids : list string) (m : list (string * session))
  : list (string * session) :=
  fold_left (fun acc id => map_delete id acc) ids m.

(** A registry with one session idle for two hours and one millisecond, one
    idle for exactly two hours and one active a minute ago, swept at
    time 10 000 000. *)
Definition registry_of_three : world :=
  set_sessions
    [("old", {| lastActivity := 2799999; isActive := true |});
     ("edge", {| lastActivity := 2800000; isActive := true |});
     ("fresh", {| lastActivity := 9940000; isActive := true |})]
    (idle 10000000).

(* ------------------------------------------------------------------ *)
(** * The vocabulary of further properties *)

(** ** The tick and the handlers *)

Definition is_flag (e : emission) : bool := String.eqb (event e) "session_flagged".

(** The answer to a request that the connection may not make. *)
Definition insufficient (s : socket) : emission :=
  {| to := ToSocket (socket_id s); event := "error";
     body := ErrorMessage "Insufficient permissions" |}.

(** A call that returned and sent something to the calling connection. *)
Definition answered (s : socket) (w : world) (r : result unit * world) : Prop :=
  fst r = Ok tt
  /\ exists before e after,
       outbox (snd r) = outbox w ++ before ++ e :: after
       /\ to e = ToSocket (socket_id s).

(** Severities in increasing order. *)
Definition severity_rank (s : severity) : nat :=
  match s with
  | low => 0
  | medium => 1
  | high => 2
  | critical => 3
  end.

(** The severity that the type alone gives: the cascade of
    [getAlertSeverity] with every confidence test false. *)
Definition severity_of_type (ty : value) : severity :=
  if includes criticalViolations ty then critical
  else if includes highViolations ty then high
  else if includes mediumViolations ty then medium
  else low.

(** The request that stores a violation. *)
Definition store_request (v : violation) : request :=
  PostViolation (sessionId v) (type v) (confidence v) (details v) (screenshot v).

(** The identifier under which [addToQueue] files a violation when the
    random source returns [rnd]. *)
Definition queue_id (rt : Runtime) (v : violation) (rnd : number) : string :=
  String.append (ToString rt (sessionId v))
    (String.append "_"
       (String.append (ToString rt (timestamp v))
          (String.append "_" (NumberToString rt rnd)))).

(** ** Bulk actions, action by action *)

(** What a bulk message sends when the first clock reading it takes is
    reading [n]: every item reads the clock twice, for the time of the
    message and for the identifier of the result. *)
Fixpoint message_emissions (rt : Runtime) (clk : nat -> Z) (n : nat)
    (message admin : value) (ids : list value) : list emission :=
  match ids with
  | [] => []
  | session :: rest =>
      {| to := ToRoom (session_room rt session); event := "admin_message";
         body := AdminMessage session message admin (clk n) |}
        :: message_emissions rt clk (S (S n)) message admin rest
  end.

Fixpoint message_entries (rt : Runtime) (clk : nat -> Z) (n : nat)
    (ids : list value) : list bulkEntry :=
  match ids with
  | [] => []
  | session :: rest =>
      Success session
        (MessageSent
           (String.append "msg_" (NumberToString rt (Fin (inject_Z (clk (S n))))))
           session)
        :: message_entries rt clk (S (S n)) rest
  end.

(** The entries of a bulk flag, item by item. *)
Fixpoint flag_outcomes (bk : list request -> request -> option value)
    (history : list request) (reason admin : value) (ids : list value)
  : list bulkEntry :=
  match ids with
  | [] => []
  | session :: rest =>
      let r := PostFlag session reason admin in
      match bk history r with
      | Some data => Success session (BackendData data)
      | None => Failure session "Session flagging failed"
      end :: flag_outcomes bk (history ++ [r]) reason admin rest
  end.

(** An action that the [switch] of the loop does not know. *)
Definition unknown_action (act : value) : bool :=
  negb (is_str act "send_message" || is_str act "terminate" || is_str act "flag").

(** ** Screenshot requests *)

Definition screenshot_failure (s : socket) : emission :=
  {| to := ToSocket (socket_id s); event := "error";
     body := ErrorMessage "Failed to request screenshot" |}.

(** ** The session registry *)

Definition redis_keys (connected : bool) (ids : list string) : list string :=
  if connected then map (String.append "session:") ids else [].

(* ------------------------------------------------------------------ *)
(** * Maps keyed by values *)

(** A [Map] whose keys are scalars: insertion-ordered, keys compared by
    SameValueZero. *)
Module ValueMap.

Definition num_same (a b : number) : bool :=
  match a, b with
  | Fin p, Fin q => Qeq_bool p q
  | NaN, NaN => true
  | PosInf, PosInf => true
  | NegInf, NegInf => true
  | _, _ => false
  end.

(** SameValueZero: NaN is the same as NaN. *)
Definition same_value_zero (a b : value) : bool :=
  match a, b with
  | Undefined, Undefined => true
  | Null, Null => true
  | Bool x, Bool y => Bool.eqb x y
  | Num x, Num y => num_same x y
  | Str x, Str y => String.eqb x y
  | _, _ => false
  end.

(** [a === b]: as SameValueZero, but NaN differs from NaN. *)
Definition strict_equal (a b : value) : bool :=
  match a, b with
  | Num NaN, Num NaN => false
  | _, _ => same_value_zero a b
  end.

Fixpoint get {V : Type} (k : value) (m : list (value * V)) : option V :=
  match m with
  | [] => None
  | (k', v') :: rest => if same_value_zero k k' then Some v' else get k rest
  end.

(** [Map.prototype.set]: a key that is present keeps its place. *)
Fixpoint set {V : Type} (k : value) (v : V) (m : list (value * V))
  : list (value * V) :=
  match m with
  | [] => [(k, v)]
  | (k', v') :: rest =>
      if same_value_zero k k' then (k', v) :: rest else (k', v') :: set k v rest
  end.

Definition has {V : Type} (k : value) (m : list (value * V)) : bool :=
  match get k m with Some _ => true | None => false end.

Definition delete {V : Type} (k : value) (m : list (value * V))
  : list (value * V) :=
  filter (fun e => negb (same_value_zero k (fst e))) m.

End ValueMap.

(* ------------------------------------------------------------------ *)
(** * middleware/auth.js: the rate limiter *)

Module Auth.

(** The record kept per client. *)
Record client : Type := {
  count : Z;
  resetTime : Z
}.

(** What the middleware hands to [next]. *)
Inductive verdict : Type :=
| Next
| NextError (e : exn).

(** [socket.userId || socket.id] *)
Definition clientId (s : socket) : value :=
  if truthy (socket_userId s) then socket_userId s else Str (socket_id s).

(** The middleware that [rateLimit(maxEvents, windowMs)] returns, applied
    to a connection when [Date.now()] reads [now]; [clients] is the map of
    the closure.  The two parameters and the clock are integers. *)
Definition rateLimit (maxEvents windowMs : Z) (s : socket) (now : Z)
    (clients : list (value * client)) : verdict * list (value * client) :=
  match ValueMap.get (clientId s) clients with
  | None =>
      (Next,
       ValueMap.set (clientId s) {| count := 1; resetTime := now + windowMs |} clients)
  | Some c =>
      if (resetTime c <? now)%Z then
        (Next,
         ValueMap.set (clientId s) {| count := 1; resetTime := now + windowMs |}
           clients)
      else if (maxEvents <=? count c)%Z then
        (NextError (Error "Rate limit exceeded"), clients)
      else
        (Next,
         ValueMap.set (clientId s)
           {| count := count c + 1; resetTime := resetTime c |} clients)
  end.

(** The same connection passing the middleware at each time of a list. *)
Fixpoint passes (maxEvents windowMs : Z) (s : socket) (times : list Z)
    (clients : list (value * client)) : list verdict * list (value * client) :=
  match times with
  | [] => ([], clients)
  | now :: rest =>
      let (v, clients') := rateLimit maxEvents windowMs s now clients in
      let (vs, clients'') := passes maxEvents windowMs s rest clients' in
      (v :: vs, clients'')
  end.

Definition rejected : verdict := NextError (Error "Rate limit exceeded").

(** How many connections pass in one window. *)
Definition quota (maxEvents : Z) : nat := Z.to_nat (Z.max 1 maxEvents).

End Auth.

(* ------------------------------------------------------------------ *)
(** * State and exceptions over any state *)

Module Stateful.
Section Over.
Variable S : Type.

Definition t (A : Type) : Type := S -> result A * S.

Definition ret {A : Type} (a : A) : t A := fun s => (Ok a, s).

Definition bind {A B : Type} (m : t A) (k : A -> t B) : t B :=
  fun s =>
    match m s with
    | (Ok a, s') => k a s'
    | (Throw e, s') => (Throw e, s')
    end.

Definition throw {A : Type} (e : exn) : t A := fun s => (Throw e, s).

Definition try_catch {A : Type} (m : t A) (h : exn -> t A) : t A :=
  fun s =>
    match m s with
    | (Ok a, s') => (Ok a, s')
    | (Throw e, s') => h e s'
    end.

Definition gets {A : Type} (f : S -> A) : t A := fun s => (Ok (f s), s).

Definition modify (f : S -> S) : t unit := fun s => (Ok tt, f s).

End Over.

Arguments ret {S A} a.
Arguments bind {S A B} m k.
Arguments throw {S A} e.
Arguments try_catch {S A} m h.
Arguments gets {S A} f.
Arguments modify {S} f.

End Stateful.

Declare Scope st_scope.
Delimit Scope st_scope with st.
Notation "x <- m ;; k" := (Stateful.bind m (fun x => k))
  (at level 61, m at next level, right associativity) : st_scope.
Notation "m ;; k" := (Stateful.bind m (fun _ => k))
  (at level 61, right associativity) : st_scope.

(* ------------------------------------------------------------------ *)
(** * services/sessionManager.js: the records and the rooms *)

(** The registry with whole session records.  A record is a plain object
    whose members are scalars or dates; the caller's data are spread into
    it. *)
Module Registry.
Local Open Scope st_scope.

Inductive field : Type :=
| Scalar (v : value)
| DateAt (ms : Z).               (* a [Date] object *)

Definition object : Type := list (string * field).

Fixpoint own (k : string) (o : object) : option field :=
  match o with
  | [] => None
  | (k', v) :: rest => if String.eqb k k' then Some v else own k rest
  end.

(** Defining a property: a name that is present keeps its place. *)
Fixpoint define (k : string) (v : field) (o : object) : object :=
  match o with
  | [] => [(k, v)]
  | (k', v') :: rest =>
      if String.eqb k k' then (k', v) :: rest else (k', v') :: define k v rest
  end.

(** The parts of an object literal: [...o] and [k: v]. *)
Inductive part : Type :=
| Spread (o : object)
| Entry (k : string) (v : field).

Definition literal (parts : list part) : object :=
  fold_left
    (fun acc p =>
       match p with
       | Spread o => fold_left (fun acc' e => define (fst e) (snd e) acc') o acc
       | Entry k v => define k v acc
       end)
    parts [].

(** [o.k] for a name that [Object.prototype] does not have. *)
Definition member (k : string) (o : object) : field :=
  match own k o with
  | Some v => v
  | None => Scalar Undefined
  end.

Definition truthy_field (f : field) : bool :=
  match f with
  | Scalar v => truthy v
  | DateAt _ => true
  end.

(** [f === v] for a scalar [v]. *)
Definition field_is (f : field) (v : value) : bool :=
  match f with
  | Scalar u => ValueMap.strict_equal u v
  | DateAt _ => false
  end.

(** A [Set] of scalars, in insertion order. *)
Definition set_add (x : value) (l : list value) : list value :=
  if existsb (ValueMap.same_value_zero x) l then l else l ++ [x].

Definition set_delete (x : value) (l : list value) : list value :=
  filter (fun y => negb (ValueMap.same_value_zero x y)) l.

Record state : Type := {
  sessions : list (value * object);
  roomSessions : list (value * list value);
  redis_written : list (string * object);
  ticks : nat;
  (* oracles *)
  clock : nat -> Z;
  redis_connected : bool;
  redis_stored : list (string * object) -> string -> option object
}.

Definition set_sessions (x : list (value * object)) (st : state) : state :=
  {| sessions := x; roomSessions := roomSessions st;
     redis_written := redis_written st; ticks := ticks st; clock := clock st;
     redis_connected := redis_connected st; redis_stored := redis_stored st |}.

Definition set_roomSessions (x : list (value * list value)) (st : state) : state :=
  {| sessions := sessions st; roomSessions := x;
     redis_written := redis_written st; ticks := ticks st; clock := clock st;
     redis_connected := redis_connected st; redis_stored := redis_stored st |}.

Definition set_redis_written (x : list (string * object)) (st : state) : state :=
  {| sessions := sessions st; roomSessions := roomSessions st;
     redis_written := x; ticks := ticks st; clock := clock st;
     redis_connected := redis_connected st; redis_stored := redis_stored st |}.

Definition set_ticks (x : nat) (st : state) : state :=
  {| sessions := sessions st; roomSessions := roomSessions st;
     redis_written := redis_written st; ticks := x; clock := clock st;
     redis_connected := redis_connected st; redis_stored := redis_stored st |}.

Definition R (A : Type) : Type := Stateful.t state A.

(** [new Date()] *)
Definition new_Date : R Z :=
  fun st => (Ok (clock st (ticks st)), set_ticks (S (ticks st)) st).

(** [redisClient.setex(key, 3600, JSON.stringify(record))]; the wrapper
    swallows a failure. *)
Definition redis_setex (key : string) (record : object) : R unit :=
  Stateful.modify (fun st => set_redis_written (redis_written st ++ [(key, record)]) st).

(** [redisClient.get(key)] followed by [JSON.parse]: what a connected
    Redis holds under the key is a record or nothing, and depends on what
    was written. *)
Definition redis_get (key : string) : R (option object) :=
  Stateful.gets (fun st => redis_stored st (redis_written st) key).

Definition session_key (rt : Runtime) (sessionId : value) : string :=
  String.append "session:" (ToString rt sessionId).

Section WithRuntime.
Variable rt : Runtime.

Definition createSession (sessionId : value) (sessionData : object) : R object :=
  Stateful.try_catch
    (createdAt <- new_Date ;;
     lastActivity <- new_Date ;;
     let session :=
       literal [Entry "id" (Scalar sessionId); Spread sessionData;
                Entry "createdAt" (DateAt createdAt);
                Entry "lastActivity" (DateAt lastActivity);
                Entry "isActive" (Scalar (Bool true))] in
     connected <- Stateful.gets redis_connected ;;
     (if connected then redis_setex (session_key rt sessionId) session
      else Stateful.ret tt) ;;
     Stateful.modify
       (fun st => set_sessions (ValueMap.set sessionId session (sessions st)) st) ;;
     Stateful.ret session)
    (fun error => Stateful.throw error).

(** The result is [None] for [null]. *)
Definition getSession (sessionId : value) : R (option object) :=
  Stateful.try_catch
    (connected <- Stateful.gets redis_connected ;;
     sessionData <-
       (if connected then redis_get (session_key rt sessionId)
        else Stateful.ret None) ;;
     match sessionData with
     | Some record => Stateful.ret (Some record)
     | None => Stateful.gets (fun st => ValueMap.get sessionId (sessions st))
     end)
    (fun _ => Stateful.gets (fun st => ValueMap.get sessionId (sessions st))).

Definition updateSession (sessionId : value) (updateData : object) : R object :=
  Stateful.try_catch
    (existingSession <- getSession sessionId ;;
     match existingSession with
     | None => Stateful.throw (Error "Session not found")
     | Some existing =>
         lastActivity <- new_Date ;;
         let updatedSession :=
           literal [Spread existing; Spread updateData;
                    Entry "lastActivity" (DateAt lastActivity)] in
         connected <- Stateful.gets redis_connected ;;
         (if connected then redis_setex (session_key rt sessionId) updatedSession
          else Stateful.ret tt) ;;
         Stateful.modify
           (fun st =>
              set_sessions (ValueMap.set sessionId updatedSession (sessions st)) st) ;;
         Stateful.ret updatedSession
     end)
    (fun error => Stateful.throw error).

Definition joinRoom (sessionId roomId : value) : R bool :=
  Stateful.try_catch
    (session <- getSession sessionId ;;
     match session with
     | None => Stateful.throw (Error "Session not found")
     | Some _ =>
         joinedRoomAt <- new_Date ;;
         updateSession sessionId
           (literal [Entry "roomId" (Scalar roomId);
                     Entry "joinedRoomAt" (DateAt joinedRoomAt)]) ;;
         Stateful.modify
           (fun st =>
              if ValueMap.has roomId (roomSessions st) then st
              else set_roomSessions (ValueMap.set roomId [] (roomSessions st)) st) ;;
         Stateful.modify
           (fun st =>
              match ValueMap.get roomId (roomSessions st) with
              | Some members =>
                  set_roomSessions
                    (ValueMap.set roomId (set_add sessionId members) (roomSessions st))
                    st
              | None => st
              end) ;;
         Stateful.ret true
     end)
    (fun error => Stateful.throw error).

Definition leaveRoom (sessionId roomId : value) : R bool :=
  Stateful.try_catch
    (session <- getSession sessionId ;;
     match session with
     | Some _ =>
         leftRoomAt <- new_Date ;;
         updateSession sessionId
           (literal [Entry "roomId" (Scalar Null);
                     Entry "leftRoomAt" (DateAt leftRoomAt)]) ;;
         Stateful.ret tt
     | None => Stateful.ret tt
     end ;;
     Stateful.modify
       (fun st =>
          match ValueMap.get roomId (roomSessions st) with
          | Some members =>
              let members' := set_delete sessionId members in
              if (List.length members' =? 0)%nat
              then set_roomSessions (ValueMap.delete roomId (roomSessions st)) st
              else set_roomSessions
                     (ValueMap.set roomId members' (roomSessions st)) st
          | None => st
          end) ;;
     Stateful.ret true)
    (fun _ => Stateful.ret false).

(** The result is [Null] for [null]. *)
Definition validateSession (sessionId userId : value) : R value :=
  session <- getSession sessionId ;;
  match session with
  | None => Stateful.ret Null
  | Some record => Stateful.ret (Bool (field_is (member "userId" record) userId))
  end.

End WithRuntime.

Definition getRoomSessions (roomId : value) (st : state) : list value :=
  match ValueMap.get roomId (roomSessions st) with
  | Some members => members
  | None => []
  end.

Definition getActiveSessions (st : state) : list object :=
  filter (fun session => truthy_field (member "isActive" session))
    (map snd (sessions st)).

Record stats : Type := {
  totalSessions : nat;
  activeSessions : nat;
  totalRooms : nat;
  averageSessionsPerRoom : Q
}.

Definition getStats (st : state) : stats :=
  {| totalSessions := List.length (sessions st);
     activeSessions := List.length (getActiveSessions st);
     totalRooms := List.length (roomSessions st);
     averageSessionsPerRoom :=
       if (0 <? List.length (roomSessions st))%nat
       then inject_Z
              (Z.of_nat
                 (fold_left (fun sum members => (sum + List.length members)%nat)
                    (map snd (roomSessions st)) 0%nat))
            / inject_Z (Z.of_nat (List.length (roomSessions st)))
       else 0 |}.

Definition getSystemStatistics (st : state) : stats := getStats st.

(** ** The vocabulary of the properties *)

(** A registry that works from memory: the Redis client is not connected. *)
Definition in_memory (st : state) : Prop := redis_connected st = false.

Definition member_of (x : value) (l : list value) : bool :=
  existsb (ValueMap.same_value_zero x) l.

(** Every room that is listed has a member. *)
Definition rooms_inhabited (st : state) : bool :=
  forallb (fun room => negb (List.length (snd room) =? 0)%nat) (roomSessions st).

(** An empty registry on a clock that reads [t0], [t0 + 1], ... *)
Definition empty (t0 : Z) : state :=
  {| sessions := []; roomSessions := []; redis_written := []; ticks := 0;
     clock := fun n => (t0 + Z.of_nat n)%Z; redis_connected := false;
     redis_stored := fun _ _ => None |}.

End Registry.

(* ------------------------------------------------------------------ *)
(** * handlers/monitoringHandler.js *)

Module Monitoring.
Local Open Scope st_scope.

Record metrics : Type := {
  violations : nat;
  warnings : nat;
  alerts : nat;
  lastActivity : Z
}.

Record monitoringSession : Type := {
  sessionId : value;
  examId : value;
  userId : value;
  socketId : string;
  startTime : Z;
  isActive : bool;
  endTime : option Z;
  duration : option Z;
  session_metrics : metrics
}.

(** [socket.emit], [io.to(room).emit] and [socket.to(room).emit], which
    leaves out the sender. *)
Inductive recipient : Type :=
| Direct (socket : string)
| Room (room : string)
| Others (room : string) (sender : string).

Record alert : Type := {
  a_sessionId : value;
  a_alertType : value;
  a_severity : value;
  a_message : value;
  a_timestamp : Z;
  a_userId : value;
  a_examId : value
}.

Record aggregatedMetrics : Type := {
  totalSessions : nat;
  activeSessions : nat;
  totalViolations : nat;
  totalWarnings : nat;
  totalAlerts : nat
}.

Record sessionSummary : Type := {
  s_sessionId : value;
  s_userId : value;
  s_isActive : bool;
  s_metrics : metrics
}.

Inductive body : Type :=
| MonitorError (error : string)
| Started (session : value) (message : string)
| SessionStarted (session user : value) (startTime : Z)
| Stopped (session : value) (duration : Z) (m : metrics)
| SessionStopped (session : value) (endTime : Z) (m : metrics)
| NotMonitored (session : value) (message : string)
| Status (session : value) (isActive : bool) (startTime duration : Z) (m : metrics)
| SessionMetrics (session : value) (m : metrics)
| ExamMetrics (exam : value) (m : aggregatedMetrics) (sessions : list sessionSummary)
| Alert (a : alert).

Record message : Type := {
  to : recipient;
  event : string;
  content : body
}.

Record state : Type := {
  registry : Registry.state;            (* the sessionManager singleton *)
  monitoringData : list (value * monitoringSession);
  sent : list message;
  joined : list (string * string)       (* socket and room *)
}.

Definition set_registry (x : Registry.state) (st : state) : state :=
  {| registry := x; monitoringData := monitoringData st; sent := sent st;
     joined := joined st |}.

Definition set_monitoringData (x : list (value * monitoringSession)) (st : state)
  : state :=
  {| registry := registry st; monitoringData := x; sent := sent st;
     joined := joined st |}.

Definition set_sent (x : list message) (st : state) : state :=
  {| registry := registry st; monitoringData := monitoringData st; sent := x;
     joined := joined st |}.

Definition set_joined (x : list (string * string)) (st : state) : state :=
  {| registry := registry st; monitoringData := monitoringData st; sent := sent st;
     joined := x |}.

Definition H (A : Type) : Type := Stateful.t state A.

(** A call into the session manager. *)
Definition sessionManager {A : Type} (m : Registry.R A) : H A :=
  fun st =>
    let (r, registry') := m (registry st) in (r, set_registry registry' st).

Definition new_Date : H Z := sessionManager Registry.new_Date.

Definition emit (t : recipient) (ev : string) (b : body) : H unit :=
  Stateful.modify
    (fun st => set_sent (sent st ++ [{| to := t; event := ev; content := b |}]) st).

Definition is_member (socket room : string) (e : string * string) : bool :=
  String.eqb socket (fst e) && String.eqb room (snd e).

(** [socket.join(room)] and [socket.leave(room)]. *)
Definition join (socket room : string) : H unit :=
  Stateful.modify
    (fun st =>
       if existsb (is_member socket room) (joined st) then st
       else set_joined (joined st ++ [(socket, room)]) st).

Definition leave (socket room : string) : H unit :=
  Stateful.modify
    (fun st =>
       set_joined (filter (fun e => negb (is_member socket room e)) (joined st)) st).

Definition monitoring_room (rt : Runtime) (exam : value) : string :=
  String.append "monitoring:" (ToString rt exam).

Record startData : Type := {
  start_sessionId : value;
  start_examId : value;
  start_userId : value
}.

Record sessionData : Type := {
  data_sessionId : value
}.

Record metricsData : Type := {
  metrics_examId : value;
  metrics_sessionId : value
}.

Record alertData : Type := {
  alert_sessionId : value;
  alert_alertType : value;
  alert_severity : value;
  alert_message : value
}.

Definition destructuring (name : string) : exn :=
  TypeError (String.append "Cannot destructure property '"
               (String.append name "' of 'data' as it is undefined.")).

Section WithRuntime.
Variable rt : Runtime.

Definition startMonitoring (s : socket) (data : option startData) : H unit :=
  Stateful.try_catch
    (match data with
     | None => Stateful.throw (destructuring "sessionId")
     | Some d =>
         if negb (truthy (start_sessionId d)) || negb (truthy (start_examId d))
            || negb (truthy (start_userId d))
         then emit (Direct (socket_id s)) "monitor:error"
                (MonitorError "Missing required fields: sessionId, examId, userId")
         else
           started <- new_Date ;;
           active <- new_Date ;;
           let monitoringSession :=
             {| sessionId := start_sessionId d; examId := start_examId d;
                userId := start_userId d; socketId := socket_id s;
                startTime := started; isActive := true;
                endTime := None; duration := None;
                session_metrics :=
                  {| violations := 0; warnings := 0; alerts := 0;
                     lastActivity := active |} |} in
           Stateful.modify
             (fun st =>
                set_monitoringData
                  (ValueMap.set (start_sessionId d) monitoringSession
                     (monitoringData st)) st) ;;
           let roomId := monitoring_room rt (start_examId d) in
           join (socket_id s) roomId ;;
           monitoringStarted <- new_Date ;;
           sessionManager
             (Registry.updateSession rt (start_sessionId d)
                (Registry.literal
                   [Registry.Entry "isMonitored" (Registry.Scalar (Bool true));
                    Registry.Entry "monitoringStarted"
                      (Registry.DateAt monitoringStarted)])) ;;
           emit (Direct (socket_id s)) "monitor:started"
             (Started (start_sessionId d) "Monitoring started successfully") ;;
           emit (Others roomId (socket_id s)) "monitor:session_started"
             (SessionStarted (start_sessionId d) (start_userId d) started)
     end)
    (fun _ =>
       emit (Direct (socket_id s)) "monitor:error"
         (MonitorError "Failed to start monitoring")).

Definition stopMonitoring (s : socket) (data : option sessionData) : H unit :=
  Stateful.try_catch
    (match data with
     | None => Stateful.throw (destructuring "sessionId")
     | Some d =>
         if negb (truthy (data_sessionId d))
         then emit (Direct (socket_id s)) "monitor:error"
                (MonitorError "Missing sessionId")
         else
           found <- Stateful.gets
                      (fun st => ValueMap.get (data_sessionId d) (monitoringData st)) ;;
           match found with
           | None => emit (Direct (socket_id s)) "monitor:error"
                       (MonitorError "Monitoring session not found")
           | Some ms =>
               ended <- new_Date ;;
               let lasted := (ended - startTime ms)%Z in
               let monitoringSession :=
                 {| sessionId := sessionId ms; examId := examId ms;
                    userId := userId ms; socketId := socketId ms;
                    startTime := startTime ms; isActive := false;
                    endTime := Some ended; duration := Some lasted;
                    session_metrics := session_metrics ms |} in
               Stateful.modify
                 (fun st =>
                    set_monitoringData
                      (ValueMap.set (data_sessionId d) monitoringSession
                         (monitoringData st)) st) ;;
               let roomId := monitoring_room rt (examId ms) in
               leave (socket_id s) roomId ;;
               monitoringStopped <- new_Date ;;
               sessionManager
                 (Registry.updateSession rt (data_sessionId d)
                    (Registry.literal
                       [Registry.Entry "isMonitored" (Registry.Scalar (Bool false));
                        Registry.Entry "monitoringStopped"
                          (Registry.DateAt monitoringStopped);
                        Registry.Entry "monitoringDuration"
                          (Registry.Scalar (Num (Fin (inject_Z lasted))))])) ;;
               emit (Direct (socket_id s)) "monitor:stopped"
                 (Stopped (data_sessionId d) lasted (session_metrics ms)) ;;
               emit (Others roomId (socket_id s)) "monitor:session_stopped"
                 (SessionStopped (data_sessionId d) ended (session_metrics ms))
           end
     end)
    (fun _ =>
       emit (Direct (socket_id s)) "monitor:error"
         (MonitorError "Failed to stop monitoring")).

Definition handleAlert (s : socket) (data : option alertData) : H unit :=
  Stateful.try_catch
    (match data with
     | None => Stateful.throw (destructuring "sessionId")
     | Some d =>
         if negb (truthy (alert_sessionId d)) || negb (truthy (alert_alertType d))
            || negb (truthy (alert_severity d))
         then emit (Direct (socket_id s)) "monitor:error"
                (MonitorError "Missing required fields: sessionId, alertType, severity")
         else
           found <- Stateful.gets
                      (fun st => ValueMap.get (alert_sessionId d) (monitoringData st)) ;;
           match found with
           | None => emit (Direct (socket_id s)) "monitor:error"
                       (MonitorError "Monitoring session not found")
           | Some ms =>
               let m := session_metrics ms in
               let counted :=
                 if is_str (alert_severity d) "critical" then
                   {| violations := violations m; warnings := warnings m;
                      alerts := S (alerts m); lastActivity := lastActivity m |}
                 else if is_str (alert_severity d) "warning" then
                   {| violations := violations m; warnings := S (warnings m);
                      alerts := alerts m; lastActivity := lastActivity m |}
                 else if is_str (alert_severity d) "info" then
                   {| violations := S (violations m); warnings := warnings m;
                      alerts := alerts m; lastActivity := lastActivity m |}
                 else m in
               active <- new_Date ;;
               let monitoringSession :=
                 {| sessionId := sessionId ms; examId := examId ms;
                    userId := userId ms; socketId := socketId ms;
                    startTime := startTime ms; isActive := isActive ms;
                    endTime := endTime ms; duration := duration ms;
                    session_metrics :=
                      {| violations := violations counted;
                         warnings := warnings counted; alerts := alerts counted;
                         lastActivity := active |} |} in
               Stateful.modify
                 (fun st =>
                    set_monitoringData
                      (ValueMap.set (alert_sessionId d) monitoringSession
                         (monitoringData st)) st) ;;
               stamp <- new_Date ;;
               let a :=
                 {| a_sessionId := alert_sessionId d;
                    a_alertType := alert_alertType d;
                    a_severity := alert_severity d;
                    a_message := alert_message d;
                    a_timestamp := stamp;
                    a_userId := userId ms;
                    a_examId := examId ms |} in
               emit (Room (monitoring_room rt (examId ms))) "monitor:alert" (Alert a) ;;
               if is_str (alert_severity d) "critical"
               then emit (Room "admin") "monitor:critical_alert" (Alert a)
               else Stateful.ret tt
           end
     end)
    (fun _ =>
       emit (Direct (socket_id s)) "monitor:error"
         (MonitorError "Failed to handle alert")).

End WithRuntime.

Definition getMonitoringStatus (s : socket) (data : option sessionData) : H unit :=
  Stateful.try_catch
    (match data with
     | None => Stateful.throw (destructuring "sessionId")
     | Some d =>
         if negb (truthy (data_sessionId d))
         then emit (Direct (socket_id s)) "monitor:error"
                (MonitorError "Missing sessionId")
         else
           found <- Stateful.gets
                      (fun st => ValueMap.get (data_sessionId d) (monitoringData st)) ;;
           match found with
           | None => emit (Direct (socket_id s)) "monitor:status"
                       (NotMonitored (data_sessionId d) "Session not being monitored")
           | Some ms =>
               now <- new_Date ;;
               emit (Direct (socket_id s)) "monitor:status"
                 (Status (data_sessionId d) (isActive ms) (startTime ms)
                    (now - startTime ms) (session_metrics ms))
           end
     end)
    (fun _ =>
       emit (Direct (socket_id s)) "monitor:error"
         (MonitorError "Failed to get monitoring status")).

(** The sessions of an exam: [session.examId === examId]. *)
Definition examSessions (exam : value) (st : state) : list monitoringSession :=
  filter (fun session => ValueMap.strict_equal (examId session) exam)
    (map snd (monitoringData st)).

Definition aggregate (sessions : list monitoringSession) : aggregatedMetrics :=
  {| totalSessions := List.length sessions;
     activeSessions := List.length (filter isActive sessions);
     totalViolations :=
       fold_left (fun sum s => (sum + violations (session_metrics s))%nat) sessions 0%nat;
     totalWarnings :=
       fold_left (fun sum s => (sum + warnings (session_metrics s))%nat) sessions 0%nat;
     totalAlerts :=
       fold_left (fun sum s => (sum + alerts (session_metrics s))%nat) sessions 0%nat |}.

Definition summary (s : monitoringSession) : sessionSummary :=
  {| s_sessionId := sessionId s; s_userId := userId s; s_isActive := isActive s;
     s_metrics := session_metrics s |}.

Definition getMetrics (s : socket) (data : option metricsData) : H unit :=
  Stateful.try_catch
    (match data with
     | None => Stateful.throw (destructuring "examId")
     | Some d =>
         if truthy (metrics_sessionId d) then
           found <- Stateful.gets
                      (fun st => ValueMap.get (metrics_sessionId d) (monitoringData st)) ;;
           match found with
           | Some ms =>
               emit (Direct (socket_id s)) "monitor:metrics"
                 (SessionMetrics (metrics_sessionId d) (session_metrics ms))
           | None =>
               emit (Direct (socket_id s)) "monitor:error"
                 (MonitorError "Session not found")
           end
         else if truthy (metrics_examId d) then
           sessions <- Stateful.gets (examSessions (metrics_examId d)) ;;
           emit (Direct (socket_id s)) "monitor:metrics"
             (ExamMetrics (metrics_examId d) (aggregate sessions)
                (map summary sessions))
         else
           emit (Direct (socket_id s)) "monitor:error"
             (MonitorError "Missing examId or sessionId")
     end)
    (fun _ =>
       emit (Direct (socket_id s)) "monitor:error"
         (MonitorError "Failed to get metrics")).

(** The walk of [handleDisconnection] over the entries of the map: the
    record of an entry is changed in place. *)
Fixpoint end_sessions_of (socket : string)
    (entries : list (value * monitoringSession))
  : H (list (value * monitoringSession)) :=
  match entries with
  | [] => Stateful.ret []
  | (key, ms) :: rest =>
      ms' <-
        (if String.eqb (socketId ms) socket && isActive ms then
           ended <- new_Date ;;
           Stateful.ret
             {| sessionId := sessionId ms; examId := examId ms;
                userId := userId ms; socketId := socketId ms;
                startTime := startTime ms; isActive := false;
                endTime := Some ended; duration := duration ms;
                session_metrics := session_metrics ms |}
         else Stateful.ret ms) ;;
      rest' <- end_sessions_of socket rest ;;
      Stateful.ret ((key, ms') :: rest')
  end.

Definition handleDisconnection (s : socket) : H unit :=
  Stateful.try_catch
    (entries <- Stateful.gets monitoringData ;;
     entries' <- end_sessions_of (socket_id s) entries ;;
     Stateful.modify (set_monitoringData entries'))
    (fun _ => Stateful.ret tt).

Definition getActiveSessions (st : state) : list monitoringSession :=
  filter isActive (map snd (monitoringData st)).

(** 30 * 60 * 1000 *)
Definition idle_ms : Z := 30 * 60 * 1000.

Definition is_idle (now : Z) (ms : monitoringSession) : bool :=
  isActive ms && (idle_ms <? now - lastActivity (session_metrics ms))%Z.

Definition expire (now : Z) (ms : monitoringSession) : monitoringSession :=
  if is_idle now ms then
    {| sessionId := sessionId ms; examId := examId ms; userId := userId ms;
       socketId := socketId ms; startTime := startTime ms; isActive := false;
       endTime := Some now; duration := duration ms;
       session_metrics := session_metrics ms |}
  else ms.

Definition cleanupExpired : H (list value) :=
  Stateful.try_catch
    (now <- new_Date ;;
     entries <- Stateful.gets monitoringData ;;
     Stateful.modify
       (fun st =>
          set_monitoringData
            (map (fun e => (fst e, expire now (snd e))) (monitoringData st)) st) ;;
     Stateful.ret (map fst (filter (fun e => is_idle now (snd e)) entries)))
    (fun _ => Stateful.ret []).

(** ** The vocabulary of the properties *)

(** The alerts, warnings and violations counted for a session. *)
Definition counted (m : metrics) : nat := (alerts m + warnings m + violations m)%nat.

(** A severity that [handleAlert] counts. *)
Definition is_counted (severity : value) : bool :=
  is_str severity "critical" || is_str severity "warning" || is_str severity "info".

Definition keys (st : state) : list value := map fst (monitoringData st).

(** A server that monitors nothing, over a registry. *)
Definition idle (r : Registry.state) : state :=
  {| registry := r; monitoringData := []; sent := []; joined := [] |}.

End Monitoring.

(* ------------------------------------------------------------------ *)
(** * The vocabulary of the monitoring properties *)

(** A handler under which the monitoring map only grows: the records that
    were there stay, in their order. *)
Definition keeps_records {A : Type} (m : Monitoring.H A) : Prop :=
  forall st,
    exists added,
      Monitoring.keys (snd (m st)) = Monitoring.keys st ++ added.

(** The alert that [handleAlert] broadcasts for the payload [d] about the
    monitored session [ms], stamped [t]. *)
Definition alert_of (d : Monitoring.alertData) (ms : Monitoring.monitoringSession)
    (t : Z) : Monitoring.alert :=
  {| Monitoring.a_sessionId := Monitoring.alert_sessionId d;
     Monitoring.a_alertType := Monitoring.alert_alertType d;
     Monitoring.a_severity := Monitoring.alert_severity d;
     Monitoring.a_message := Monitoring.alert_message d;
     Monitoring.a_timestamp := t;
     Monitoring.a_userId := Monitoring.userId ms;
     Monitoring.a_examId := Monitoring.examId ms |}.

Definition one_if (b : bool) : nat := if b then 1 else 0.

(** What a disconnection of [socket] makes of an entry of the map. *)
Definition ended_by (socket : string)
    (e e' : value * Monitoring.monitoringSession) : Prop :=
  fst e' = fst e
  /\ if String.eqb (Monitoring.socketId (snd e)) socket && Monitoring.isActive (snd e)
     then exists t,
            snd e' =
              {| Monitoring.sessionId := Monitoring.sessionId (snd e);
                 Monitoring.examId := Monitoring.examId (snd e);
                 Monitoring.userId := Monitoring.userId (snd e);
                 Monitoring.socketId := Monitoring.socketId (snd e);
                 Monitoring.startTime := Monitoring.startTime (snd e);
                 Monitoring.isActive := false;
                 Monitoring.endTime := Some t;
                 Monitoring.duration := Monitoring.duration (snd e);
                 Monitoring.session_metrics := Monitoring.session_metrics (snd e) |}
     else snd e' = snd e.

(** The record that [startMonitoring] files. *)
Definition fresh_record (s : socket) (d : Monitoring.startData) (started active : Z)
  : Monitoring.monitoringSession :=
  {| Monitoring.sessionId := Monitoring.start_sessionId d;
     Monitoring.examId := Monitoring.start_examId d;
     Monitoring.userId := Monitoring.start_userId d;
     Monitoring.socketId := socket_id s;
     Monitoring.startTime := started;
     Monitoring.isActive := true;
     Monitoring.endTime := None;
     Monitoring.duration := None;
     Monitoring.session_metrics :=
       {| Monitoring.violations := 0; Monitoring.warnings := 0;
          Monitoring.alerts := 0; Monitoring.lastActivity := active |} |}.

Definition monitor_error (s : socket) (text : string) : Monitoring.message :=
  {| Monitoring.to := Monitoring.Direct (socket_id s);
     Monitoring.event := "monitor:error";
     Monitoring.content := Monitoring.MonitorError text |}.

(** A session of exam E1 monitored for socket k1, with one alert counted,
    last active at time 1000. *)
Definition monitored_S1 : Monitoring.state :=
  {| Monitoring.registry := Registry.empty 2000000;
     Monitoring.monitoringData :=
       [(Str "S1",
         {| Monitoring.sessionId := Str "S1"; Monitoring.examId := Str "E1";
            Monitoring.userId := Str "u1"; Monitoring.socketId := "k1";
            Monitoring.startTime := 500; Monitoring.isActive := true;
            Monitoring.endTime := None; Monitoring.duration := None;
            Monitoring.session_metrics :=
              {| Monitoring.violations := 0; Monitoring.warnings := 0;
                 Monitoring.alerts := 1; Monitoring.lastActivity := 1000 |} |})];
     Monitoring.sent := [];
     Monitoring.joined := [("k1", "monitoring:E1")] |}.

(* ------------------------------------------------------------------ *)
(** * handlers/adminHandler.js: the termination of one session *)

Module Admin.
Local Open Scope st_scope.

Inductive body : Type :=
| AdminError (message : string)
| SessionTerminated (reason terminatedBy : value) (timestamp : Z) (message : string)
| SessionTerminatedByAdmin (session terminatedBy reason user : value) (timestamp : Z)
| SessionTerminatedSuccess (session : value) (timestamp : Z).

Record message : Type := {
  to : Monitoring.recipient;
  event : string;
  content : body
}.

(** The state of the other handlers, and what this handler sends. *)
Record state : Type := {
  server : world;
  sent : list message
}.

Definition A (X : Type) : Type := Stateful.t state X.

(** A step of the handlers of the other sections. *)
Definition on_server {X : Type} (m : M X) : A X :=
  fun st =>
    let (r, w') := m (server st) in (r, {| server := w'; sent := sent st |}).

Definition emit (t : Monitoring.recipient) (ev : string) (b : body) : A unit :=
  Stateful.modify
    (fun st =>
       {| server := server st;
          sent := sent st ++ [{| to := t; event := ev; content := b |}] |}).

Record terminateData : Type := {
  t_sessionId : value;
  t_reason : value;
  t_userId : value
}.

Definition handleTerminateSession (rt : Runtime) (s : socket)
    (data : option terminateData) : A unit :=
  Stateful.try_catch
    (allowed <- on_server (lift (hasPermission s "terminate_sessions")) ;;
     if negb allowed
     then emit (Monitoring.Direct (socket_id s)) "error"
            (AdminError "Insufficient permissions")
     else
       match data with
       | None =>
           Stateful.throw
             (TypeError "Cannot destructure property 'sessionId' of undefined")
       | Some d =>
           on_server
             (terminateSessionInBackend (t_sessionId d) (t_reason d) (adminId s)) ;;
           t1 <- on_server Date_now ;;
           emit (Monitoring.Room (session_room rt (t_sessionId d))) "session_terminated"
             (SessionTerminated (t_reason d) (adminId s) t1
                "Your proctoring session has been terminated by an administrator.") ;;
           t2 <- on_server Date_now ;;
           emit (Monitoring.Others "admin_monitoring" (socket_id s))
             "session_terminated_by_admin"
             (SessionTerminatedByAdmin (t_sessionId d) (adminId s) (t_reason d)
                (t_userId d) t2) ;;
           t3 <- on_server Date_now ;;
           emit (Monitoring.Direct (socket_id s)) "session_terminated_success"
             (SessionTerminatedSuccess (t_sessionId d) t3)
       end)
    (fun _ =>
       emit (Monitoring.Direct (socket_id s)) "error"
         (AdminError "Failed to terminate session")).

(** ** The vocabulary of the properties *)

Definition failure (s : socket) : message :=
  {| to := Monitoring.Direct (socket_id s); event := "error";
     content := AdminError "Failed to terminate session" |}.

(** What a termination that the backend accepted sends, the clock being
    read first at reading [n]. *)
Definition notices (rt : Runtime) (s : socket) (d : terminateData)
    (clk : nat -> Z) (n : nat) : list message :=
  [{| to := Monitoring.Room (session_room rt (t_sessionId d));
      event := "session_terminated";
      content :=
        SessionTerminated (t_reason d) (adminId s) (clk n)
          "Your proctoring session has been terminated by an administrator." |};
   {| to := Monitoring.Others "admin_monitoring" (socket_id s);
      event := "session_terminated_by_admin";
      content :=
        SessionTerminatedByAdmin (t_sessionId d) (adminId s) (t_reason d)
          (t_userId d) (clk (S n)) |};
   {| to := Monitoring.Direct (socket_id s);
      event := "session_terminated_success";
      content := SessionTerminatedSuccess (t_sessionId d) (clk (S (S n))) |}].

End Admin.

(* ------------------------------------------------------------------ *)
(** * The risk score of the store *)

(** [src/proctoria/db/init/01-init-database.sql]: the function
    [calculate_risk_score] and the trigger that stores its result.  The
    arithmetic is that of PostgreSQL on [double precision]: a numeric
    literal next to a [FLOAT] operand is read as the nearest double, the
    operators round to nearest and refuse a result that overflows or
    underflows, and NaN compares above every other value. *)
Module Database.

(** What a statement raises: the condition and, for the range errors of
    the floating-point operators, the message. *)
Inductive condition : Type :=
| case_not_found
| numeric_value_out_of_range (message : string).

Inductive outcome (A : Type) : Type :=
| Returns (a : A)
| Raises (c : condition).
Arguments Returns {A} a.
Arguments Raises {A} c.

(** The columns of [violations] that the score reads.  [confidence] is
    [FLOAT NOT NULL]; [severity] is a [VARCHAR(20)] that may be null. *)
Record violation_record : Type := {
  session_id : string;
  type : string;
  confidence : number;
  severity : option string
}.

Definition is_inf (n : number) : bool :=
  match n with PosInf | NegInf => true | _ => false end.

Definition is_zero (n : number) : bool :=
  match n with Fin q => Qeq_bool q 0 | _ => false end.

(** [val1 * val2] on [double precision]: the rounded product, refused when
    two finite factors overflow to an infinity or two factors other than
    zero underflow to zero. *)
Definition float8mul (val1 val2 : number) : outcome number :=
  let result := binary64 (num_mul val1 val2) in
  if is_inf result && negb (is_inf val1) && negb (is_inf val2)
  then Raises (numeric_value_out_of_range "value out of range: overflow")
  else if is_zero result && negb (is_zero val1) && negb (is_zero val2)
  then Raises (numeric_value_out_of_range "value out of range: underflow")
  else Returns result.

(** [val1 + val2] on [double precision]. *)
Definition float8pl (val1 val2 : number) : outcome number :=
  let result := binary64 (num_add val1 val2) in
  if is_inf result && negb (is_inf val1) && negb (is_inf val2)
  then Raises (numeric_value_out_of_range "value out of range: overflow")
  else Returns result.

(** [val1 > val2] on [double precision]: NaN is above every other value
    and equal to itself. *)
Definition float8gt (val1 val2 : number) : bool :=
  match val1, val2 with
  | NaN, NaN => false
  | NaN, _ => true
  | _, NaN => false
  | _, _ => num_lt val2 val1
  end.

(** [total_score := total_score + (violation_record.confidence * k)] for
    a numeric literal [k]: the column holds the double nearest to the
    confidence, and the literal is read as the double nearest to it. *)
Definition add_weighted (total_score : number) (violation_record : violation_record)
    (k : Q) : outcome number :=
  match float8mul (binary64 (confidence violation_record)) (binary64 (Fin k)) with
  | Raises c => Raises c
  | Returns product => float8pl total_score product
  end.

(** The [CASE] statement of the loop.  It has no [ELSE]: a severity that
    is null or none of the four raises [case_not_found]. *)
Definition loop_body (total_score : number) (violation_record : violation_record)
  : outcome number :=
  match severity violation_record with
  | None => Raises case_not_found
  | Some s =>
      if String.eqb s "critical"
      then add_weighted total_score violation_record (4 # 10)
      else if String.eqb s "high"
      then add_weighted total_score violation_record (3 # 10)
      else if String.eqb s "medium"
      then add_weighted total_score violation_record (2 # 10)
      else if String.eqb s "low"
      then add_weighted total_score violation_record (1 # 10)
      else Raises case_not_found
  end.

Fixpoint for_loop (rows : list violation_record) (total_score : number)
  : outcome number :=
  match rows with
  | [] => Returns total_score
  | violation_record :: rest =>
      match loop_body total_score violation_record with
      | Raises c => Raises c
      | Returns total_score' => for_loop rest total_score'
      end
  end.

(** [SELECT type, confidence, severity FROM violations WHERE session_id =
    session_uuid].  The query has no [ORDER BY]: the rows come in the order
    of the scan, which is the order of the list. *)
Definition select_violations (violations : list violation_record)
    (session_uuid : string) : list violation_record :=
  filter (fun r => String.eqb (session_id r) session_uuid) violations.

Definition calculate_risk_score (violations : list violation_record)
    (session_uuid : string) : outcome number :=
  match for_loop (select_violations violations session_uuid) (Fin 0) with
  | Raises c => Raises c
  | Returns total_score =>
      Returns (if float8gt total_score (binary64 (Fin 1))
               then binary64 (Fin 1)
               else total_score)
  end.

(** The columns of [proctoring_sessions] that the trigger writes, and the
    key. *)
Record proctoring_session : Type := {
  id : string;
  risk_score : number;
  violations_count : Z
}.

Record database : Type := {
  proctoring_sessions : list proctoring_session;
  violations : list violation_record
}.

(** [(SELECT COUNT( * ) FROM violations WHERE session_id = NEW.session_id)]
    stored in an [INTEGER] column. *)
Definition count_violations (db : database) (session_uuid : string)
  : outcome Z :=
  let count := Z.of_nat (List.length (select_violations (violations db) session_uuid)) in
  if (2147483647 <? count)%Z
  then Raises (numeric_value_out_of_range "integer out of range")
  else Returns count.

(** The [SET] clause on one row of [proctoring_sessions]. *)
Definition set_row (db : database) (NEW : violation_record) (row : proctoring_session)
  : outcome proctoring_session :=
  match calculate_risk_score (violations db) (session_id NEW) with
  | Raises c => Raises c
  | Returns score =>
      match count_violations db (session_id NEW) with
      | Raises c => Raises c
      | Returns count =>
          Returns {| id := id row; risk_score := score; violations_count := count |}
      end
  end.

(** [UPDATE proctoring_sessions SET risk_score = ..., violations_count =
    ... WHERE id = NEW.session_id]: the new values are computed for each
    row that the condition selects. *)
Fixpoint update_sessions (db : database) (NEW : violation_record)
    (rows : list proctoring_session) : outcome (list proctoring_session) :=
  match rows with
  | [] => Returns []
  | row :: rest =>
      match (if String.eqb (id row) (session_id NEW)
             then set_row db NEW row
             else Returns row) with
      | Raises c => Raises c
      | Returns row' =>
          match update_sessions db NEW rest with
          | Raises c => Raises c
          | Returns rest' => Returns (row' :: rest')
          end
      end
  end.

(** The trigger function, run for a row [NEW] of [violations] after it was
    inserted or updated. *)
Definition update_session_risk_score (NEW : violation_record) (db : database)
  : outcome database :=
  match update_sessions db NEW (proctoring_sessions db) with
  | Raises c => Raises c
  | Returns rows =>
      Returns {| proctoring_sessions := rows; violations := violations db |}
  end.

End Database.

(** ** The vocabulary of the risk score *)

Definition known_severities : list string := ["critical"; "high"; "medium"; "low"].

(** The weight of a severity, as the [CASE] of [calculate_risk_score] has
    it. *)
Definition severityWeight (severity : option string) : Q :=
  match severity with
  | Some s =>
      if String.eqb s "critical" then 4 # 10
      else if String.eqb s "high" then 3 # 10
      else if String.eqb s "medium" then 2 # 10
      else if String.eqb s "low" then 1 # 10
      else 0
  | None => 0
  end.

Definition finite_part (n : number) : Q :=
  match n with Fin q => q | _ => 0%Q end.

(** The exact sum over the rows of confidence times weight. *)
Definition weighted_sum (rows : list Database.violation_record) : Q :=
  fold_right
    (fun r acc => (finite_part (Database.confidence r)
                   * severityWeight (Database.severity r) + acc)%Q)
    0%Q rows.

(** The score as the specification words it: that sum, capped at 1, with
    no rounding. *)
Definition spec_risk_score (rows : list Database.violation_record) : Q :=
  if Qle_bool (weighted_sum rows) 1 then weighted_sum rows else 1%Q.

(** A row as the service stores it: one of the four severities, and a
    confidence in [0,1] that is zero or no smaller than 2^-1022, the
    smallest normal double (the product of a smaller one and a weight can
    underflow, which the multiplication refuses). *)
Definition graded (r : Database.violation_record) : Prop :=
  (exists s, Database.severity r = Some s /\ In s known_severities)
  /\ exists c, Database.confidence r = Fin c
               /\ (c == 0 \/ 2 ^ (-1022) <= c)%Q /\ (c <= 1)%Q.

(** The bound on the rounding error of a score over [n] rows:
    n^2 / 2^52. *)
Definition rounding_bound (n : nat) : Q :=
  (inject_Z (Z.of_nat n * Z.of_nat n) * 2 ^ (-52))%Q.

(** A row of session S1. *)
Definition sample (kind : string) (c : Q) (grade : string)
  : Database.violation_record :=
  {| Database.session_id := "S1"; Database.type := kind;
     Database.confidence := Fin c; Database.severity := Some grade |}.

(** The doubles that the four weights denote: [W] is the double nearest
    to [k], between 1/16 and 1/2 and within 2^-55 of [k]. *)
Definition double_weight (k W : Q) : Prop :=
  binary64 (Fin k) = Fin W
  /\ (1 # 16 <= W)%Q /\ (W <= 1 # 2)%Q /\ (0 <= k)%Q /\ (k <= 4 # 10)%Q
  /\ (- (1 # 36028797018963968) <= W - k)%Q /\ (W - k <= 1 # 36028797018963968)%Q.

(* ------------------------------------------------------------------ *)
(** * Properties of the embedding *)

(** ** Comparisons and truthiness *)

Lemma Qltb_lt (p q : Q) : Qltb p q = true <-> (p < q)%Q.
Proof.
  unfold Qltb. rewrite negb_true_iff. split; intro H.
  - apply Qnot_le_lt. intro L. apply Qle_bool_iff in L. congruence.
  - destruct (Qle_bool q p) eqn:E; [ | reflexivity ].
    apply Qle_bool_iff in E. exfalso. exact (Qlt_not_le _ _ H E).
Qed.

Lemma includes_In (arr : list string) (s : string) :
  includes arr (Str s) = true <-> In s arr.
Proof.
  simpl. rewrite existsb_exists. split.
  - intros [x [Hin Heq]]. apply String.eqb_eq in Heq. now subst.
  - intro Hin. exists s. split; [ assumption | apply String.eqb_refl ].
Qed.

Lemma ge_lit_number (rt : Runtime) (c k : Q) :
  ge_lit rt (Num (Fin c)) k = true <-> (k <= c)%Q.
Proof. unfold ge_lit. simpl. apply Qle_bool_iff. Qed.

(** The test of one branch of [getAlertSeverity], read as a proposition. *)
Lemma bucket_test (rt : Runtime) (arr : list string) (k : Q) (t : string) (c : Q) :
  includes arr (Str t) || ge_lit rt (Num (Fin c)) k = true
  <-> (In t arr \/ (k <= c)%Q).
Proof.
  rewrite orb_true_iff, includes_In, ge_lit_number. reflexivity.
Qed.

Lemma bucket_test_false (rt : Runtime) (arr : list string) (k : Q) (t : string) (c : Q) :
  includes arr (Str t) || ge_lit rt (Num (Fin c)) k = false
  <-> ~ (In t arr \/ (k <= c)%Q).
Proof.
  rewrite <- bucket_test with (rt := rt). destruct (_ || _); split; intro H.
  - discriminate.
  - exfalso. now apply H.
  - intro H'. discriminate.
  - reflexivity.
Qed.

(** ** Severity *)

Lemma getAlertSeverity_meets_spec (rt : Runtime) (t : string) (c : Q) :
  severity_spec t c (getAlertSeverity rt (Str t) (Num (Fin c))).
Proof.
  unfold getAlertSeverity.
  destruct (includes criticalViolations (Str t) || ge_lit rt (Num (Fin c)) (9 # 10)) eqn:E1.
  { apply spec_critical. now apply (bucket_test rt). }
  apply bucket_test_false in E1.
  destruct (includes highViolations (Str t) || ge_lit rt (Num (Fin c)) (7 # 10)) eqn:E2.
  { apply spec_high; [ assumption | now apply (bucket_test rt) ]. }
  apply bucket_test_false in E2.
  destruct (includes mediumViolations (Str t) || ge_lit rt (Num (Fin c)) (5 # 10)) eqn:E3.
  { apply spec_medium; [ assumption | assumption | now apply (bucket_test rt) ]. }
  apply bucket_test_false in E3.
  now apply spec_low.
Qed.

Lemma severity_spec_functional (t : string) (c : Q) (s1 s2 : severity) :
  severity_spec t c s1 -> severity_spec t c s2 -> s1 = s2.
Proof.
  intros H1 H2. destruct H1; destruct H2; try reflexivity; contradiction.
Qed.

(** C3.  For every violation type [t] and every confidence [c] the derived
    severity is defined and is the one the cascade of the specification
    names: critical if [t] is in the critical set or [c >= 0.9]; else high
    if [t] is in the high set or [c >= 0.7]; else medium if [t] is in the
    medium set or [c >= 0.5]; else low.  A type that is in none of the three
    sets is graded by its confidence alone, and is low below 0.5. *)
Theorem C3_severity_is_total_cascade :
  forall (rt : Runtime) (t : string) (c : Q),
    severity_spec t c (getAlertSeverity rt (Str t) (Num (Fin c)))
    /\ (forall s, severity_spec t c s ->
                  getAlertSeverity rt (Str t) (Num (Fin c)) = s)
    /\ (~ In t (criticalViolations ++ highViolations ++ mediumViolations) ->
        getAlertSeverity rt (Str t) (Num (Fin c)) =
          if Qle_bool (9 # 10) c then critical
          else if Qle_bool (7 # 10) c then high
          else if Qle_bool (5 # 10) c then medium
          else low).
Proof.
  intros rt t c. split; [ apply getAlertSeverity_meets_spec | split ].
  - intros s Hs.
    exact (severity_spec_functional t c _ _ (getAlertSeverity_meets_spec rt t c) Hs).
  - intro Hnot.
    assert (Hc : includes criticalViolations (Str t) = false).
    { destruct (includes criticalViolations (Str t)) eqn:E; [ | reflexivity ].
      apply includes_In in E. exfalso. apply Hnot.
      apply in_or_app. now left. }
    assert (Hh : includes highViolations (Str t) = false).
    { destruct (includes highViolations (Str t)) eqn:E; [ | reflexivity ].
      apply includes_In in E. exfalso. apply Hnot.
      apply in_or_app. right. apply in_or_app. now left. }
    assert (Hm : includes mediumViolations (Str t) = false).
    { destruct (includes mediumViolations (Str t)) eqn:E; [ | reflexivity ].
      apply includes_In in E. exfalso. apply Hnot.
      apply in_or_app. right. apply in_or_app. now right. }
    unfold getAlertSeverity. rewrite Hc, Hh, Hm. reflexivity.
Qed.

(** ** Validation *)

Lemma validateViolation_eq (rt : Runtime) (v : violation) :
  validateViolation rt v =
    truthy (sessionId v) && truthy (userId v) && truthy (type v)
    && truthy (confidence v) && truthy (timestamp v)
    && negb (lt_lit rt (confidence v) 0 || gt_lit rt (confidence v) 1).
Proof.
  unfold validateViolation, requiredFields. simpl existsb.
  unfold get_field. simpl.
  destruct (truthy (sessionId v)), (truthy (userId v)), (truthy (type v)),
    (truthy (confidence v)), (truthy (timestamp v)); simpl; reflexivity.
Qed.

Lemma truthy_zero (q : Q) : (q == 0)%Q -> truthy (Num (Fin q)) = false.
Proof.
  intro H. simpl. apply negb_false_iff. now apply Qeq_bool_iff.
Qed.

Lemma handleViolationDetected_rejects (rt : Runtime) (s : socket)
    (d : violationData) (w : world) :
  validateViolation rt (new_violation s d (clock w (reads w))) = false ->
  handleViolationDetected rt s (Some d) w =
    (Ok tt, set_outbox (outbox w ++ [rejection s]) (set_reads (S (reads w)) w)).
Proof.
  intro H. unfold handleViolationDetected, try_catch, bind, Date_now.
  simpl. rewrite H. reflexivity.
Qed.

Lemma outside_unit_interval_test (n : number) :
  outside_unit_interval n ->
  num_lt n (Fin 0) || num_lt (Fin 1) n = true.
Proof.
  intros [q H | q H | | ]; simpl; try reflexivity.
  - apply (Qltb_lt q 0) in H. rewrite H. reflexivity.
  - apply (Qltb_lt 1 q) in H. rewrite H. apply orb_true_r.
Qed.

(** C4.  A violation that lacks one of sessionId, type, confidence and
    timestamp, or whose confidence is a number outside [0,1], fails
    validation; the handler that built it answers the reporting connection
    with one error, returns, and leaves the queue (and the backend) alone.
    A report with no payload at all is answered with an error as well and
    queues nothing. *)
Theorem C4_invalid_violation_is_reported_not_queued :
  forall (rt : Runtime) (v : violation),
    (sessionId v = Undefined \/ type v = Undefined \/ confidence v = Undefined
     \/ timestamp v = Undefined
     \/ outside_unit_interval (ToNumber rt (confidence v))) ->
    validateViolation rt v = false
    /\ (forall (s : socket) (d : violationData) (w : world),
          new_violation s d (clock w (reads w)) = v ->
          let r := handleViolationDetected rt s (Some d) w in
          fst r = Ok tt
          /\ violationQueue (snd r) = violationQueue w
          /\ requests (snd r) = requests w
          /\ outbox (snd r) = outbox w ++ [rejection s])
    /\ (forall (s : socket) (w : world),
          let r := handleViolationDetected rt s None w in
          fst r = Ok tt
          /\ violationQueue (snd r) = violationQueue w
          /\ outbox (snd r) =
               outbox w ++ [{| to := ToSocket (socket_id s); event := "error";
                               body := ErrorMessage "Failed to process violation" |}]).
Proof.
  intros rt v H.
  assert (Hv : validateViolation rt v = false).
  { rewrite validateViolation_eq.
    destruct H as [H | [H | [H | [H | H]]]]; try (rewrite H; simpl).
    - reflexivity.
    - now rewrite !andb_false_r.
    - now rewrite !andb_false_r.
    - now rewrite !andb_false_r.
    - apply outside_unit_interval_test in H.
      unfold lt_lit, gt_lit. rewrite H. simpl. apply andb_false_r. }
  split; [ exact Hv | split ].
  - intros s d w Hnew r. subst r.
    rewrite handleViolationDetected_rejects by (rewrite Hnew; exact Hv).
    simpl. repeat split; reflexivity.
  - intros s w r. subst r. simpl. repeat split; reflexivity.
Qed.

(** C4 at the example of the specification: confidence 1.5. *)
Lemma C4_witness_confidence_one_and_a_half :
  let v := new_violation (student "k1" "S1" "u1")
             (detection "phone_detected" (3 # 2)) 1000 in
  outside_unit_interval (ToNumber decimal_runtime (confidence v))
  /\ validateViolation decimal_runtime v = false
  /\ violationQueue
       (snd (handleViolationDetected decimal_runtime (student "k1" "S1" "u1")
               (Some (detection "phone_detected" (3 # 2))) (idle 1000)))
     = violationQueue (idle 1000).
Proof.
  assert (Hout : outside_unit_interval
                   (ToNumber decimal_runtime
                      (confidence (new_violation (student "k1" "S1" "u1")
                                     (detection "phone_detected" (3 # 2)) 1000)))).
  { simpl. apply above_one. reflexivity. }
  split; [ exact Hout | ].
  destruct (C4_invalid_violation_is_reported_not_queued decimal_runtime
              (new_violation (student "k1" "S1" "u1")
                 (detection "phone_detected" (3 # 2)) 1000)
              (or_intror (or_intror (or_intror (or_intror Hout)))))
    as [Hv [Hq _]].
  split; [ exact Hv | ].
  destruct (Hq (student "k1" "S1" "u1") (detection "phone_detected" (3 # 2))
              (idle 1000) eq_refl) as [_ [Hqueue _]].
  exact Hqueue.
Defined.

(** C10.  Validation tests the required members for truthiness: a
    violation whose confidence is exactly 0, or whose sessionId, type or
    timestamp is any falsy value (0, the empty string, null, ...), fails
    validation, and the handler that built it rejects it without queueing
    it. *)
Theorem C10_falsy_members_fail_validation :
  forall (rt : Runtime) (v : violation),
    ((exists q, confidence v = Num (Fin q) /\ (q == 0)%Q)
     \/ truthy (sessionId v) = false
     \/ truthy (type v) = false
     \/ truthy (timestamp v) = false) ->
    validateViolation rt v = false
    /\ (forall (s : socket) (d : violationData) (w : world),
          new_violation s d (clock w (reads w)) = v ->
          let r := handleViolationDetected rt s (Some d) w in
          violationQueue (snd r) = violationQueue w
          /\ outbox (snd r) = outbox w ++ [rejection s]).
Proof.
  intros rt v H.
  assert (Hv : validateViolation rt v = false).
  { rewrite validateViolation_eq.
    destruct H as [[q [Hc Hq]] | [H | [H | H]]].
    - rewrite Hc, (truthy_zero q Hq). now rewrite !andb_false_r.
    - rewrite H. reflexivity.
    - rewrite H. now rewrite !andb_false_r.
    - rewrite H. now rewrite !andb_false_r. }
  split; [ exact Hv | ].
  intros s d w Hnew r. subst r.
  rewrite handleViolationDetected_rejects by (rewrite Hnew; exact Hv).
  simpl. split; reflexivity.
Qed.

(** C10 at confidence 0, a value inside [0,1], and at an empty session id. *)
Lemma C10_witness_zero_confidence :
  let v0 := new_violation (student "k1" "S1" "u1") (detection "tab_switch" 0) 1000 in
  let v1 := new_violation (student "k1" "" "u1") (detection "tab_switch" (9 # 10)) 1000 in
  (confidence v0 = Num (Fin 0) /\ validateViolation decimal_runtime v0 = false)
  /\ (truthy (sessionId v1) = false /\ validateViolation decimal_runtime v1 = false).
Proof.
  split; (split; [ reflexivity | ]).
  - apply (C10_falsy_members_fail_validation decimal_runtime
             (new_violation (student "k1" "S1" "u1")
                (detection "tab_switch" 0) 1000)).
    left. exists 0. split; reflexivity.
  - apply (C10_falsy_members_fail_validation decimal_runtime
             (new_violation (student "k1" "" "u1")
                (detection "tab_switch" (9 # 10)) 1000)).
    right. left. reflexivity.
Defined.

(** ** The behaviour classifier *)

Lemma existsb_is_str (ks : list value) (k : string) :
  existsb (fun x => is_str x k) ks = true <-> has_key ks k.
Proof.
  unfold has_key. rewrite existsb_exists. split.
  - intros [x [Hin Hx]]. destruct x; simpl in Hx; try discriminate.
    apply String.eqb_eq in Hx. now subst.
  - intro Hin. exists (Str k). split; [ assumption | apply String.eqb_refl ].
Qed.

Lemma is_str_false_of_not_In (v : value) (kinds : list string) (k : string) :
  (forall k', In k' kinds -> v <> Str k') -> In k kinds -> is_str v k = false.
Proof.
  intros H Hin. destruct v; simpl; try reflexivity.
  destruct (String.eqb s k) eqn:E; [ | reflexivity ].
  apply String.eqb_eq in E. subst. exfalso. now apply (H k).
Qed.

(** C6.  The classifier is a fixed table on the event kind: tab_switch
    yields one violation with confidence 0.9, copy_paste one with 0.95, a
    key combination that contains ctrl together with c or v one with 0.8,
    window_blur one with 0.7, fullscreen_exit one with 0.8, a right_click
    whose context is a text selection one with 0.6; a right_click in any
    other context and every other event kind yield no violation. *)
Theorem C6_behavior_table :
  forall e : behaviorEvent,
    (b_eventType e = Str "tab_switch" -> yields_one e "tab_switch" (9 # 10))
    /\ (b_eventType e = Str "copy_paste" -> yields_one e "copy_paste" (95 # 100))
    /\ (b_eventType e = Str "key_combination" ->
        forall d ks, b_eventData e = Some d -> keys d = Some ks ->
          has_key ks "ctrl" -> has_key ks "c" \/ has_key ks "v" ->
          yields_one e "copy_paste_shortcut" (8 # 10))
    /\ (b_eventType e = Str "window_blur" ->
        yields_one e "window_focus_lost" (7 # 10))
    /\ (b_eventType e = Str "fullscreen_exit" ->
        yields_one e "fullscreen_violation" (8 # 10))
    /\ (b_eventType e = Str "right_click" ->
        forall d, b_eventData e = Some d -> context d = Str "text_selection" ->
          yields_one e "suspicious_interaction" (6 # 10))
    /\ (b_eventType e = Str "right_click" ->
        (forall d, b_eventData e = Some d -> context d <> Str "text_selection") ->
        yielded (analyzeBehavior e) = [])
    /\ ((forall k, In k known_kinds -> b_eventType e <> Str k) ->
        analyzeBehavior e = Ok []).
Proof.
  intro e. unfold yields_one, analyzeBehavior.
  repeat split.
  - intro H. rewrite H. simpl. eexists. repeat split.
  - intro H. rewrite H. simpl. eexists. repeat split.
  - intros H d ks Hd Hk Hctrl Hcv. rewrite H, Hd, Hk. simpl.
    apply existsb_is_str in Hctrl. rewrite Hctrl.
    assert (Hor : existsb (fun k => is_str k "c") ks
                  || existsb (fun k => is_str k "v") ks = true).
    { apply orb_true_iff. destruct Hcv as [Hc | Hv'];
        [ left | right ]; now apply existsb_is_str. }
    rewrite Hor. simpl. eexists. repeat split.
  - intro H. rewrite H. simpl. eexists. repeat split.
  - intro H. rewrite H. simpl. eexists. repeat split.
  - intros H d Hd Hc. rewrite H, Hd, Hc. simpl. eexists. repeat split.
  - intros H Hctx. rewrite H. simpl.
    destruct (b_eventData e) as [d | ]; [ | reflexivity ].
    specialize (Hctx d eq_refl).
    destruct (is_str (context d) "text_selection") eqn:E; [ | reflexivity ].
    exfalso. apply Hctx. destruct (context d); simpl in E; try discriminate.
    apply String.eqb_eq in E. now subst.
  - intro H.
    rewrite !(is_str_false_of_not_In (b_eventType e) known_kinds _ H)
      by (simpl; tauto).
    reflexivity.
Qed.

(** ** Fan-out of an accepted violation *)

Lemma sendViolationAlert_outbox (rt : Runtime) (s : socket) (v : violation) (w : world) :
  sendViolationAlert rt s v w =
    (Ok tt, set_outbox (outbox w ++ student_alerts rt s v) w).
Proof.
  unfold sendViolationAlert, student_alerts, bind, emit, ret.
  destruct (getAlertSeverity rt (type v) (confidence v)); simpl;
    try rewrite <- app_assoc; try reflexivity.
  all: destruct w; reflexivity.
Qed.

Lemma notifyAdmins_outbox (rt : Runtime) (v : violation) (w : world) :
  notifyAdmins rt v w = (Ok tt, set_outbox (outbox w ++ observer_alerts rt v) w).
Proof.
  unfold notifyAdmins, observer_alerts, bind, emit, ret.
  destruct (getAlertSeverity rt (type v) (confidence v)); simpl;
    try rewrite <- app_assoc; try reflexivity.
  all: destruct w; reflexivity.
Qed.

Lemma storeViolation_frame (v : violation) (w : world) :
  exists w', storeViolation v w = (Ok tt, w')
             /\ outbox w' = outbox w
             /\ violationQueue w' = violationQueue w.
Proof.
  unfold storeViolation, try_catch, bind, axios_post, ret.
  destruct (backend w (requests w) _); eexists; repeat split.
Qed.

Lemma handleViolationDetected_accepts (rt : Runtime) (s : socket)
    (d : violationData) (w : world) :
  let v := new_violation s d (clock w (reads w)) in
  validateViolation rt v = true ->
  exists w',
    handleViolationDetected rt s (Some d) w = (Ok tt, w')
    /\ outbox w' = outbox w ++ student_alerts rt s v ++ observer_alerts rt v
    /\ violationQueue w' =
         map_set
           (String.append (ToString rt (sessionId v))
              (String.append "_"
                 (String.append (ToString rt (timestamp v))
                    (String.append "_"
                       (NumberToString rt (random w (S (reads w))))))))
           v (violationQueue w).
Proof.
  intros v Hv. subst v.
  unfold handleViolationDetected, try_catch, bind at 1, Date_now.
  cbv zeta. rewrite Hv. cbn [negb].
  unfold bind at 1, addToQueue, bind at 1, Math_random.
  unfold bind at 1. rewrite sendViolationAlert_outbox.
  unfold bind at 1. rewrite notifyAdmins_outbox.
  match goal with |- context [storeViolation ?x ?y] =>
    destruct (storeViolation_frame x y) as [w' [E [Ho Hq]]]; rewrite E end.
  exists w'. split; [ reflexivity | ].
  rewrite Ho, Hq. destruct w. cbn.
  rewrite <- app_assoc. split; reflexivity.
Qed.

(** C5, as the code has it.  An accepted violation is sent to the
    connection that reported it (an alert, plus a pop-up warning when the
    severity is high or critical) and, whatever its severity, to the
    observer room; a critical one is sent to the observer room a second
    time as an emergency alert.  Nothing is sent to a session room. *)
Theorem C5_fan_out_of_an_accepted_violation :
  forall (rt : Runtime) (s : socket) (d : violationData) (w : world),
    let v := new_violation s d (clock w (reads w)) in
    validateViolation rt v = true ->
    let sent := student_alerts rt s v ++ observer_alerts rt v in
    outbox (snd (handleViolationDetected rt s (Some d) w)) = outbox w ++ sent
    /\ List.length (filter (to_socket (socket_id s)) sent) =
         (match getAlertSeverity rt (type v) (confidence v) with
          | critical | high => 2
          | medium | low => 1
          end)%nat
    /\ List.length (filter (to_room "admin_monitoring") sent) =
         (match getAlertSeverity rt (type v) (confidence v) with
          | critical => 2
          | high | medium | low => 1
          end)%nat
    /\ filter is_room sent = observer_alerts rt v.
Proof.
  intros rt s d w v Hv sent.
  destruct (handleViolationDetected_accepts rt s d w Hv) as [w' [E [Ho _]]].
  rewrite E. split; [ exact Ho | ].
  subst sent. unfold student_alerts, observer_alerts, to_socket, to_room, is_room.
  destruct (getAlertSeverity rt (type v) (confidence v)); simpl;
    rewrite ?String.eqb_refl; simpl; repeat split; reflexivity.
Qed.

(** C5 on an accepted copy_paste report at confidence 0.95: two emissions
    to the reporting connection, two to the observer room. *)
Lemma C5_witness_critical_report :
  let s := student "k1" "S1" "u1" in
  let v := new_violation s (detection "copy_paste" (95 # 100)) 1000 in
  validateViolation decimal_runtime v = true
  /\ map to (outbox (snd (handleViolationDetected decimal_runtime s
                            (Some (detection "copy_paste" (95 # 100))) (idle 1000))))
     = [ToSocket "k1"; ToSocket "k1";
        ToRoom "admin_monitoring"; ToRoom "admin_monitoring"].
Proof.
  assert (Hv : validateViolation decimal_runtime
                 (new_violation (student "k1" "S1" "u1")
                    (detection "copy_paste" (95 # 100)) 1000) = true)
    by reflexivity.
  split; [ exact Hv | ].
  destruct (C5_fan_out_of_an_accepted_violation decimal_runtime
              (student "k1" "S1" "u1") (detection "copy_paste" (95 # 100))
              (idle 1000) Hv) as [Ho _].
  rewrite Ho. reflexivity.
Defined.

(** C5 as the specification states it fails: a low-severity violation with
    low confidence (an unlisted type at confidence 0.3) is sent to the
    observer room too. *)
Lemma C5_counterexample_low_severity_reaches_observers :
  let s := student "k1" "S1" "u1" in
  let d := detection "book_detected" (3 # 10) in
  let w := snd (handleViolationDetected decimal_runtime s (Some d) (idle 1000)) in
  validateViolation decimal_runtime (new_violation s d 1000) = true
  /\ getAlertSeverity decimal_runtime (Str "book_detected") (Num (Fin (3 # 10))) = low
  /\ map (fun e => (to e, event e)) (outbox w)
     = [(ToSocket "k1", "violation_alert");
        (ToRoom "admin_monitoring", "violation_notification")].
Proof. vm_compute. repeat split; reflexivity. Qed.

(** ** The aggregator tick *)

Lemma flagSession_run (session : string) (w : world) :
  flagSession session "Multiple critical violations detected" w =
    (Ok tt,
     set_outbox
       (outbox w ++ [admin_flag session (clock w (reads w));
                     student_flag session (clock w (S (reads w)))])
       (set_reads (S (S (reads w))) w)).
Proof.
  unfold flagSession, bind, Date_now, emit, admin_flag, student_flag.
  destruct w. cbn. rewrite <- app_assoc. reflexivity.
Qed.

(** What one call of [processSessionViolations] does to the state: one
    request to the backend, whose outcome is ignored, and the two flag
    notifications when the group holds two critical violations or more. *)
Lemma processSessionViolations_run (rt : Runtime) (session : string)
    (vs : list violation) (w : world) :
  exists t1 t2 w',
    processSessionViolations rt session vs w = (Ok tt, w')
    /\ outbox w' =
         outbox w ++ (if (2 <=? critical_count rt vs)%nat
                      then [admin_flag session t1; student_flag session t2]
                      else [])
    /\ violationQueue w' = violationQueue w
    /\ requests w' = requests w ++ [PostRecalculate session].
Proof.
  unfold processSessionViolations, critical_count.
  cbv zeta. unfold bind at 1.
  assert (Hpost : exists w1,
             try_catch (axios_post (PostRecalculate session) ;; ret tt)
               (fun _ => ret tt) w = (Ok tt, w1)
             /\ outbox w1 = outbox w /\ violationQueue w1 = violationQueue w
             /\ requests w1 = requests w ++ [PostRecalculate session]
             /\ reads w1 = reads w /\ clock w1 = clock w).
  { unfold try_catch, bind, axios_post, ret.
    destruct (backend w (requests w) _); eexists; repeat split. }
  destruct Hpost as [w1 [E [Ho [Hq [Hr [Hn Hc]]]]]]. rewrite E.
  destruct (2 <=? List.length (filter (is_critical rt) vs))%nat.
  - rewrite flagSession_run.
    exists (clock w1 (reads w1)), (clock w1 (S (reads w1))). eexists.
    split; [ reflexivity | ].
    destruct w1. cbn in *. subst. repeat split.
  - exists 0%Z, 0%Z, w1. unfold ret. rewrite app_nil_r. repeat split; assumption.
Qed.

Lemma map_get_clean {V : Type} (groups : list (string * V)) (k : string) :
  clean_keys groups -> inherited k = true -> map_get k groups = None.
Proof.
  induction 1 as [ | [k' v'] rest Hk _ IH ]; intro Hi; simpl.
  - reflexivity.
  - destruct (String.eqb k k') eqn:E.
    + apply String.eqb_eq in E. subst. simpl in Hk. congruence.
    + now apply IH.
Qed.

Lemma map_set_clean {V : Type} (groups : list (string * V)) (k : string) (v : V) :
  clean_keys groups -> inherited k = false -> clean_keys (map_set k v groups).
Proof.
  induction 1 as [ | [k' v'] rest Hk Hrest IH ]; intro Hi; simpl.
  - repeat constructor. exact Hi.
  - destruct (String.eqb k k'); constructor; simpl; auto.
    now apply IH.
Qed.

(** One violation whose session key names an inherited member makes the
    grouping throw, wherever it stands in the batch. *)
Lemma reduce_group_step_throws (rt : Runtime) (vs : list violation) :
  forall groups,
    clean_keys groups ->
    existsb (fun v => inherited (ToString rt (sessionId v))) vs = true ->
    reduce (group_step rt) vs groups =
      Throw (TypeError "groups[violation.sessionId].push is not a function").
Proof.
  induction vs as [ | v rest IH ]; intros groups Hclean Hex; simpl in Hex.
  - discriminate.
  - simpl. unfold group_step at 1.
    destruct (inherited (ToString rt (sessionId v))) eqn:Hi.
    + rewrite (map_get_clean groups _ Hclean Hi). reflexivity.
    + simpl in Hex.
      destruct (map_get (ToString rt (sessionId v)) groups) eqn:Hg;
        apply IH; try assumption; now apply map_set_clean.
Qed.

(** X2.  The tick on a batch that holds such a violation: the queue has
    been emptied, the grouping throws, no group is processed and nothing is
    sent. *)
Lemma processViolationQueue_inherited_key (rt : Runtime) (w : world) :
  existsb (fun v => inherited (ToString rt (sessionId v)))
    (map snd (violationQueue w)) = true ->
  processViolationQueue rt w =
    (Throw (TypeError "groups[violation.sessionId].push is not a function"),
     set_violationQueue [] w).
Proof.
  intro H. unfold processViolationQueue.
  destruct (violationQueue w) as [ | e q ] eqn:Eq; [ discriminate | ].
  unfold bind, lift, sessionGroups.
  rewrite reduce_group_step_throws; [ reflexivity | constructor | exact H ].
Qed.

(** *** Grouping by session *)

Lemma map_get_map_set {V : Type} (k k' : string) (x : V) (g : list (string * V)) :
  map_get k (map_set k' x g) = if String.eqb k k' then Some x else map_get k g.
Proof.
  induction g as [ | [k0 v0] g IH ]; simpl.
  - destruct (String.eqb k k'); reflexivity.
  - destruct (String.eqb k' k0) eqn:E1; simpl.
    + apply String.eqb_eq in E1. subst k0.
      destruct (String.eqb k k'); reflexivity.
    + rewrite IH. destruct (String.eqb k k0) eqn:E2; [ | reflexivity ].
      apply String.eqb_eq in E2. subst k0.
      rewrite String.eqb_sym, E1. reflexivity.
Qed.

Lemma map_set_keys {V : Type} (k : string) (x : V) (g : list (string * V)) :
  map fst (map_set k x g) =
    if existsb (String.eqb k) (map fst g) then map fst g else map fst g ++ [k].
Proof.
  induction g as [ | [k0 v0] g IH ]; simpl; [ reflexivity | ].
  destruct (String.eqb k k0) eqn:E; simpl.
  - apply String.eqb_eq in E. now subst.
  - rewrite IH. destruct (existsb (String.eqb k) (map fst g)); reflexivity.
Qed.

Lemma map_set_NoDup {V : Type} (k : string) (x : V) (g : list (string * V)) :
  NoDup (map fst g) -> NoDup (map fst (map_set k x g)).
Proof.
  intro H. rewrite map_set_keys.
  destruct (existsb (String.eqb k) (map fst g)) eqn:E; [ exact H | ].
  apply (Permutation_NoDup (Permutation_cons_append (map fst g) k)).
  constructor; [ | exact H ].
  intro Hin. assert (existsb (String.eqb k) (map fst g) = true).
  { apply existsb_exists. exists k. split; [ exact Hin | apply String.eqb_refl ]. }
  congruence.
Qed.

(** On a batch whose session keys avoid the inherited names the grouping
    returns, and the object it returns maps every key to its group. *)
Lemma reduce_group_step_ok (rt : Runtime) (vs : list violation) :
  forall acc,
    all_clean rt vs = true ->
    exists g,
      reduce (group_step rt) vs acc = Ok g
      /\ (forall k,
            map_get k g =
              match map_get k acc, group_of rt k vs with
              | Some l, f => Some (l ++ f)
              | None, [] => None
              | None, f => Some f
              end)
      /\ (NoDup (map fst acc) -> NoDup (map fst g)).
Proof.
  induction vs as [ | v rest IH ]; intros acc Hclean.
  - exists acc. split; [ reflexivity | split; [ | trivial ] ].
    intro k. simpl. destruct (map_get k acc); [ now rewrite app_nil_r | reflexivity ].
  - simpl in Hclean. apply andb_true_iff in Hclean. destruct Hclean as [Hv Hrest].
    apply negb_true_iff in Hv.
    simpl. unfold group_step at 1. fold (session_key rt v). rewrite Hv.
    destruct (map_get (session_key rt v) acc) as [l | ] eqn:Hg.
    + destruct (IH (map_set (session_key rt v) (l ++ [v]) acc) Hrest)
        as [g [Hred [Hget Hnd]]].
      exists g. split; [ exact Hred | split ].
      * intro k. rewrite Hget, map_get_map_set. unfold group_of. simpl.
        rewrite (String.eqb_sym (session_key rt v) k).
        destruct (String.eqb k (session_key rt v)) eqn:E.
        -- apply String.eqb_eq in E. subst k. rewrite Hg.
           now rewrite <- app_assoc.
        -- reflexivity.
      * intro H. apply Hnd. now apply map_set_NoDup.
    + destruct (IH (map_set (session_key rt v) [v] acc) Hrest)
        as [g [Hred [Hget Hnd]]].
      exists g. split; [ exact Hred | split ].
      * intro k. rewrite Hget, map_get_map_set. unfold group_of. simpl.
        rewrite (String.eqb_sym (session_key rt v) k).
        destruct (String.eqb k (session_key rt v)) eqn:E.
        -- apply String.eqb_eq in E. subst k. rewrite Hg. reflexivity.
        -- reflexivity.
      * intro H. apply Hnd. now apply map_set_NoDup.
Qed.

(** *** The order of [Object.entries] *)

Lemma insert_by_index_perm {V : Type} (n : N) (e : string * V)
    (l : list (N * (string * V))) :
  Permutation (insert_by_index n e l) ((n, e) :: l).
Proof.
  induction l as [ | [m e'] l IH ]; simpl.
  - apply Permutation_refl.
  - destruct (n <? m)%N.
    + apply Permutation_refl.
    + apply perm_trans with ((m, e') :: (n, e) :: l).
      * now apply perm_skip.
      * apply perm_swap.
Qed.

Lemma Object_entries_perm {V : Type} (o : list (string * V)) :
  Permutation (Object_entries o) o.
Proof.
  unfold Object_entries.
  induction o as [ | e o IH ]; simpl.
  - apply Permutation_refl.
  - destruct (entries_split o) as [ints strs].
    destruct (array_index (fst e)) as [n | ].
    + apply perm_trans with (map snd ((n, e) :: ints) ++ strs).
      * apply Permutation_app_tail. apply Permutation_map.
        apply insert_by_index_perm.
      * simpl. now apply perm_skip.
    + apply Permutation_sym. apply Permutation_cons_app.
      now apply Permutation_sym.
Qed.

Lemma filter_length_perm {A : Type} (f : A -> bool) (l l' : list A) :
  Permutation l l' -> List.length (filter f l) = List.length (filter f l').
Proof.
  induction 1 as [ | x l l' _ IH | x y l | l l' l'' _ IH1 _ IH2 ]; simpl.
  - reflexivity.
  - destruct (f x); simpl; now rewrite IH.
  - destruct (f x), (f y); reflexivity.
  - now rewrite IH1.
Qed.

(** *** Flags per session *)

Lemma flags_to_session_app (k : string) (o o' : list emission) :
  flags_to_session k (o ++ o') = (flags_to_session k o + flags_to_session k o')%nat.
Proof. unfold flags_to_session. now rewrite filter_app, length_app. Qed.

Lemma flags_to_observers_app (k : string) (o o' : list emission) :
  flags_to_observers k (o ++ o') =
    (flags_to_observers k o + flags_to_observers k o')%nat.
Proof. unfold flags_to_observers. now rewrite filter_app, length_app. Qed.

(** The flags that the processing of the group of [k'] contributes to the
    count of session [k]. *)
Lemma flags_of_group (k k' : string) (t1 t2 : Z) (b : bool) :
  let sent := if b then [admin_flag k' t1; student_flag k' t2] else [] in
  flags_to_session k sent = (if b && String.eqb k' k then 1 else 0)%nat
  /\ flags_to_observers k sent = (if b && String.eqb k' k then 1 else 0)%nat.
Proof.
  unfold flags_to_session, flags_to_observers, to_room, names_session.
  destruct b; cbn; [ | split; reflexivity ].
  destruct (String.eqb k' k); split; reflexivity.
Qed.

Lemma for_of_entries_run (rt : Runtime) (entries : list (string * list violation)) :
  forall w,
    exists w',
      for_of entries (process_entry rt) w = (Ok tt, w')
      /\ violationQueue w' = violationQueue w
      /\ (forall k,
            flags_to_session k (outbox w') =
              (flags_to_session k (outbox w) + flagged_entries rt k entries)%nat
            /\ flags_to_observers k (outbox w') =
                 (flags_to_observers k (outbox w) + flagged_entries rt k entries)%nat).
Proof.
  induction entries as [ | [k' vs] rest IH ]; intro w.
  - exists w. split; [ reflexivity | split; [ reflexivity | ] ].
    intro k. unfold flagged_entries. simpl. now rewrite !Nat.add_0_r.
  - simpl. unfold bind at 1. unfold process_entry at 1, try_catch. simpl fst. simpl snd.
    destruct (processSessionViolations_run rt k' vs w)
      as [t1 [t2 [w1 [E [Ho [Hq _]]]]]].
    rewrite E. destruct (IH w1) as [w' [E' [Hq' Hflags]]].
    exists w'. split; [ exact E' | split; [ congruence | ] ].
    intro k. destruct (Hflags k) as [Hs Hobs]. rewrite Hs, Hobs, Ho.
    rewrite flags_to_session_app, flags_to_observers_app.
    destruct (flags_of_group k k' t1 t2 (2 <=? critical_count rt vs)%nat) as [F1 F2].
    cbv zeta in F1, F2. rewrite F1, F2.
    unfold flagged_entries. cbn [filter fst snd].
    destruct ((2 <=? critical_count rt vs)%nat && String.eqb k' k);
      cbn [List.length]; lia.
Qed.

Lemma map_get_not_In {V : Type} (k : string) (g : list (string * V)) :
  ~ In k (map fst g) -> map_get k g = None.
Proof.
  induction g as [ | [k0 v0] g IH ]; simpl; intro H; [ reflexivity | ].
  destruct (String.eqb k k0) eqn:E.
  - apply String.eqb_eq in E. subst. exfalso. apply H. now left.
  - apply IH. intro Hin. apply H. now right.
Qed.

Lemma flagged_entries_absent (rt : Runtime) (k : string)
    (g : list (string * list violation)) :
  ~ In k (map fst g) -> flagged_entries rt k g = 0%nat.
Proof.
  unfold flagged_entries.
  induction g as [ | [k0 v0] g IH ]; cbn [filter map fst snd]; intro H;
    [ reflexivity | ].
  destruct (String.eqb k0 k) eqn:E.
  - apply String.eqb_eq in E. subst. exfalso. apply H. now left.
  - rewrite andb_false_r. apply IH. intro Hin. apply H. now right.
Qed.

(** In an object, whose keys are distinct, at most one entry is the group
    of [k]. *)
Lemma flagged_entries_NoDup (rt : Runtime) (k : string)
    (g : list (string * list violation)) :
  NoDup (map fst g) ->
  flagged_entries rt k g =
    match map_get k g with
    | Some vs => if (2 <=? critical_count rt vs)%nat then 1%nat else 0%nat
    | None => 0%nat
    end.
Proof.
  induction g as [ | [k0 v0] g IH ]; cbn [map fst map_get]; intro H;
    [ reflexivity | ].
  inversion H as [ | ? ? Hnotin Hnd ]; subst.
  unfold flagged_entries. cbn [filter fst snd]. rewrite (String.eqb_sym k k0).
  destruct (String.eqb k0 k) eqn:E.
  - apply String.eqb_eq in E. subst k0. rewrite andb_true_r.
    pose proof (flagged_entries_absent rt k g Hnotin) as Habs.
    unfold flagged_entries in Habs.
    destruct (2 <=? critical_count rt v0)%nat; cbn [List.length];
      now rewrite Habs.
  - rewrite andb_false_r. apply IH. exact Hnd.
Qed.

(** X1.  The tick on a batch whose session keys avoid the inherited names: the
    queue is drained, and for every session the batch adds one flag
    notification to the session's own room and one to the observer room if
    the session's drained group holds two critical violations or more, and
    none otherwise. *)
Theorem processViolationQueue_flags_once (rt : Runtime) (w : world) :
  let batch := map snd (violationQueue w) in
  all_clean rt batch = true ->
  exists w',
    processViolationQueue rt w = (Ok tt, w')
    /\ violationQueue w' = []
    /\ forall k,
         let flag := if (2 <=? critical_count rt (group_of rt k batch))%nat
                     then 1%nat else 0%nat in
         flags_to_session k (outbox w') = (flags_to_session k (outbox w) + flag)%nat
         /\ flags_to_observers k (outbox w') =
              (flags_to_observers k (outbox w) + flag)%nat.
Proof.
  intros batch Hclean. unfold processViolationQueue.
  destruct (violationQueue w) as [ | e q ] eqn:Eq.
  - exists w. split; [ reflexivity | split; [ exact Eq | ] ].
    intro k. subst batch. simpl. now rewrite !Nat.add_0_r.
  - fold batch.
    destruct (reduce_group_step_ok rt batch [] Hclean) as [g [Hred [Hget Hnd]]].
    unfold bind, lift, sessionGroups. rewrite Hred.
    fold (process_entry rt).
    destruct (for_of_entries_run rt (Object_entries g) (set_violationQueue [] w))
      as [w' [E [Hq Hflags]]].
    change (fun entry : string * list violation =>
              try_catch (processSessionViolations rt (fst entry) (snd entry))
                (fun _ : exn => ret tt)) with (process_entry rt).
    rewrite E. exists w'. split; [ reflexivity | split; [ exact Hq | ] ].
    intro k. destruct (Hflags k) as [Hs Hobs]. rewrite Hs, Hobs.
    assert (Hcount : flagged_entries rt k (Object_entries g) =
                     if (2 <=? critical_count rt (group_of rt k batch))%nat
                     then 1%nat else 0%nat).
    { unfold flagged_entries.
      rewrite (filter_length_perm _ _ _ (Object_entries_perm g)).
      fold (flagged_entries rt k g).
      rewrite (flagged_entries_NoDup rt k g (Hnd (NoDup_nil _))), Hget.
      cbn [map_get].
      destruct (group_of rt k batch); reflexivity. }
    rewrite Hcount. destruct w. split; reflexivity.
Qed.

(** *** The tick on concrete batches *)

(** Two critical violations of one session in one batch: one flag to the
    session's room, one to the observers. *)
Lemma tick_flags_S1_once :
  let w := exec (processViolationQueue decimal_runtime) two_criticals_of_S1 in
  map (session_key decimal_runtime) (map snd (violationQueue two_criticals_of_S1))
    = ["S1"; "S1"]
  /\ violationQueue w = []
  /\ flags_to_session "S1" (outbox w) = 1%nat
  /\ flags_to_observers "S1" (outbox w) = 1%nat.
Proof. vm_compute. repeat split; reflexivity. Qed.

(** C1.  Session identifiers are minted by the service (the plug-in's
    [uniqid('proctoria_', true)], the UUID keys of the database) and reach a
    connection through the signed token or a validated join only, so the
    session keys of a drained batch name no member of [Object.prototype].
    On every such batch the tick returns and, for every session: if the
    session's drained group holds two or more violations of derived
    severity critical, the batch adds exactly one flag notification to the
    session's own room and exactly one to the observer room, however many
    critical violations there are; if it holds one or none, the batch adds
    no flag notification. *)
Theorem C1_two_criticals_flag_the_session_once (rt : Runtime) (w : world) :
  let batch := map snd (violationQueue w) in
  all_clean rt batch = true ->
  exists w',
    processViolationQueue rt w = (Ok tt, w')
    /\ (forall k,
          (2 <= critical_count rt (group_of rt k batch))%nat ->
          flags_to_session k (outbox w') = S (flags_to_session k (outbox w))
          /\ flags_to_observers k (outbox w') = S (flags_to_observers k (outbox w)))
    /\ (forall k,
          (critical_count rt (group_of rt k batch) < 2)%nat ->
          flags_to_session k (outbox w') = flags_to_session k (outbox w)
          /\ flags_to_observers k (outbox w') = flags_to_observers k (outbox w)).
Proof.
  intros batch Hclean. unfold processViolationQueue.
  destruct (violationQueue w) as [ | e q ] eqn:Eq.
  - exists w. split; [ reflexivity | split ].
    + intros k Hk. subst batch. unfold critical_count in Hk. cbn in Hk. lia.
    + intros k _. split; reflexivity.
  - fold batch.
    destruct (reduce_group_step_ok rt batch [] Hclean) as [g [Hred [Hget Hnd]]].
    unfold bind, lift, sessionGroups. rewrite Hred.
    fold (process_entry rt).
    destruct (for_of_entries_run rt (Object_entries g) (set_violationQueue [] w))
      as [w' [E [_ Hflags]]].
    change (fun entry : string * list violation =>
              try_catch (processSessionViolations rt (fst entry) (snd entry))
                (fun _ : exn => ret tt)) with (process_entry rt).
    rewrite E. exists w'. split; [ reflexivity | ].
    assert (Hcount : forall k,
               flagged_entries rt k (Object_entries g) =
               if (2 <=? critical_count rt (group_of rt k batch))%nat
               then 1%nat else 0%nat).
    { intro k. unfold flagged_entries.
      rewrite (filter_length_perm _ _ _ (Object_entries_perm g)).
      fold (flagged_entries rt k g).
      rewrite (flagged_entries_NoDup rt k g (Hnd (NoDup_nil _))), Hget.
      cbn [map_get].
      destruct (group_of rt k batch); reflexivity. }
    assert (Hout : outbox (set_violationQueue [] w) = outbox w)
      by (destruct w; reflexivity).
    split; intros k Hk; destruct (Hflags k) as [Hs Hobs];
      rewrite Hs, Hobs, Hcount, Hout.
    + apply Nat.leb_le in Hk. rewrite Hk. lia.
    + apply Nat.leb_gt in Hk. rewrite Hk. lia.
Qed.

(** C1 on the scenario of the specification: the batch holds three
    critical violations of S1, and the tick sends one flag to the room of
    S1 and one to the observers; a session with nothing in the batch gets
    none. *)
Lemma C1_witness_three_criticals_of_S1 :
  let batch := map snd (violationQueue scenario_S1) in
  all_clean decimal_runtime batch = true
  /\ critical_count decimal_runtime (group_of decimal_runtime "S1" batch) = 3%nat
  /\ exists w',
       processViolationQueue decimal_runtime scenario_S1 = (Ok tt, w')
       /\ flags_to_session "S1" (outbox w') = 1%nat
       /\ flags_to_observers "S1" (outbox w') = 1%nat
       /\ flags_to_session "S2" (outbox w') = 0%nat
       /\ flags_to_observers "S2" (outbox w') = 0%nat.
Proof.
  cbv zeta.
  assert (Hclean : all_clean decimal_runtime
                     (map snd (violationQueue scenario_S1)) = true)
    by (vm_compute; reflexivity).
  split; [ exact Hclean | split; [ vm_compute; reflexivity | ] ].
  destruct (C1_two_criticals_flag_the_session_once decimal_runtime scenario_S1 Hclean)
    as [w' [E [Hflag Hnone]]].
  exists w'. split; [ exact E | ].
  destruct (Hflag "S1") as [H1 H2]; [ vm_compute; lia | ].
  destruct (Hnone "S2") as [H3 H4]; [ vm_compute; lia | ].
  rewrite H1, H2, H3, H4. vm_compute. repeat split; reflexivity.
Defined.

(** The scenario gives three violations with confidences 0.9, 0.95 and
    0.9, all of them critical, and the tick flags the session once. *)
Lemma scenario_S1_is_flagged_once :
  let batch := map snd (violationQueue scenario_S1) in
  map confidence batch =
    [Num (Fin (9 # 10)); Num (Fin (95 # 100)); Num (Fin (9 # 10))]
  /\ map (fun v => getAlertSeverity decimal_runtime (type v) (confidence v)) batch
     = [critical; critical; critical]
  /\ flags_to_session "S1"
       (outbox (exec (processViolationQueue decimal_runtime) scenario_S1)) = 1%nat
  /\ flags_to_observers "S1"
       (outbox (exec (processViolationQueue decimal_runtime) scenario_S1)) = 1%nat.
Proof. vm_compute. repeat split; reflexivity. Qed.

(** ** The risk increment of a drained group *)

(** The sum that [processSessionViolations] computes, and does not use, is
    rounded at each step, so it depends on the order of the group: the
    confidences 0.1, 0.5 and 1 give 0.16 in this order and
    0.16000000000000003 in the reverse order, and three confidences of 1
    give 0.30000000000000004. *)
Lemma riskIncrement_is_rounded_at_each_step :
  riskIncrement decimal_runtime [report (1 # 10); report (1 # 2); report 1]
  = Fin (5764607523034235 # 36028797018963968)
  /\ riskIncrement decimal_runtime [report 1; report (1 # 2); report (1 # 10)]
     = Fin (1441151880758559 # 9007199254740992)
  /\ riskIncrement decimal_runtime [report 1; report 1; report 1]
     = Fin (1351079888211149 # 4503599627370496).
Proof. vm_compute. repeat split; reflexivity. Qed.

(** ** The risk score of the store *)

Section RiskScore.
Import Database.
Local Open Scope Q_scope.

(** *** Rounding to the nearest integer and to the nearest double *)

(** The double nearest to 0.1; 2^53 + 1 and 2^53 + 3, each half way between
    two doubles; half the smallest subnormal number; and the first number
    that rounds to an infinity, with the one before it. *)
Lemma binary64_examples :
  binary64 (Fin (1 # 10)) = Fin (3602879701896397 # 36028797018963968)
  /\ binary64 (Fin 9007199254740993) = Fin 9007199254740992
  /\ binary64 (Fin 9007199254740995) = Fin 9007199254740996
  /\ binary64 (Fin (2 ^ (-1075))) = Fin 0
  /\ binary64 (Fin (2 ^ 1024 - 2 ^ 970)) = PosInf
  /\ binary64 (Fin (2 ^ 1024 - 2 ^ 970 - 1)) = Fin (2 ^ 1024 - 2 ^ 971)
  /\ binary64 (Fin (- (1 # 10))) = Fin (- 3602879701896397 # 36028797018963968).
Proof. vm_compute. repeat split; reflexivity. Qed.

Lemma round_half_even_near (q : Q) :
  Qabs (inject_Z (round_half_even q) - q) <= 1 # 2.
Proof.
  unfold round_half_even.
  pose proof (Qfloor_le q) as Hlo. pose proof (Qlt_floor q) as Hhi.
  rewrite inject_Z_plus in Hhi. change (inject_Z 1) with 1 in Hhi.
  destruct (Qcompare (q - inject_Z (Qfloor q)) (1 # 2)) eqn:E.
  - apply Qeq_alt in E.
    destruct (Z.even (Qfloor q)); [ | rewrite inject_Z_plus; change (inject_Z 1) with 1 ];
      apply Qabs_case; intros; lra.
  - apply Qlt_alt in E. apply Qabs_case; intros; lra.
  - apply Qgt_alt in E. rewrite inject_Z_plus; change (inject_Z 1) with 1.
    apply Qabs_case; intros; lra.
Qed.

Lemma round_half_even_floor (q : Q) :
  (Qfloor q <= round_half_even q <= Qfloor q + 1)%Z.
Proof.
  unfold round_half_even.
  destruct (Qcompare (q - inject_Z (Qfloor q)) (1 # 2));
    [ destruct (Z.even (Qfloor q)) | | ]; lia.
Qed.

Lemma round_half_even_mono (p q : Q) :
  p <= q -> (round_half_even p <= round_half_even q)%Z.
Proof.
  intro H. pose proof (Qfloor_resp_le _ _ H) as Hf.
  destruct (Z.eq_dec (Qfloor p) (Qfloor q)) as [Heq | Hne].
  - unfold round_half_even. rewrite Heq.
    destruct (Qcompare_spec (p - inject_Z (Qfloor q)) (1 # 2)) as [Ep | Ep | Ep];
      destruct (Qcompare_spec (q - inject_Z (Qfloor q)) (1 # 2)) as [Eq | Eq | Eq];
      try (destruct (Z.even (Qfloor q))); try lia; exfalso; lra.
  - pose proof (round_half_even_floor p). pose proof (round_half_even_floor q). lia.
Qed.

Lemma round_half_even_Z (q : Q) (z : Z) : q == inject_Z z -> round_half_even q = z.
Proof.
  intro H. unfold round_half_even.
  assert (Hf : Qfloor q = z).
  { rewrite <- (Qfloor_Z z). apply Z.le_antisymm; apply Qfloor_resp_le; lra. }
  rewrite Hf.
  destruct (Qcompare (q - inject_Z z) (1 # 2)) eqn:E.
  - apply Qeq_alt in E. lra.
  - reflexivity.
  - apply Qgt_alt in E. lra.
Qed.

Lemma pow2_pos (e : Z) : 0 < 2 ^ e.
Proof. apply Qpower_0_lt. reflexivity. Qed.

Lemma pow2_succ (e : Z) : 2 ^ (e + 1) == 2 * 2 ^ e.
Proof. rewrite Qpower_plus by discriminate. change (2 ^ 1) with 2. ring. Qed.

Lemma pow2_le (a b : Z) : (a <= b)%Z -> 2 ^ a <= 2 ^ b.
Proof. intro H. apply Qpower_le_compat_l; [ exact H | discriminate ]. Qed.

Lemma pow2_Z (a : Z) : (0 <= a)%Z -> inject_Z (2 ^ a) == 2 ^ a.
Proof. intro H. now rewrite Zpower_Qpower. Qed.

Lemma ilog2_spec (q : Q) : 0 < q -> 2 ^ ilog2 q <= q /\ q < 2 ^ (ilog2 q + 1).
Proof.
  intro Hq. unfold ilog2.
  set (k := (Z.log2 (Qnum q) - Z.log2 (Z.pos (Qden q)))%Z).
  destruct q as [n d]. cbn [Qnum Qden] in k.
  assert (Hn : (0 < n)%Z).
  { unfold Qlt in Hq. cbn in Hq. lia. }
  destruct (Z.log2_spec n Hn) as [Hn1 Hn2].
  destruct (Z.log2_spec (Z.pos d) (Pos2Z.is_pos d)) as [Hd1 Hd2].
  pose proof (Z.log2_nonneg n) as Ha. pose proof (Z.log2_nonneg (Z.pos d)) as Hb.
  set (a := Z.log2 n) in *. set (b := Z.log2 (Z.pos d)) in *.
  assert (Hq' : n # d == inject_Z n / inject_Z (Z.pos d)) by apply Qmake_Qdiv.
  assert (Hdpos : 0 < inject_Z (Z.pos d)).
  { change 0 with (inject_Z 0). rewrite <- Zlt_Qlt. apply Pos2Z.is_pos. }
  assert (Hup : n # d < 2 ^ (k + 1)).
  { rewrite Hq'. apply Qlt_shift_div_r; [ exact Hdpos | ].
    apply Qlt_le_trans with (inject_Z (2 ^ Z.succ a)).
    - now rewrite <- Zlt_Qlt.
    - rewrite pow2_Z by lia.
      apply Qle_trans with (2 ^ (k + 1) * inject_Z (2 ^ b)).
      + rewrite pow2_Z by lia. rewrite <- Qpower_plus by discriminate.
        apply pow2_le. subst k. lia.
      + apply Qmult_le_l; [ apply pow2_pos | ]. now rewrite <- Zle_Qle. }
  assert (Hlow : 2 ^ (k - 1) < n # d).
  { rewrite Hq'. apply Qlt_shift_div_l; [ exact Hdpos | ].
    apply Qlt_le_trans with (inject_Z (2 ^ a)).
    - apply Qlt_le_trans with (2 ^ (k - 1) * inject_Z (2 ^ Z.succ b)).
      + apply Qmult_lt_l; [ apply pow2_pos | ]. now rewrite <- Zlt_Qlt.
      + rewrite !pow2_Z by lia. rewrite <- Qpower_plus by discriminate.
        apply pow2_le. subst k. lia.
    - now rewrite <- Zle_Qle. }
  destruct (Qle_bool (2 ^ k) (n # d)) eqn:E.
  - apply Qle_bool_iff in E. split; assumption.
  - assert (Hlt : n # d < 2 ^ k).
    { apply Qnot_le_lt. intro H. apply Qle_bool_iff in H. congruence. }
    split; [ apply Qlt_le_weak; exact Hlow | ].
    replace (k - 1 + 1)%Z with k by lia. exact Hlt.
Qed.

Lemma ilog2_mono (p q : Q) : 0 < p -> p <= q -> (ilog2 p <= ilog2 q)%Z.
Proof.
  intros Hp Hpq.
  assert (Hq : 0 < q) by (eapply Qlt_le_trans; eassumption).
  destruct (ilog2_spec p Hp) as [P1 P2]. destruct (ilog2_spec q Hq) as [Q1 Q2].
  assert (A : (ilog2 p < ilog2 q + 1)%Z).
  { apply Qpower_lt_compat_l_inv with (q := 2); [ | reflexivity ].
    eapply Qle_lt_trans; [ exact P1 | ]. eapply Qle_lt_trans; eassumption. }
  lia.
Qed.

Lemma nearest_double_grid (q : Q) : nearest_double q = grid (exponent q) q.
Proof. reflexivity. Qed.

Lemma grid_mono (e : Z) (p q : Q) : p <= q -> grid e p <= grid e q.
Proof.
  intro H. unfold grid. apply Qmult_le_compat_r; [ | apply Qlt_le_weak, pow2_pos ].
  rewrite <- Zle_Qle. apply round_half_even_mono.
  apply Qmult_le_compat_r; [ exact H | ].
  apply Qlt_le_weak, Qinv_lt_0_compat, pow2_pos.
Qed.

Lemma grid_fix (e : Z) (z : Z) (q : Q) : q == inject_Z z * 2 ^ e -> grid e q == q.
Proof.
  intro H. unfold grid. rewrite (round_half_even_Z (q / 2 ^ e) z).
  - symmetry. exact H.
  - rewrite H. field. pose proof (pow2_pos e). lra.
Qed.

Lemma grid_near (e : Z) (q : Q) : Qabs (grid e q - q) <= 2 ^ e * (1 # 2).
Proof.
  unfold grid. pose proof (pow2_pos e) as Hp.
  pose proof (round_half_even_near (q / 2 ^ e)) as H.
  assert (E : inject_Z (round_half_even (q / 2 ^ e)) * 2 ^ e - q ==
              (inject_Z (round_half_even (q / 2 ^ e)) - q / 2 ^ e) * 2 ^ e).
  { field. lra. }
  rewrite E, Qabs_Qmult. rewrite (Qabs_pos (2 ^ e)) by lra.
  rewrite (Qmult_comm (2 ^ e)). apply Qmult_le_compat_r; [ exact H | lra ].
Qed.

Lemma exponent_cases (q : Q) :
  (exponent q = ilog2 q - 52 /\ -1074 <= ilog2 q - 52)%Z
  \/ (exponent q = -1074 /\ ilog2 q - 52 < -1074)%Z.
Proof. unfold exponent. lia. Qed.

Lemma nearest_double_near (q : Q) :
  0 < q -> Qabs (nearest_double q - q) <= q * 2 ^ (-53) + 2 ^ (-1075).
Proof.
  intro Hq. rewrite nearest_double_grid.
  eapply Qle_trans; [ apply grid_near | ].
  destruct (ilog2_spec q Hq) as [H1 _].
  pose proof (pow2_pos (-1075)) as P1. pose proof (pow2_pos (-53)) as P2.
  destruct (exponent_cases q) as [[E _] | [E _]]; rewrite E.
  - replace (ilog2 q - 52)%Z with (ilog2 q + -53 + 1)%Z by lia.
    rewrite pow2_succ. rewrite Qpower_plus by discriminate.
    assert (2 ^ ilog2 q * 2 ^ (-53) <= q * 2 ^ (-53)).
    { apply Qmult_le_compat_r; lra. }
    lra.
  - change (-1074)%Z with (-1075 + 1)%Z. rewrite pow2_succ.
    assert (0 <= q * 2 ^ (-53)) by (apply Qmult_le_0_compat; lra).
    lra.
Qed.

Lemma nearest_double_upper (q : Q) :
  0 < q -> nearest_double q <= 2 ^ (exponent q + 53).
Proof.
  intro Hq. rewrite nearest_double_grid.
  destruct (ilog2_spec q Hq) as [_ H2].
  assert (Hle : q <= 2 ^ (exponent q + 53)).
  { apply Qlt_le_weak. eapply Qlt_le_trans; [ exact H2 | ].
    apply pow2_le. unfold exponent. lia. }
  assert (Hfix : grid (exponent q) (2 ^ (exponent q + 53)) == 2 ^ (exponent q + 53)).
  { apply (grid_fix _ (2 ^ 53)%Z). rewrite pow2_Z by lia.
    rewrite <- Qpower_plus by discriminate. now rewrite Z.add_comm. }
  rewrite <- Hfix. now apply grid_mono.
Qed.

Lemma nearest_double_lower (q : Q) :
  0 < q -> (-1074 <= ilog2 q - 52)%Z -> 2 ^ (exponent q + 52) <= nearest_double q.
Proof.
  intros Hq He. rewrite nearest_double_grid.
  destruct (ilog2_spec q Hq) as [H1 _].
  assert (E : exponent q = (ilog2 q - 52)%Z) by (unfold exponent; lia).
  assert (Hle : 2 ^ (exponent q + 52) <= q).
  { rewrite E. now replace (ilog2 q - 52 + 52)%Z with (ilog2 q) by lia. }
  assert (Hfix : grid (exponent q) (2 ^ (exponent q + 52)) == 2 ^ (exponent q + 52)).
  { apply (grid_fix _ (2 ^ 52)%Z). rewrite pow2_Z by lia.
    rewrite <- Qpower_plus by discriminate. now rewrite Z.add_comm. }
  rewrite <- Hfix. now apply grid_mono.
Qed.

Lemma nearest_double_nonneg (q : Q) : 0 < q -> 0 <= nearest_double q.
Proof.
  intro Hq. rewrite nearest_double_grid.
  assert (Hfix : grid (exponent q) 0 == 0).
  { apply (grid_fix _ 0%Z). change (inject_Z 0) with 0. ring. }
  rewrite <- Hfix. apply grid_mono. now apply Qlt_le_weak.
Qed.

Lemma nearest_double_mono (p q : Q) :
  0 < p -> p <= q -> nearest_double p <= nearest_double q.
Proof.
  intros Hp Hpq.
  assert (Hq : 0 < q) by (eapply Qlt_le_trans; eassumption).
  pose proof (ilog2_mono p q Hp Hpq) as Hl.
  destruct (Z.eq_dec (exponent p) (exponent q)) as [Heq | Hne].
  - rewrite !nearest_double_grid, Heq. now apply grid_mono.
  - assert (Hlt : (exponent p < exponent q)%Z) by (unfold exponent in *; lia).
    eapply Qle_trans; [ apply nearest_double_upper; exact Hp | ].
    eapply Qle_trans; [ | apply nearest_double_lower; [ exact Hq | ] ].
    + apply pow2_le. lia.
    + unfold exponent in *. lia.
Qed.

(** *** Rounding a number *)

Lemma binary64_zero (x : Q) : x == 0 -> binary64 (Fin x) = Fin 0.
Proof.
  intro H. unfold binary64. now rewrite (proj1 (Qeq_alt x 0) H).
Qed.

Lemma binary64_pos (x : Q) :
  0 < x ->
  binary64 (Fin x) =
    if Qle_bool (2 ^ 1024) (nearest_double x) then PosInf
    else Fin (Qred (nearest_double x)).
Proof.
  intro H. unfold binary64. now rewrite (proj1 (Qgt_alt x 0) H).
Qed.

(** Rounding is monotone on the non-negative numbers, and what lies below
    a finite double rounds to a finite double, with the error of one
    rounding. *)
Lemma binary64_le (x y ry : Q) :
  0 <= x -> x <= y -> binary64 (Fin y) = Fin ry ->
  exists rx,
    binary64 (Fin x) = Fin rx /\ 0 <= rx /\ rx <= ry
    /\ Qabs (rx - x) <= x * 2 ^ (-53) + 2 ^ (-1075).
Proof.
  intros H0 Hxy Hy.
  destruct (Qlt_le_dec 0 x) as [Hx | Hx].
  - assert (Hypos : 0 < y) by (eapply Qlt_le_trans; eassumption).
    rewrite (binary64_pos y Hypos) in Hy.
    destruct (Qle_bool (2 ^ 1024) (nearest_double y)) eqn:Ey; [ discriminate | ].
    assert (Hy' : Qred (nearest_double y) = ry) by congruence. clear Hy.
    pose proof (nearest_double_mono x y Hx Hxy) as Hm.
    rewrite (binary64_pos x Hx).
    destruct (Qle_bool (2 ^ 1024) (nearest_double x)) eqn:Ex.
    + exfalso. apply Qle_bool_iff in Ex.
      assert (Qle_bool (2 ^ 1024) (nearest_double y) = true).
      { apply Qle_bool_iff. eapply Qle_trans; eassumption. }
      congruence.
    + exists (Qred (nearest_double x)). split; [ reflexivity | ].
      rewrite <- Hy'. rewrite !Qred_correct.
      split; [ now apply nearest_double_nonneg | ].
      split; [ exact Hm | now apply nearest_double_near ].
  - assert (Hx0 : x == 0) by lra.
    rewrite (binary64_zero x Hx0). exists 0. split; [ reflexivity | ].
    pose proof (pow2_pos (-53)). pose proof (pow2_pos (-1075)).
    split; [ lra | ]. split.
    + destruct (Qlt_le_dec 0 y) as [Hy0 | Hy0].
      * rewrite (binary64_pos y Hy0) in Hy.
        destruct (Qle_bool (2 ^ 1024) (nearest_double y)); [ discriminate | ].
        assert (Hy' : Qred (nearest_double y) = ry) by congruence.
        rewrite <- Hy', Qred_correct.
        now apply nearest_double_nonneg.
      * assert (Hyz : y == 0) by lra.
        rewrite (binary64_zero y Hyz) in Hy.
        assert (Hy' : 0 = ry) by congruence. rewrite <- Hy'. lra.
    + rewrite Hx0. apply Qabs_case; intros; lra.
Qed.

Lemma binary64_ge (x y rx ry : Q) :
  0 <= x -> x <= y -> binary64 (Fin x) = Fin rx -> binary64 (Fin y) = Fin ry ->
  rx <= ry.
Proof.
  intros H0 Hxy Hx Hy.
  destruct (binary64_le x y ry H0 Hxy Hy) as [rx' [E [_ [Hle _]]]].
  rewrite Hx in E. assert (E' : rx = rx') by congruence. now rewrite E'.
Qed.

(** *** Doubles that the proofs name *)

Lemma double_one : binary64 (Fin 1) = Fin 1.
Proof. vm_compute. reflexivity. Qed.

Lemma double_half : binary64 (Fin (1 # 2)) = Fin (1 # 2).
Proof. vm_compute. reflexivity. Qed.

Lemma double_two_53 :
  binary64 (Fin (9007199254740992 + (1 # 2))) = Fin 9007199254740992.
Proof. vm_compute. reflexivity. Qed.

Lemma double_min_normal : binary64 (Fin (2 ^ (-1022))) = Fin (2 ^ (-1022)).
Proof. vm_compute. reflexivity. Qed.

Lemma double_two_m1026 : binary64 (Fin (2 ^ (-1026))) = Fin (2 ^ (-1026)).
Proof. vm_compute. reflexivity. Qed.

Lemma double_weights :
  double_weight (4 # 10) (3602879701896397 # 9007199254740992)
  /\ double_weight (3 # 10) (5404319552844595 # 18014398509481984)
  /\ double_weight (2 # 10) (3602879701896397 # 18014398509481984)
  /\ double_weight (1 # 10) (3602879701896397 # 36028797018963968).
Proof.
  unfold double_weight.
  repeat split; try (vm_compute; reflexivity); try (vm_compute; discriminate).
Qed.

(** *** One turn of the loop *)

(** The error of one rounding, with the constants written out: a relative
    error of 2^-53 and, for what falls among the subnormal numbers, an
    absolute error that 2^-100 covers. *)
Lemma binary64_below (x y ry : Q) :
  0 <= x -> x <= y -> binary64 (Fin y) = Fin ry ->
  exists rx,
    binary64 (Fin x) = Fin rx /\ 0 <= rx /\ rx <= ry
    /\ - (x * (1 # 9007199254740992) + (1 # 1267650600228229401496703205376)) <= rx - x
    /\ rx - x <= x * (1 # 9007199254740992) + (1 # 1267650600228229401496703205376).
Proof.
  intros H0 Hxy Hy.
  destruct (binary64_le x y ry H0 Hxy Hy) as [rx [E [Hpos [Hle Herr]]]].
  exists rx. split; [ exact E | split; [ exact Hpos | split; [ exact Hle | ] ] ].
  assert (Hu : 2 ^ (-53) == 1 # 9007199254740992) by reflexivity.
  assert (He : 2 ^ (-1075) <= 1 # 1267650600228229401496703205376).
  { apply Qle_bool_iff. vm_compute. reflexivity. }
  rewrite Hu in Herr.
  revert Herr. apply Qabs_case; intros; split; lra.
Qed.

Lemma Qmult_between (a b x y : Q) :
  0 <= a -> a <= x -> 0 <= b -> b <= y -> 0 <= a * b /\ a * b <= x * y.
Proof.
  intros Ha Hax Hb Hby. split.
  - now apply Qmult_le_0_compat.
  - apply Qle_trans with (x * b).
    + now apply Qmult_le_compat_r.
    + rewrite !(Qmult_comm x). apply Qmult_le_compat_r; [ exact Hby | lra ].
Qed.

(** A factor in [0, B] scales an error of at most [e] to at most [e * B]. *)
Lemma Qmult_error (d e w B : Q) :
  - e <= d -> d <= e -> 0 <= w -> w <= B -> - (e * B) <= d * w /\ d * w <= e * B.
Proof.
  intros H1 H2 H3 H4.
  assert (He : 0 <= e) by lra.
  destruct (Qlt_le_dec d 0) as [Hd | Hd].
  - destruct (Qmult_between (- d) w e B) as [A1 A2]; lra.
  - destruct (Qmult_between d w e B) as [A1 A2]; lra.
Qed.

Lemma is_zero_pos (q : Q) : 0 < q -> is_zero (Fin q) = false.
Proof.
  intro H. unfold is_zero. destruct (Qeq_bool q 0) eqn:E; [ | reflexivity ].
  apply Qeq_bool_iff in E. lra.
Qed.

(** One weighted addition on a total between 0 and 2^53, for a confidence
    in [0,1] that is zero or normal: it returns, the total stays in the
    range, and it is off the exact sum by at most (total + 2) * 2^-53. *)
Lemma add_weighted_graded (total c k W : Q) (r : violation_record) :
  double_weight k W ->
  confidence r = Fin c ->
  (c == 0 \/ 2 ^ (-1022) <= c) -> c <= 1 ->
  0 <= total -> total <= 9007199254740992 ->
  exists total',
    add_weighted (Fin total) r k = Returns (Fin total')
    /\ 0 <= total' /\ total' <= 9007199254740992
    /\ - ((total + 2) * (1 # 9007199254740992)) <= total' - (total + c * k)
    /\ total' - (total + c * k) <= (total + 2) * (1 # 9007199254740992).
Proof.
  intros [HW [W1 [W2 [K1 [K2 [W3 W4]]]]]] Hc Hc0 Hc1 T0 T1.
  unfold add_weighted. rewrite Hc, HW.
  assert (C0 : 0 <= c).
  { destruct Hc0 as [H | H]; [ lra | ]. pose proof (pow2_pos (-1022)). lra. }
  destruct (binary64_below c 1 1 C0 Hc1 double_one) as [rc [Erc [Rc0 [Rc1 [Rc2 Rc3]]]]].
  destruct (Qmult_between rc W 1 (1 # 2) Rc0 Rc1) as [P0 P1]; [ lra | exact W2 | ].
  rewrite Qmult_1_l in P1.
  destruct (binary64_below (rc * W) (1 # 2) (1 # 2) P0 P1 double_half)
    as [rt [Ert [Rt0 [Rt1 [Rt2 Rt3]]]]].
  assert (Hmul : float8mul (binary64 (Fin c)) (Fin W) = Returns (Fin rt)).
  { unfold float8mul. destruct Hc0 as [Hz | Hn].
    - assert (Hrc : 0 = rc) by (rewrite (binary64_zero c Hz) in Erc; congruence).
      subst rc. rewrite Erc. cbn [num_mul].
      rewrite binary64_zero in Ert by ring.
      assert (Hrt : 0 = rt) by congruence. subst rt.
      rewrite binary64_zero by ring. reflexivity.
    - rewrite Erc. cbn [num_mul]. rewrite Ert. cbn [is_inf andb].
      assert (Hrc : 2 ^ (-1022) <= rc).
      { apply (binary64_ge (2 ^ (-1022)) c);
          [ apply Qlt_le_weak, pow2_pos | exact Hn | apply double_min_normal | exact Erc ]. }
      assert (Hlow : 2 ^ (-1026) <= rc * W).
      { assert (E : 2 ^ (-1026) == 2 ^ (-1022) * (1 # 16)) by reflexivity.
        rewrite E. pose proof (pow2_pos (-1022)) as Hp.
        apply (Qmult_between (2 ^ (-1022)) (1 # 16) rc W); lra. }
      assert (Hrt : 2 ^ (-1026) <= rt).
      { apply (binary64_ge (2 ^ (-1026)) (rc * W));
          [ apply Qlt_le_weak, pow2_pos | exact Hlow | apply double_two_m1026 | exact Ert ]. }
      rewrite is_zero_pos; [ reflexivity | ].
      pose proof (pow2_pos (-1026)). lra. }
  rewrite Erc in Hmul |- *. rewrite Hmul.
  unfold float8pl. cbn [num_add].
  assert (S0 : 0 <= total + rt) by lra.
  assert (S1 : total + rt <= 9007199254740992 + (1 # 2)) by lra.
  destruct (binary64_below (total + rt) _ _ S0 S1 double_two_53)
    as [t' [Et [Q0 [Q1 [Q2 Q3]]]]].
  rewrite Et. cbn [is_inf andb]. exists t'.
  split; [ reflexivity | split; [ exact Q0 | split; [ exact Q1 | ] ] ].
  assert (E1 : rc * W - c * k == (rc - c) * W + c * (W - k)) by ring.
  destruct (Qmult_error (rc - c)
              (c * (1 # 9007199254740992) + (1 # 1267650600228229401496703205376))
              W (1 # 2)) as [B1 B2]; [ lra | lra | lra | lra | ].
  destruct (Qmult_error (W - k) (1 # 36028797018963968) c 1) as [B3 B4];
    [ lra | lra | lra | lra | ].
  split; lra.
Qed.

(** *** The loop and the score *)

Lemma graded_term (r : violation_record) :
  graded r ->
  0 <= finite_part (confidence r) * severityWeight (severity r)
  /\ finite_part (confidence r) * severityWeight (severity r) <= 4 # 10.
Proof.
  intros [[s [Hs Hin]] [c [Hc [Hc0 Hc1]]]]. rewrite Hs, Hc. cbn [finite_part].
  assert (C0 : 0 <= c).
  { destruct Hc0 as [H | H]; [ lra | ]. pose proof (pow2_pos (-1022)). lra. }
  assert (Hw : 0 <= severityWeight (Some s) /\ severityWeight (Some s) <= 4 # 10).
  { unfold known_severities in Hin. cbn [In] in Hin.
    destruct Hin as [H | [H | [H | [H | []]]]]; subst s; vm_compute;
      split; discriminate. }
  destruct Hw as [W0 W1].
  destruct (Qmult_between c (severityWeight (Some s)) 1 (4 # 10)) as [A B]; lra.
Qed.

(** One turn of the loop on a row as the service stores it. *)
Lemma loop_body_graded (total : Q) (r : violation_record) :
  graded r ->
  0 <= total -> total <= 9007199254740992 ->
  exists total',
    loop_body (Fin total) r = Returns (Fin total')
    /\ 0 <= total' /\ total' <= 9007199254740992
    /\ - ((total + 2) * (1 # 9007199254740992))
       <= total' - (total + finite_part (confidence r) * severityWeight (severity r))
    /\ total' - (total + finite_part (confidence r) * severityWeight (severity r))
       <= (total + 2) * (1 # 9007199254740992).
Proof.
  intros [[s [Hs Hin]] [c [Hc [Hc0 Hc1]]]] T0 T1.
  destruct double_weights as [D4 [D3 [D2 D1]]].
  unfold loop_body. rewrite Hs. rewrite Hc. cbn [finite_part].
  unfold known_severities in Hin. cbn [In] in Hin.
  destruct Hin as [H | [H | [H | [H | []]]]]; subst s;
    cbn [String.eqb Ascii.eqb Bool.eqb severityWeight];
    eapply add_weighted_graded; eassumption.
Qed.

Lemma for_loop_range (rows : list violation_record) :
  Forall graded rows ->
  forall total, 0 <= total -> total <= 9007199254740992 ->
    exists total',
      for_loop rows (Fin total) = Returns (Fin total')
      /\ 0 <= total' /\ total' <= 9007199254740992.
Proof.
  induction 1 as [ | r rows Hr _ IH ]; intros total T0 T1.
  - exists total. repeat split; assumption.
  - destruct (loop_body_graded total r Hr T0 T1) as [t1 [E [A [B _]]]].
    cbn [for_loop]. rewrite E. now apply IH.
Qed.

Lemma rounding_bound_succ (k : nat) :
  rounding_bound (S k) ==
  rounding_bound k + (4 * inject_Z (Z.of_nat k) + 2) * (1 # 9007199254740992).
Proof.
  unfold rounding_bound. rewrite Nat2Z.inj_succ. unfold Z.succ.
  rewrite !inject_Z_mult, !inject_Z_plus.
  assert (E : 2 ^ (-52) == 2 * (1 # 9007199254740992)) by reflexivity.
  rewrite E. change (inject_Z 1) with 1. ring.
Qed.

Lemma rounding_bound_mono (a b : nat) :
  (a <= b)%nat -> rounding_bound a <= rounding_bound b.
Proof.
  intro H. unfold rounding_bound.
  apply Qmult_le_compat_r; [ | apply Qlt_le_weak, pow2_pos ].
  rewrite <- Zle_Qle. nia.
Qed.

Lemma rounding_bound_0 : rounding_bound 0 == 0.
Proof. reflexivity. Qed.

(** The loop against the exact sum: after [k] rows the total is within
    [rounding_bound k] of the exact sum, as long as the bound stays below 1. *)
Lemma for_loop_error (rows : list violation_record) :
  Forall graded rows ->
  forall (k : nat) (total exact : Q),
    0 <= total -> total <= 9007199254740992 ->
    0 <= exact -> exact <= (4 # 10) * inject_Z (Z.of_nat k) ->
    - rounding_bound k <= total - exact -> total - exact <= rounding_bound k ->
    rounding_bound (k + List.length rows) <= 1 ->
    exists total',
      for_loop rows (Fin total) = Returns (Fin total')
      /\ - rounding_bound (k + List.length rows) <= total' - (exact + weighted_sum rows)
      /\ total' - (exact + weighted_sum rows) <= rounding_bound (k + List.length rows).
Proof.
  induction 1 as [ | r rows Hr _ IH ]; intros k total exact T0 T1 E0 E1 B0 B1 Hsmall.
  - exists total. cbn [for_loop weighted_sum fold_right List.length].
    rewrite Nat.add_0_r. split; [ reflexivity | split; lra ].
  - destruct (loop_body_graded total r Hr T0 T1) as [t1 [E [A [B [C D]]]]].
    destruct (graded_term r Hr) as [G0 G1].
    cbn [for_loop]. rewrite E.
    cbn [List.length] in Hsmall |- *. rewrite Nat.add_succ_r in Hsmall |- *.
    change (S (k + List.length rows)) with (S k + List.length rows)%nat in Hsmall |- *.
    pose proof (rounding_bound_succ k) as Hs.
    assert (Hk : total <= 4 * inject_Z (Z.of_nat k)).
    { destruct k as [ | k ].
      - pose proof rounding_bound_0. change (inject_Z (Z.of_nat 0)) with 0 in *. lra.
      - assert (Hone : rounding_bound (S k) <= 1).
        { eapply Qle_trans; [ apply rounding_bound_mono | exact Hsmall ]. lia. }
        assert (1 <= inject_Z (Z.of_nat (S k))).
        { change 1 with (inject_Z 1). rewrite <- Zle_Qle. lia. }
        lra. }
    assert (Hk1 : inject_Z (Z.of_nat (S k)) == inject_Z (Z.of_nat k) + 1).
    { rewrite Nat2Z.inj_succ. unfold Z.succ. now rewrite inject_Z_plus. }
    destruct (IH (S k) t1
                (exact + finite_part (confidence r) * severityWeight (severity r)))
      as [t' [E' [L U]]]; try lra.
    exists t'. split; [ exact E' | ].
    cbn [weighted_sum fold_right]. fold (weighted_sum rows). split; lra.
Qed.

Lemma weighted_sum_nonneg (rows : list violation_record) :
  Forall graded rows -> 0 <= weighted_sum rows.
Proof.
  induction 1 as [ | r rows Hr _ IH ]; cbn [weighted_sum fold_right].
  - lra.
  - fold (weighted_sum rows). destruct (graded_term r Hr). lra.
Qed.

Lemma weighted_sum_perm (rows rows' : list violation_record) :
  Permutation rows rows' -> weighted_sum rows == weighted_sum rows'.
Proof.
  induction 1; cbn [weighted_sum fold_right];
    repeat match goal with
           | |- context [fold_right _ 0 ?l] =>
               change (fold_right
                         (fun r acc => finite_part (confidence r)
                                       * severityWeight (severity r) + acc) 0 l)
                 with (weighted_sum l)
           end; lra.
Qed.

Lemma spec_risk_score_range (rows : list violation_record) :
  Forall graded rows -> 0 <= spec_risk_score rows /\ spec_risk_score rows <= 1.
Proof.
  intro H. pose proof (weighted_sum_nonneg rows H). unfold spec_risk_score.
  destruct (Qle_bool (weighted_sum rows) 1) eqn:E.
  - apply Qle_bool_iff in E. lra.
  - lra.
Qed.

Lemma spec_risk_score_perm (rows rows' : list violation_record) :
  Permutation rows rows' -> spec_risk_score rows == spec_risk_score rows'.
Proof.
  intro H. pose proof (weighted_sum_perm rows rows' H) as E. unfold spec_risk_score.
  destruct (Qle_bool (weighted_sum rows) 1) eqn:E1;
    destruct (Qle_bool (weighted_sum rows') 1) eqn:E2; try lra.
  - apply Qle_bool_iff in E1.
    assert (Qle_bool (weighted_sum rows') 1 = true) by (apply Qle_bool_iff; lra).
    congruence.
  - apply Qle_bool_iff in E2.
    assert (Qle_bool (weighted_sum rows) 1 = true) by (apply Qle_bool_iff; lra).
    congruence.
Qed.

(** The score of a session whose rows are as the service stores them. *)
Lemma calculate_risk_score_graded (violations : list violation_record)
    (session_uuid : string) :
  let rows := select_violations violations session_uuid in
  Forall graded rows ->
  exists score,
    calculate_risk_score violations session_uuid = Returns (Fin score)
    /\ 0 <= score /\ score <= 1
    /\ - rounding_bound (List.length rows) <= score - spec_risk_score rows
    /\ score - spec_risk_score rows <= rounding_bound (List.length rows).
Proof.
  intros rows Hall.
  destruct (for_loop_range rows Hall 0) as [total [E [T0 T1]]]; [ lra | lra | ].
  unfold calculate_risk_score. fold rows. rewrite E, double_one.
  cbn [float8gt num_lt].
  set (score := if Qltb 1 total then 1 else total).
  assert (Hscore : (if Qltb 1 total then Fin 1 else Fin total) = Fin score).
  { unfold score. destruct (Qltb 1 total); reflexivity. }
  assert (Hrange : 0 <= score /\ score <= 1).
  { unfold score. destruct (Qltb 1 total) eqn:L; [ lra | ].
    split; [ exact T0 | ].
    apply Qnot_lt_le. intro H. apply Qltb_lt in H. congruence. }
  exists score. rewrite Hscore.
  split; [ reflexivity | split; [ tauto | split; [ tauto | ] ] ].
  destruct (spec_risk_score_range rows Hall) as [S0 S1].
  destruct (Qlt_le_dec 1 (rounding_bound (List.length rows))) as [Hbig | Hsmall].
  - lra.
  - destruct (for_loop_error rows Hall 0 0 0) as [total' [E' [L U]]];
      try (change (inject_Z (Z.of_nat 0)) with 0); try rewrite rounding_bound_0;
      try lra.
    { exact Hsmall. }
    cbn [Nat.add] in L, U.
    assert (total' = total) by congruence. subst total'.
    unfold score, spec_risk_score.
    destruct (Qltb 1 total) eqn:L1; destruct (Qle_bool (weighted_sum rows) 1) eqn:L2;
      try (apply Qltb_lt in L1); try (apply Qle_bool_iff in L2).
    + lra.
    + lra.
    + assert (total <= 1).
      { apply Qnot_lt_le. intro H. apply Qltb_lt in H. congruence. }
      lra.
    + assert (total <= 1).
      { apply Qnot_lt_le. intro H. apply Qltb_lt in H. congruence. }
      assert (1 < weighted_sum rows).
      { apply Qnot_le_lt. intro H'. apply Qle_bool_iff in H'. congruence. }
      lra.
Qed.

(** The trigger writes what the function returns into the rows of the
    session, and running it again on the result changes nothing. *)
Lemma update_sessions_run (db : database) (NEW : violation_record) (score : number) :
  calculate_risk_score (violations db) (session_id NEW) = Returns score ->
  (Z.of_nat (List.length (select_violations (violations db) (session_id NEW)))
   <= 2147483647)%Z ->
  forall rows,
    exists rows',
      update_sessions db NEW rows = Returns rows'
      /\ (forall db', violations db' = violations db ->
                      update_sessions db' NEW rows' = Returns rows')
      /\ (forall row, In row rows' -> id row = session_id NEW -> risk_score row = score).
Proof.
  intros Hscore Hcount rows.
  assert (Hset : forall db' row,
             violations db' = violations db ->
             set_row db' NEW row =
             Returns {| id := id row; risk_score := score;
                        violations_count :=
                          Z.of_nat (List.length
                                      (select_violations (violations db)
                                         (session_id NEW))) |}).
  { intros db' row Hv. unfold set_row, count_violations. rewrite Hv, Hscore.
    destruct (Z.ltb_spec 2147483647
                (Z.of_nat (List.length
                             (select_violations (violations db) (session_id NEW)))));
      [ lia | reflexivity ]. }
  induction rows as [ | row rest [rest' [E [Hagain Hrow]]] ].
  - exists []. cbn. repeat split; try reflexivity. intros row [].
  - cbn [update_sessions]. rewrite E.
    destruct (String.eqb (id row) (session_id NEW)) eqn:Hid.
    + rewrite (Hset db row eq_refl).
      eexists. split; [ reflexivity | split ].
      * intros db' Hv. cbn [update_sessions id]. rewrite Hid, (Hset db' _ Hv).
        rewrite (Hagain db' Hv). reflexivity.
      * intros r [Hr | Hr] Hir; [ subst r; reflexivity | now apply Hrow ].
    + exists (row :: rest'). split; [ reflexivity | split ].
      * intros db' Hv. cbn [update_sessions]. rewrite Hid.
        rewrite (Hagain db' Hv). reflexivity.
      * intros r [Hr | Hr] Hir; [ subst r | now apply Hrow ].
        apply String.eqb_neq in Hid. contradiction.
Qed.

(** C2, as the code has it.  The risk score of a session is computed by
    the store: [calculate_risk_score] adds confidence times the weight of
    the severity (0.4, 0.3, 0.2, 0.1) over the rows of the session, in the
    order of the scan and rounding to double precision at each step, and
    caps the total at 1.0.  For rows as the service stores them the
    function returns a score in [0,1] that is within n^2/2^52 of the exact
    capped sum, n being the number of rows; any other scan order of the
    same rows gives a score within n^2/2^51 of it; and the trigger (as long
    as the number of rows fits the [INTEGER] column that counts them)
    stores the score in the row of the session, where running it again on
    unchanged violations changes nothing. *)
Theorem C2_risk_score_is_the_capped_sum_up_to_rounding
    (violations : list violation_record) (session_uuid : string) :
  let rows := select_violations violations session_uuid in
  Forall graded rows ->
  exists score,
    calculate_risk_score violations session_uuid = Returns (Fin score)
    /\ 0 <= score /\ score <= 1
    /\ Qabs (score - spec_risk_score rows) <= rounding_bound (List.length rows)
    /\ (forall violations',
          Permutation rows (select_violations violations' session_uuid) ->
          exists score',
            calculate_risk_score violations' session_uuid = Returns (Fin score')
            /\ Qabs (score - score') <= 2 * rounding_bound (List.length rows))
    /\ (forall sessions NEW,
          session_id NEW = session_uuid ->
          (Z.of_nat (List.length rows) <= 2147483647)%Z ->
          exists db',
            update_session_risk_score NEW
              {| proctoring_sessions := sessions; Database.violations := violations |}
              = Returns db'
            /\ update_session_risk_score NEW db' = Returns db'
            /\ forall row, In row (proctoring_sessions db') ->
                           id row = session_uuid -> risk_score row = Fin score).
Proof.
  intros rows Hall.
  destruct (calculate_risk_score_graded violations session_uuid Hall)
    as [score [E [S0 [S1 [L U]]]]].
  fold rows in L, U.
  exists score. split; [ exact E | split; [ exact S0 | split; [ exact S1 | ] ] ].
  split; [ | split ].
  - apply Qabs_case; intros; lra.
  - intros violations' Hperm.
    assert (Hall' : Forall graded (select_violations violations' session_uuid)).
    { eapply Permutation_Forall; eassumption. }
    destruct (calculate_risk_score_graded violations' session_uuid Hall')
      as [score' [E' [S0' [S1' [L' U']]]]].
    rewrite <- (Permutation_length Hperm) in L', U'.
    pose proof (spec_risk_score_perm _ _ Hperm) as Hspec.
    exists score'. split; [ exact E' | ].
    apply Qabs_case; intros; lra.
  - intros sessions NEW HNEW Hcount.
    set (db := {| proctoring_sessions := sessions; Database.violations := violations |}).
    assert (Hscore : calculate_risk_score (Database.violations db) (session_id NEW)
                     = Returns (Fin score)).
    { rewrite HNEW. exact E. }
    assert (Hcount' : (Z.of_nat (List.length
                                   (select_violations (Database.violations db)
                                      (session_id NEW))) <= 2147483647)%Z).
    { rewrite HNEW. exact Hcount. }
    destruct (update_sessions_run db NEW (Fin score) Hscore Hcount' sessions)
      as [rows' [Erun [Hagain Hrow]]].
    exists {| proctoring_sessions := rows'; Database.violations := violations |}.
    unfold update_session_risk_score.
    change (proctoring_sessions db) with sessions. rewrite Erun.
    split; [ reflexivity | split ].
    + set (db1 := {| proctoring_sessions := rows';
                     Database.violations := violations |}).
      change (proctoring_sessions db1) with rows'.
      rewrite (Hagain db1 eq_refl). reflexivity.
    + intros row Hin Hid. apply Hrow; [ exact Hin | congruence ].
Qed.

Lemma graded_sample (kind : string) (c : Q) (grade : string) :
  In grade known_severities -> Qle_bool (2 ^ (-1022)) c = true -> Qle_bool c 1 = true ->
  graded (sample kind c grade).
Proof.
  intros H1 H2 H3. split.
  - exists grade. split; [ reflexivity | exact H1 ].
  - exists c. split; [ reflexivity | ].
    split; [ right; now apply Qle_bool_iff | now apply Qle_bool_iff ].
Qed.

(** C2 on three of the rows that the schema inserts as samples, taken as
    the rows of one session. *)
Lemma C2_witness_three_sample_rows :
  let violations :=
    [ sample "face_not_detected" (8 # 10) "high";
      sample "multiple_faces" (9 # 10) "critical";
      sample "copy_paste" (9 # 10) "critical" ] in
  let rows := select_violations violations "S1" in
  Forall graded rows
  /\ exists score,
       calculate_risk_score violations "S1" = Returns (Fin score)
       /\ 0 <= score /\ score <= 1
       /\ Qabs (score - spec_risk_score rows) <= rounding_bound (List.length rows)
       /\ (forall violations',
             Permutation rows (select_violations violations' "S1") ->
             exists score',
               calculate_risk_score violations' "S1" = Returns (Fin score')
               /\ Qabs (score - score') <= 2 * rounding_bound (List.length rows))
       /\ (forall sessions NEW,
             session_id NEW = "S1" ->
             (Z.of_nat (List.length rows) <= 2147483647)%Z ->
             exists db',
               update_session_risk_score NEW
                 {| proctoring_sessions := sessions; Database.violations := violations |}
                 = Returns db'
               /\ update_session_risk_score NEW db' = Returns db'
               /\ forall row, In row (proctoring_sessions db') ->
                              id row = "S1" -> risk_score row = Fin score).
Proof.
  cbv zeta.
  assert (Hall : Forall graded
                   (select_violations
                      [ sample "face_not_detected" (8 # 10) "high";
                        sample "multiple_faces" (9 # 10) "critical";
                        sample "copy_paste" (9 # 10) "critical" ] "S1")).
  { repeat constructor; apply graded_sample;
      try (vm_compute; reflexivity); cbn; tauto. }
  split; [ exact Hall | ].
  exact (C2_risk_score_is_the_capped_sum_up_to_rounding _ "S1" Hall).
Defined.

(** C2 as the specification states it fails: the score depends on the
    order of the rows.  Three of the sample rows of the schema, as rows of
    one session: scanned as (0.8, high), (0.9, critical), (0.9, critical)
    they score 0.9600000000000002; scanned with the first row last they
    score 0.9600000000000001. *)
Lemma C2_counterexample_scan_order_changes_the_score :
  let a := sample "face_not_detected" (8 # 10) "high" in
  let b := sample "multiple_faces" (9 # 10) "critical" in
  let c := sample "copy_paste" (9 # 10) "critical" in
  Permutation [a; b; c] [b; c; a]
  /\ calculate_risk_score [a; b; c] "S1"
     = Returns (Fin (4323455642275677 # 4503599627370496))
  /\ calculate_risk_score [b; c; a] "S1"
     = Returns (Fin (8646911284551353 # 9007199254740992))
  /\ (8646911284551353 # 9007199254740992 < 4323455642275677 # 4503599627370496).
Proof.
  cbv zeta. split; [ | split; [ | split ] ].
  - exact (Permutation_cons_append
             [ sample "multiple_faces" (9 # 10) "critical";
               sample "copy_paste" (9 # 10) "critical" ]
             (sample "face_not_detected" (8 # 10) "high")).
  - vm_compute. reflexivity.
  - vm_compute. reflexivity.
  - reflexivity.
Qed.

End RiskScore.

(** ** Bulk actions *)

(** One item either returns or throws; whatever it sends goes to a session
    room. *)
Lemma bulk_item_sends_to_rooms (rt : Runtime) (s : socket) (act : value)
    (params : option bulkParameters) (session : value) (w : world) :
  exists sent,
    outbox (snd (bulk_item rt s act params session w)) = outbox w ++ sent
    /\ Forall (fun e => is_room e = true) sent.
Proof.
  unfold bulk_item.
  destruct (is_str act "send_message");
    [ | destruct (is_str act "terminate"); [ | destruct (is_str act "flag") ] ].
  - destruct params as [p | ].
    + unfold sendBulkMessage, bind, Date_now, emit, ret. destruct w; cbn.
      eexists. split; [ reflexivity | ].
      repeat constructor.
    + exists []. cbn. rewrite app_nil_r. split; [ reflexivity | constructor ].
  - exists []. rewrite app_nil_r. split; [ | constructor ].
    destruct params as [p | ]; [ | reflexivity ].
    unfold terminateSessionInBackend, try_catch, bind, axios_post, ret, throw.
    destruct (backend w (requests w) _); reflexivity.
  - exists []. rewrite app_nil_r. split; [ | constructor ].
    destruct params as [p | ]; [ | reflexivity ].
    unfold flagSessionForReview, try_catch, bind, axios_post, ret, throw.
    destruct (backend w (requests w) _); reflexivity.
  - exists []. rewrite app_nil_r. split; [ reflexivity | constructor ].
Qed.

(** The loop never throws and appends one entry per identifier, in the
    order of the list. *)
Lemma bulk_loop_run (rt : Runtime) (s : socket) (act : value)
    (params : option bulkParameters) (ids : list value) :
  forall (results : list bulkEntry) (w : world),
    exists results' sent w',
      bulk_loop rt s act params ids results w = (Ok results', w')
      /\ map entry_sessionId results' = map entry_sessionId results ++ ids
      /\ outbox w' = outbox w ++ sent
      /\ Forall (fun e => is_room e = true) sent.
Proof.
  induction ids as [ | session rest IH ]; intros results w.
  - exists results, [], w. rewrite !app_nil_r.
    repeat split; constructor.
  - cbn [bulk_loop]. unfold bind at 1, try_catch, bind at 1.
    destruct (bulk_item_sends_to_rooms rt s act params session w)
      as [sent1 [Ho1 Hr1]].
    destruct (bulk_item rt s act params session w) as [[res | e] w1];
      cbn [snd] in Ho1; unfold ret.
    + destruct (IH (results ++ [Success session res]) w1)
        as [results' [sent [w' [E [Hm [Ho Hr]]]]]].
      exists results', (sent1 ++ sent), w'.
      split; [ exact E | split; [ | split ] ].
      * rewrite Hm, map_app, <- app_assoc. reflexivity.
      * rewrite Ho, Ho1, <- app_assoc. reflexivity.
      * apply Forall_app. now split.
    + destruct (IH (results ++ [Failure session (exn_message e)]) w1)
        as [results' [sent [w' [E [Hm [Ho Hr]]]]]].
      exists results', (sent1 ++ sent), w'.
      split; [ exact E | split; [ | split ] ].
      * rewrite Hm, map_app, <- app_assoc. reflexivity.
      * rewrite Ho, Ho1, <- app_assoc. reflexivity.
      * apply Forall_app. now split.
Qed.

Lemma set_requests_same (w : world) : set_requests (requests w) w = w.
Proof. destruct w. reflexivity. Qed.

Lemma bulk_loop_terminate (rt : Runtime) (s : socket) (p : bulkParameters)
    (ids : list value) :
  forall (results : list bulkEntry) (w : world),
    bulk_loop rt s (Str "terminate") (Some p) ids results w =
      (Ok (results ++ terminate_outcomes (backend w) (requests w)
                        (p_reason p) (adminId s) ids),
       set_requests
         (requests w ++ map (fun id => PostTerminate id (p_reason p) (adminId s)) ids)
         w).
Proof.
  induction ids as [ | session rest IH ]; intros results w.
  - cbn. rewrite !app_nil_r, set_requests_same. reflexivity.
  - cbn [bulk_loop terminate_outcomes map]. unfold bind at 1, try_catch, bind at 1.
    unfold bulk_item. cbn [is_str String.eqb Ascii.eqb Bool.eqb andb].
    unfold terminateSessionInBackend, try_catch, bind, axios_post, ret, throw.
    destruct (backend w (requests w) (PostTerminate session (p_reason p) (adminId s)))
      as [data | ].
    + fold (bind (A := list bulkEntry) (B := list bulkEntry)).
      rewrite IH. destruct w. cbn. rewrite <- !app_assoc. reflexivity.
    + rewrite IH. destruct w. cbn. rewrite <- !app_assoc. reflexivity.
Qed.

(** C7.  A bulk action issued by a connection that holds the bulk
    permission walks the list of session identifiers in order; an item that
    fails is recorded and the walk goes on; the issuer is sent one
    completion whose results hold exactly one entry per identifier of the
    list, in the order of the list.  For a bulk termination, every
    identifier's request is issued, in list order, and each entry records
    the outcome of its own request. *)
Theorem C7_bulk_action_reports_every_item :
  forall (rt : Runtime) (s : socket) (d : bulkData) (ids : list value) (w : world),
    hasPermission s "bulk_actions" = Ok true ->
    sessionIds d = Some ids ->
    exists results sent t w',
      handleBulkAction rt s (Some d) w = (Ok tt, w')
      /\ outbox w' = outbox w ++ sent ++ [completion s (action d) results t]
      /\ Forall (fun e => is_room e = true) sent
      /\ map entry_sessionId results = ids
      /\ (forall p,
            action d = Str "terminate" -> parameters d = Some p ->
            results = terminate_outcomes (backend w) (requests w)
                        (p_reason p) (adminId s) ids
            /\ requests w' =
                 requests w
                 ++ map (fun id => PostTerminate id (p_reason p) (adminId s)) ids).
Proof.
  intros rt s d ids w Hperm Hids.
  unfold handleBulkAction, try_catch, bind at 1, lift. rewrite Hperm.
  cbn [negb]. rewrite Hids. unfold bind at 1.
  destruct (bulk_loop_run rt s (action d) (parameters d) ids [] w)
    as [results [sent [w1 [E [Hm [Ho Hr]]]]]].
  pose proof E as E0. rewrite E.
  exists results, sent, (clock w1 (reads w1)). eexists.
  unfold bind, Date_now, emit, completion.
  split; [ reflexivity | ].
  split; [ | split; [ exact Hr | split; [ exact Hm | ] ] ].
  - destruct w1. cbn in *. rewrite Ho, <- app_assoc. reflexivity.
  - intros p Hact Hpar. rewrite Hact, Hpar, bulk_loop_terminate in E0.
    inversion E0 as [[Hres Hw]]. split; [ reflexivity | ].
    destruct w. reflexivity.
Qed.

(** C7 on the list sA, sB, sC with sB refused: success, error, success. *)
Lemma C7_witness_sB_fails_sC_is_processed :
  let s := observer "k9" "teacher" ["bulk_actions"] in
  let w := refuses_sB (idle 1000) in
  hasPermission s "bulk_actions" = Ok true
  /\ exists results sent t w',
       handleBulkAction decimal_runtime s (Some terminate_three) w = (Ok tt, w')
       /\ outbox w' =
            outbox w ++ sent ++ [completion s (Str "terminate") results t]
       /\ map entry_sessionId results = [Str "sA"; Str "sB"; Str "sC"]
       /\ map entry_status results = ["success"; "error"; "success"].
Proof.
  cbv zeta. split; [ reflexivity | ].
  destruct (C7_bulk_action_reports_every_item decimal_runtime
              (observer "k9" "teacher" ["bulk_actions"]) terminate_three
              [Str "sA"; Str "sB"; Str "sC"] (refuses_sB (idle 1000))
              eq_refl eq_refl)
    as [results [sent [t [w' [E [Ho [_ [Hm Hterm]]]]]]]].
  exists results, sent, t, w'.
  split; [ exact E | split; [ exact Ho | split; [ exact Hm | ] ] ].
  destruct (Hterm _ eq_refl eq_refl) as [Hres _].
  rewrite Hres. reflexivity.
Defined.

(** ** Screenshot requests and their timeout *)

Lemma for_of_callbacks (due : list timer) :
  forall w,
    for_of due (fun t => run_callback (on_fire t)) w =
      (Ok tt, set_outbox (outbox w ++ map timeout_notice due) w).
Proof.
  induction due as [ | t due IH ]; intro w.
  - cbn. rewrite app_nil_r. destruct w. reflexivity.
  - destruct t as [dl [sid requestId session]].
    cbn [for_of map]. unfold bind, run_callback, on_fire, emit.
    rewrite IH. destruct w. cbn. rewrite <- app_assoc. reflexivity.
Qed.

Lemma insert_timer_perm (t : timer) (l : list timer) :
  Permutation (insert_timer t l) (t :: l).
Proof.
  induction l as [ | t' l IH ]; simpl.
  - apply Permutation_refl.
  - destruct (delay t <? delay t')%Z.
    + apply Permutation_refl.
    + apply perm_trans with (t' :: t :: l); [ now apply perm_skip | apply perm_swap ].
Qed.

Lemma sorted_timers_perm (l : list timer) :
  Permutation (fold_right insert_timer [] l) l.
Proof.
  induction l as [ | t l IH ]; simpl.
  - apply Permutation_refl.
  - apply perm_trans with (t :: fold_right insert_timer [] l).
    + apply insert_timer_perm.
    + now apply perm_skip.
Qed.

(** One pass of the timer phase: every timer that is due sends its notice,
    once, to the connection that registered it, and leaves the list. *)
Lemma elapse_run (ms : Z) (w : world) :
  exists due,
    Permutation due (filter (fun t => (delay t <=? ms)%Z) (timers w))
    /\ elapse ms w =
         (Ok tt,
          set_outbox (outbox w ++ map timeout_notice due)
            (set_timers
               (map (fun t => {| delay := delay t - ms; on_fire := on_fire t |})
                  (filter (fun t => negb (delay t <=? ms)%Z) (timers w)))
               w)).
Proof.
  exists (fold_right insert_timer [] (filter (fun t => (delay t <=? ms)%Z) (timers w))).
  split; [ apply sorted_timers_perm | ].
  unfold elapse. rewrite for_of_callbacks. destruct w. reflexivity.
Qed.

Lemma timeout_notice_to_socket (due : list timer) :
  Forall (fun e => is_room e = false) (map timeout_notice due).
Proof.
  induction due as [ | t due IH ]; simpl; constructor; [ | exact IH ].
  unfold timeout_notice. destruct (on_fire t). reflexivity.
Qed.

(** C8.  A screenshot request by a connection that holds the screenshot
    permission registers one timer of 30 seconds and sends no timeout
    notice by itself.  When the 30 seconds have passed with nothing else
    happening, that timer sends exactly one timeout notice, to the
    requesting connection, and is gone; before that it sends nothing.
    Whatever timers are pending, the notices of a timer pass are one per due
    timer and none of them goes to a room, so the session owner's room gets
    no timeout notice. *)
Theorem C8_screenshot_timeout_goes_to_the_requester_once :
  forall (rt : Runtime) (s : socket) (d : screenshotData) (w : world),
    hasPermission s "request_screenshots" = Ok true ->
    exists requestId w1,
      let t := {| delay := 30000;
                  on_fire := ScreenshotTimeoutCallback (socket_id s) requestId
                               (sc_sessionId d) |} in
      let notice := {| to := ToSocket (socket_id s); event := "screenshot_timeout";
                       body := ScreenshotTimeout requestId (sc_sessionId d) |} in
      handleRequestScreenshot rt s (Some d) w = (Ok tt, w1)
      /\ timers w1 = timers w ++ [t]
      /\ filter is_timeout (outbox w1) = filter is_timeout (outbox w)
      /\ (forall w2 ms,
            timers w2 = [t] ->
            ((ms < 30000)%Z -> outbox (exec (elapse ms) w2) = outbox w2)
            /\ ((30000 <= ms)%Z ->
                outbox (exec (elapse ms) w2) = outbox w2 ++ [notice]
                /\ timers (exec (elapse ms) w2) = []))
      /\ (forall w2 ms,
            exists sent,
              outbox (exec (elapse ms) w2) = outbox w2 ++ sent
              /\ Forall (fun e => is_room e = false) sent
              /\ List.length sent =
                   List.length (filter (fun t => (delay t <=? ms)%Z) (timers w2))).
Proof.
  intros rt s d w Hperm.
  unfold handleRequestScreenshot, try_catch, bind at 1, lift. rewrite Hperm.
  cbn [negb].
  unfold bind, Date_now, Math_random, emit, setTimeout.
  eexists. eexists. cbv zeta.
  split; [ reflexivity | ].
  split; [ destruct w; reflexivity | ].
  split; [ destruct w; cbn; rewrite !filter_app; cbn; now rewrite !app_nil_r | ].
  split.
  - intros w2 ms Hw2. unfold exec, elapse. rewrite for_of_callbacks, Hw2.
    cbn [filter delay].
    destruct (30000 <=? ms)%Z eqn:E.
    + apply Z.leb_le in E. split; [ lia | ]. intros _.
      destruct w2; cbn. split; reflexivity.
    + apply Z.leb_gt in E. split; [ | lia ]. intros _.
      destruct w2; cbn. now rewrite app_nil_r.
  - intros w2 ms. destruct (elapse_run ms w2) as [due [Hp E]].
    exists (map timeout_notice due). unfold exec. rewrite E.
    split; [ destruct w2; reflexivity | ].
    split; [ apply timeout_notice_to_socket | ].
    rewrite length_map. now apply Permutation_length.
Qed.

(** C8 on one request for session S1: after 30 seconds the requester has
    been sent the timeout notice, the session room only the request. *)
Lemma C8_witness_one_request :
  let s := observer "k9" "teacher" ["request_screenshots"] in
  let d := {| sc_sessionId := Str "S1"; sc_userId := Str "u1" |} in
  hasPermission s "request_screenshots" = Ok true
  /\ exists requestId w1,
       handleRequestScreenshot decimal_runtime s (Some d) (idle 1000) = (Ok tt, w1)
       /\ map (fun e => (to e, event e)) (outbox (exec (elapse 30000) w1))
          = [(ToRoom "session_S1", "screenshot_requested");
             (ToSocket "k9", "screenshot_request_sent");
             (ToSocket "k9", "screenshot_timeout")]
       /\ In {| to := ToSocket "k9"; event := "screenshot_timeout";
                body := ScreenshotTimeout requestId (Str "S1") |}
            (outbox (exec (elapse 30000) w1)).
Proof.
  cbv zeta. split; [ reflexivity | ].
  destruct (C8_screenshot_timeout_goes_to_the_requester_once decimal_runtime
              (observer "k9" "teacher" ["request_screenshots"])
              {| sc_sessionId := Str "S1"; sc_userId := Str "u1" |}
              (idle 1000) eq_refl)
    as [requestId [w1 [E [Ht [_ [Hfire _]]]]]].
  exists requestId, w1. split; [ exact E | ].
  destruct (Hfire w1 30000%Z Ht) as [_ Hdue].
  destruct (Hdue (Z.le_refl _)) as [Ho _]. rewrite Ho.
  split.
  - inversion E. reflexivity.
  - apply in_or_app. right. now left.
Defined.

(** ** The sweep of the session registry *)

Lemma deleteSession_run (id : string) (w : world) :
  deleteSession id w =
    (Ok true,
     set_sessions (map_delete id (sessions w))
       (if redis_connected w
        then set_redis_deleted (redis_deleted w ++ [String.append "session:" id]) w
        else w)).
Proof.
  unfold deleteSession, try_catch, bind, redis_del, ret.
  destruct w as [q ss o ts rs rd n c r b up]. cbn. destruct up; reflexivity.
Qed.

Lemma for_of_deleteSession (ids : list string) :
  forall w,
    exists w',
      for_of ids (fun id => deleteSession id ;; ret tt) w = (Ok tt, w')
      /\ sessions w' = delete_all ids (sessions w)
      /\ outbox w' = outbox w
      /\ timers w' = timers w
      /\ violationQueue w' = violationQueue w.
Proof.
  induction ids as [ | id ids IH ]; intro w.
  - exists w. repeat split.
  - cbn [for_of]. unfold bind at 1, bind at 1. rewrite deleteSession_run.
    unfold ret at 1.
    match goal with |- context [for_of ids _ ?x] => destruct (IH x) as [w' [E H]] end.
    exists w'. split; [ exact E | ].
    destruct H as [Hs [Ho [Ht Hq]]]. rewrite Hs, Ho, Ht, Hq.
    destruct w as [q ss o ts rs rd n c r b up]. destruct up; repeat split.
Qed.

Lemma delete_all_filter (ids : list string) :
  forall m,
    delete_all ids m =
      filter (fun e => negb (existsb (fun id => String.eqb id (fst e)) ids)) m.
Proof.
  unfold delete_all.
  induction ids as [ | id ids IH ]; intro m; cbn [fold_left existsb].
  - induction m as [ | e m IHm ]; [ reflexivity | ].
    cbn [filter negb]. now f_equal.
  - rewrite IH. unfold map_delete.
    induction m as [ | e m IHm ]; [ reflexivity | ]. cbn [filter].
    destruct (String.eqb id (fst e)); cbn [negb orb filter]; [ exact IHm | ].
    destruct (existsb (fun id0 => String.eqb id0 (fst e)) ids); cbn [negb];
      now rewrite IHm.
Qed.

Lemma NoDup_keys_same_entry (m : list (string * session)) (e e' : string * session) :
  NoDup (map fst m) -> In e m -> In e' m -> fst e = fst e' -> e = e'.
Proof.
  induction m as [ | x m IH ]; intros Hnd He He' Hk; [ contradiction | ].
  cbn [map] in Hnd. inversion Hnd as [ | ? ? Hnotin Hnd' ]; subst.
  destruct He as [He | He], He' as [He' | He'].
  - congruence.
  - subst x. exfalso. apply Hnotin. rewrite Hk. now apply in_map.
  - subst x. exfalso. apply Hnotin. rewrite <- Hk. now apply in_map.
  - now apply IH.
Qed.

(** In a registry, whose keys are distinct, removing the keys of the
    expired records removes the expired records and no other. *)
Lemma delete_expired_keys (now : Z) (m : list (string * session)) :
  NoDup (map fst m) ->
  delete_all (map fst (filter (fun e => expired now (snd e)) m)) m =
    filter (fun e => negb (expired now (snd e))) m.
Proof.
  intro Hnd. rewrite delete_all_filter. apply filter_ext_in. intros e He.
  f_equal. destruct (expired now (snd e)) eqn:Ex.
  - apply existsb_exists. exists (fst e). split; [ | apply String.eqb_refl ].
    apply in_map. apply filter_In. now split.
  - destruct (existsb _ _) eqn:Eb; [ | reflexivity ].
    apply existsb_exists in Eb. destruct Eb as [k [Hin Hk]].
    apply String.eqb_eq in Hk. subst k.
    apply in_map_iff in Hin. destruct Hin as [e' [Hfst He']].
    apply filter_In in He'. destruct He' as [Hin' Hex'].
    rewrite (NoDup_keys_same_entry m e e' Hnd He Hin' (eq_sym Hfst)) in Ex.
    congruence.
Qed.

(** C9, as the code has it.  The sweep that the five-minute job runs
    removes from the in-memory registry exactly the sessions whose last
    activity lies more than two hours (7 200 000 ms, a constant of the
    code) before the time of the sweep, returns how many it removed, and
    sends nothing: no lifecycle event is emitted for a removed session. *)
Theorem C9_sweep_removes_sessions_idle_for_two_hours :
  forall w : world,
    NoDup (map fst (sessions w)) ->
    let now := clock w (reads w) in
    exists w',
      cleanupInactiveSessions w =
        (Ok (List.length (filter (fun e => expired now (snd e)) (sessions w))), w')
      /\ sessions w' = filter (fun e => negb (expired now (snd e))) (sessions w)
      /\ (forall s, expired now s = (7200000 <? now - lastActivity s)%Z)
      /\ outbox w' = outbox w
      /\ timers w' = timers w.
Proof.
  intros w Hnd now.
  unfold cleanupInactiveSessions, cleanupExpiredSessions, try_catch.
  unfold bind at 1, Date_now. fold now.
  unfold bind at 1.
  match goal with |- context [for_of ?ids _ ?x] =>
    destruct (for_of_deleteSession ids x) as [w' [E [Hs [Ho [Ht _]]]]] end.
  rewrite E. unfold ret. rewrite length_map.
  exists w'. split; [ destruct w; reflexivity | ].
  split; [ | split; [ reflexivity | split ] ].
  - rewrite Hs. destruct w. cbn in *. now apply delete_expired_keys.
  - rewrite Ho. destruct w. reflexivity.
  - rewrite Ht. destruct w. reflexivity.
Qed.

(** C9 on the registry of three: only the session idle for more than two
    hours goes, and nothing is sent. *)
Lemma C9_witness_registry_of_three :
  NoDup (map fst (sessions registry_of_three))
  /\ exists w',
       cleanupInactiveSessions registry_of_three = (Ok 1%nat, w')
       /\ map fst (sessions w') = ["edge"; "fresh"]
       /\ outbox w' = [].
Proof.
  assert (Hnd : NoDup (map fst (sessions registry_of_three))).
  { cbn. repeat constructor; cbn; intuition discriminate. }
  split; [ exact Hnd | ].
  destruct (C9_sweep_removes_sessions_idle_for_two_hours registry_of_three Hnd)
    as [w' [E [Hs [_ [Ho _]]]]].
  exists w'. split; [ exact E | ]. rewrite Hs, Ho. split; reflexivity.
Defined.

(** C9 as the specification states it fails: the sweep removes the expired
    session and emits no event at all, before or after the removal. *)
Lemma C9_counterexample_no_lifecycle_event :
  let r := cleanupInactiveSessions registry_of_three in
  fst r = Ok 1%nat
  /\ map fst (sessions (snd r)) = ["edge"; "fresh"]
  /\ outbox (snd r) = []
  /\ redis_deleted (snd r) = [].
Proof. vm_compute. repeat split; reflexivity. Qed.

(* ------------------------------------------------------------------ *)
(** * Further properties *)

(** ** The tick as a whole *)

(** The tick on the batch of two critical violations of S1. *)
Lemma tick_flags_once_witness :
  all_clean decimal_runtime (map snd (violationQueue two_criticals_of_S1)) = true
  /\ exists w',
       processViolationQueue decimal_runtime two_criticals_of_S1 = (Ok tt, w')
       /\ violationQueue w' = []
       /\ flags_to_session "S1" (outbox w') = 1%nat
       /\ flags_to_observers "S1" (outbox w') = 1%nat
       /\ flags_to_session "S2" (outbox w') = 0%nat.
Proof.
  assert (Hclean : all_clean decimal_runtime
                     (map snd (violationQueue two_criticals_of_S1)) = true)
    by (vm_compute; reflexivity).
  split; [ exact Hclean | ].
  destruct (processViolationQueue_flags_once decimal_runtime two_criticals_of_S1 Hclean)
    as [w' [E [Hq Hflags]]].
  exists w'. split; [ exact E | split; [ exact Hq | ] ].
  destruct (Hflags "S1") as [H1 H2]. destruct (Hflags "S2") as [H3 _].
  rewrite H1, H2, H3. vm_compute. repeat split; reflexivity.
Defined.

(** The tick on the batch that holds the key constructor. *)
Lemma tick_inherited_key_witness :
  existsb (fun v => inherited (ToString decimal_runtime (sessionId v)))
    (map snd (violationQueue with_inherited_key)) = true
  /\ processViolationQueue decimal_runtime with_inherited_key =
       (Throw (TypeError "groups[violation.sessionId].push is not a function"),
        set_violationQueue [] with_inherited_key).
Proof.
  assert (H : existsb (fun v => inherited (ToString decimal_runtime (sessionId v)))
                (map snd (violationQueue with_inherited_key)) = true)
    by (vm_compute; reflexivity).
  split; [ exact H | ].
  exact (processViolationQueue_inherited_key decimal_runtime with_inherited_key H).
Defined.

Lemma reduce_group_step_cases (rt : Runtime) (vs : list violation) :
  forall acc,
    (exists g, reduce (group_step rt) vs acc = Ok g)
    \/ reduce (group_step rt) vs acc =
         Throw (TypeError "groups[violation.sessionId].push is not a function").
Proof.
  induction vs as [ | v rest IH ]; intro acc; cbn [reduce].
  - left. now exists acc.
  - unfold group_step at 1 3.
    destruct (map_get (ToString rt (sessionId v)) acc) as [l | ]; [ apply IH | ].
    destruct (inherited (ToString rt (sessionId v))); [ now right | apply IH ].
Qed.

(** What the processing of the entries does besides the flags: it sends
    nothing but flag notifications and asks the backend for one
    recalculation per entry, in the order of the entries. *)
Lemma for_of_entries_effects (rt : Runtime) (entries : list (string * list violation)) :
  forall w,
    exists w' sent,
      for_of entries (process_entry rt) w = (Ok tt, w')
      /\ outbox w' = outbox w ++ sent
      /\ forallb is_flag sent = true
      /\ requests w' = requests w ++ map PostRecalculate (map fst entries).
Proof.
  induction entries as [ | [k vs] rest IH ]; intro w.
  - exists w, []. rewrite !app_nil_r. repeat split.
  - cbn [for_of map fst]. unfold bind at 1. unfold process_entry at 1, try_catch.
    cbn [fst snd].
    destruct (processSessionViolations_run rt k vs w)
      as [t1 [t2 [w1 [E [Ho [_ Hr]]]]]].
    rewrite E. destruct (IH w1) as [w' [sent [E' [Ho' [Hf Hr']]]]].
    exists w'.
    exists ((if (2 <=? critical_count rt vs)%nat
             then [admin_flag k t1; student_flag k t2] else []) ++ sent).
    split; [ exact E' | split; [ | split ] ].
    + rewrite Ho', Ho, <- app_assoc. reflexivity.
    + rewrite forallb_app, Hf. destruct (2 <=? critical_count rt vs)%nat; reflexivity.
    + rewrite Hr', Hr, <- app_assoc. reflexivity.
Qed.

Lemma map_get_None_not_In {V : Type} (k : string) (g : list (string * V)) :
  map_get k g = None -> ~ In k (map fst g).
Proof.
  induction g as [ | [k0 v0] g IH ]; cbn [map_get map fst]; intros H Hin.
  - contradiction.
  - destruct (String.eqb k k0) eqn:E; [ discriminate | ].
    destruct Hin as [Hin | Hin].
    + subst k0. rewrite String.eqb_refl in E. discriminate.
    + now apply IH.
Qed.

(** X3.  The tick always leaves the queue empty, and it ends in one of two
    ways: it returns, or it throws the TypeError of the grouping. *)
Theorem tick_always_drains_the_queue :
  forall (rt : Runtime) (w : world),
    violationQueue (snd (processViolationQueue rt w)) = []
    /\ (fst (processViolationQueue rt w) = Ok tt
        \/ fst (processViolationQueue rt w) =
             Throw (TypeError "groups[violation.sessionId].push is not a function")).
Proof.
  intros rt w. unfold processViolationQueue.
  destruct (violationQueue w) as [ | e q ] eqn:Eq.
  - split; [ exact Eq | now left ].
  - unfold bind, lift, sessionGroups.
    destruct (reduce_group_step_cases rt (map snd (e :: q)) []) as [[g Hg] | Hthrow].
    + rewrite Hg.
      change (fun entry : string * list violation =>
                try_catch (processSessionViolations rt (fst entry) (snd entry))
                  (fun _ : exn => ret tt)) with (process_entry rt).
      destruct (for_of_entries_run rt (Object_entries g) (set_violationQueue [] w))
        as [w' [E [Hq _]]].
      rewrite E. cbn [fst snd]. split; [ | now left ].
      rewrite Hq. destruct w. reflexivity.
    + rewrite Hthrow. cbn [fst snd]. split; [ destruct w; reflexivity | now right ].
Qed.

(** X4.  On a batch whose session keys avoid the inherited names the tick
    asks the backend for exactly one recalculation per session that has a
    violation in the batch, whatever the backend answers, and sends nothing
    but flag notifications. *)
Theorem tick_recalculates_each_session_once :
  forall (rt : Runtime) (w : world),
    let batch := map snd (violationQueue w) in
    all_clean rt batch = true ->
    exists keys sent w',
      processViolationQueue rt w = (Ok tt, w')
      /\ requests w' = requests w ++ map PostRecalculate keys
      /\ NoDup keys
      /\ (forall k, In k keys <-> exists v, In v batch /\ session_key rt v = k)
      /\ outbox w' = outbox w ++ sent
      /\ forallb is_flag sent = true.
Proof.
  intros rt w batch Hclean. unfold processViolationQueue.
  destruct (violationQueue w) as [ | e q ] eqn:Eq.
  - exists [], [], w. rewrite !app_nil_r.
    split; [ reflexivity | split; [ reflexivity | split; [ constructor | ] ] ].
    split; [ | split; reflexivity ].
    intro k. split; [ contradiction | ]. intros [v [Hin _]]. exact Hin.
  - fold batch.
    destruct (reduce_group_step_ok rt batch [] Hclean) as [g [Hred [Hget Hnd]]].
    unfold bind, lift, sessionGroups. rewrite Hred.
    change (fun entry : string * list violation =>
              try_catch (processSessionViolations rt (fst entry) (snd entry))
                (fun _ : exn => ret tt)) with (process_entry rt).
    destruct (for_of_entries_effects rt (Object_entries g) (set_violationQueue [] w))
      as [w' [sent [E [Ho [Hf Hr]]]]].
    rewrite E. exists (map fst (Object_entries g)), sent, w'.
    pose proof (Permutation_map fst (Object_entries_perm g)) as Hperm.
    split; [ reflexivity | ].
    split; [ rewrite Hr; destruct w; reflexivity | ].
    split; [ apply (Permutation_NoDup (Permutation_sym Hperm)), Hnd; constructor | ].
    split; [ | split; [ rewrite Ho; destruct w; reflexivity | exact Hf ] ].
    intro k. split.
    + intro Hin. apply (Permutation_in _ Hperm) in Hin.
      destruct (group_of rt k batch) as [ | v f ] eqn:Eg.
      * exfalso. apply (map_get_None_not_In k g); [ | exact Hin ].
        rewrite Hget, Eg. reflexivity.
      * exists v. assert (Hv : In v (group_of rt k batch)) by (rewrite Eg; now left).
        apply filter_In in Hv. destruct Hv as [Hv Hk].
        apply String.eqb_eq in Hk. now split.
    + intros [v [Hv Hk]].
      apply (Permutation_in _ (Permutation_sym Hperm)).
      destruct (In_dec string_dec k (map fst g)) as [Hin | Hnot]; [ exact Hin | ].
      exfalso. apply map_get_not_In in Hnot. rewrite Hget in Hnot.
      cbn [map_get] in Hnot.
      assert (Hg : In v (group_of rt k batch)).
      { apply filter_In. split; [ exact Hv | ]. apply String.eqb_eq. exact Hk. }
      destruct (group_of rt k batch); [ contradiction | discriminate ].
Qed.

(** The tick on the batch of two critical violations of S1: one
    recalculation, for S1. *)
Lemma tick_recalculates_witness :
  all_clean decimal_runtime (map snd (violationQueue two_criticals_of_S1)) = true
  /\ exists keys w',
       processViolationQueue decimal_runtime two_criticals_of_S1 = (Ok tt, w')
       /\ requests w' =
            requests two_criticals_of_S1 ++ map PostRecalculate keys
       /\ NoDup keys
       /\ In "S1" keys.
Proof.
  assert (Hclean : all_clean decimal_runtime
                     (map snd (violationQueue two_criticals_of_S1)) = true)
    by (vm_compute; reflexivity).
  split; [ exact Hclean | ].
  destruct (tick_recalculates_each_session_once decimal_runtime
              two_criticals_of_S1 Hclean)
    as [keys [sent [w' [E [Hr [Hnd [Hkeys _]]]]]]].
  exists keys, w'. split; [ exact E | split; [ exact Hr | split; [ exact Hnd | ] ] ].
  apply Hkeys. vm_compute. eexists. split; [ left; reflexivity | reflexivity ].
Defined.

(** ** Exceptions and permissions *)

Lemma answered_by_one (s : socket) (w : world) (ev : string) (b : payload) :
  answered s w
    (Ok tt, set_outbox (outbox w ++ [{| to := ToSocket (socket_id s); event := ev;
                                        body := b |}]) w).
Proof.
  split; [ reflexivity | ]. exists [], {| to := ToSocket (socket_id s); event := ev;
                                          body := b |}, [].
  split; [ now destruct w | reflexivity ].
Qed.

(** X5.  Every request is answered.  Whatever the connection, the payload
    (present or not) and the state, a report of a violation, a request for
    a screenshot and a bulk action return without an exception and send
    at least one message to the connection that called: the result, or an
    error.  A behaviour event returns as well, but may send nothing. *)
Theorem every_request_is_answered :
  forall (rt : Runtime) (s : socket) (w : world),
    (forall data, answered s w (handleViolationDetected rt s data w))
    /\ (forall data, answered s w (handleRequestScreenshot rt s data w))
    /\ (forall data, answered s w (handleBulkAction rt s data w))
    /\ (forall data, fst (handleBehaviorEvent rt s data w) = Ok tt).
Proof.
  intros rt s w. split; [ | split; [ | split ] ].
  - intros [d | ].
    + destruct (validateViolation rt (new_violation s d (clock w (reads w)))) eqn:Hv.
      * destruct (handleViolationDetected_accepts rt s d w Hv) as [w' [E [Ho _]]].
        rewrite E. split; [ reflexivity | ].
        exists [], {| to := ToSocket (socket_id s); event := "violation_alert";
                      body := ViolationAlert
                                (getAlertSeverity rt (d_type d) (d_confidence d))
                                (d_type d) (d_confidence d) (num_of_Z (clock w (reads w))) |}.
        eexists. cbn [snd app]. split; [ | reflexivity ].
        rewrite Ho. unfold student_alerts. cbn [app]. reflexivity.
      * rewrite (handleViolationDetected_rejects rt s d w Hv).
        split; [ reflexivity | ].
        exists [], (rejection s), []. split; [ now destruct w | reflexivity ].
    + apply answered_by_one.
  - intro data. unfold handleRequestScreenshot, try_catch, bind at 1, lift.
    destruct (hasPermission s "request_screenshots") as [[ | ] | e].
    + cbn [negb]. destruct data as [d | ]; [ | apply answered_by_one ].
      unfold bind, Date_now, Math_random, emit, setTimeout, answered.
      destruct w. cbn. split; [ reflexivity | ].
      eexists (_ :: nil). eexists. exists [].
      split; [ rewrite <- app_assoc; reflexivity | reflexivity ].
    + apply answered_by_one.
    + apply answered_by_one.
  - intro data. unfold handleBulkAction, try_catch, bind at 1, lift.
    destruct (hasPermission s "bulk_actions") as [[ | ] | e].
    + cbn [negb]. destruct data as [d | ]; [ | apply answered_by_one ].
      destruct (sessionIds d) as [ids | ]; [ | apply answered_by_one ].
      unfold bind at 1.
      destruct (bulk_loop_run rt s (action d) (parameters d) ids [] w)
        as [results [sent [w1 [E [_ [Ho _]]]]]].
      rewrite E. unfold bind, Date_now, emit, answered.
      destruct w1. cbn in *. split; [ reflexivity | ].
      exists sent. eexists. exists [].
      split; [ rewrite Ho, <- app_assoc; reflexivity | reflexivity ].
    + apply answered_by_one.
    + apply answered_by_one.
  - intro data. unfold handleBehaviorEvent, try_catch.
    match goal with |- context [match ?m w with _ => _ end] =>
      destruct (m w) as [[[] | e] w'] end; reflexivity.
Qed.

(** X6.  The permission gate.  A connection that lacks the permission of a
    handler gets the one error 'Insufficient permissions' and nothing else
    happens: no emission to a room, no timer, no request, whatever the
    payload.  A connection that is no administrator lacks every
    permission. *)
Theorem permission_gate :
  forall (rt : Runtime) (s : socket) (w : world),
    (hasPermission s "request_screenshots" = Ok false ->
     forall data,
       handleRequestScreenshot rt s data w =
         (Ok tt, set_outbox (outbox w ++ [insufficient s]) w))
    /\ (hasPermission s "bulk_actions" = Ok false ->
        forall data,
          handleBulkAction rt s data w =
            (Ok tt, set_outbox (outbox w ++ [insufficient s]) w))
    /\ (isAdmin s = false -> forall p, hasPermission s p = Ok false).
Proof.
  intros rt s w. repeat split.
  - intros H data. unfold handleRequestScreenshot, try_catch, bind, lift.
    rewrite H. reflexivity.
  - intros H data. unfold handleBulkAction, try_catch, bind, lift.
    rewrite H. reflexivity.
  - intros H p. unfold hasPermission. rewrite H. reflexivity.
Qed.

(** The gate on a student connection that asks for a bulk termination. *)
Lemma permission_gate_witness :
  let s := student "k1" "S1" "u1" in
  isAdmin s = false
  /\ hasPermission s "bulk_actions" = Ok false
  /\ handleBulkAction decimal_runtime s (Some terminate_three) (idle 1000) =
       (Ok tt, set_outbox [insufficient s] (idle 1000))
  /\ handleRequestScreenshot decimal_runtime s None (idle 1000) =
       (Ok tt, set_outbox [insufficient s] (idle 1000)).
Proof.
  cbv zeta.
  destruct (permission_gate decimal_runtime (student "k1" "S1" "u1") (idle 1000))
    as [Hs [Hb Hp]].
  split; [ vm_compute; reflexivity | ].
  split; [ exact (Hp eq_refl "bulk_actions") | ].
  split.
  - exact (Hb (Hp eq_refl "bulk_actions") (Some terminate_three)).
  - exact (Hs (Hp eq_refl "request_screenshots") None).
Defined.

(** ** Severity, classification and validation together *)

Lemma Qle_bool_trans (k c c' : Q) :
  (c <= c')%Q -> Qle_bool k c = true -> Qle_bool k c' = true.
Proof.
  intros Hcc H. apply Qle_bool_iff. apply Qle_bool_iff in H.
  now apply Qle_trans with c.
Qed.

(** X7.  The severity never decreases when the confidence grows, and it is
    never below the grade of the type: a type of the critical list is
    critical at every confidence, one of the high list at least high, one
    of the medium list at least medium. *)
Theorem severity_grows_with_confidence :
  forall (rt : Runtime) (ty : value) (c c' : Q),
    (c <= c')%Q ->
    (severity_rank (getAlertSeverity rt ty (Num (Fin c)))
       <= severity_rank (getAlertSeverity rt ty (Num (Fin c'))))%nat
    /\ (severity_rank (severity_of_type ty)
          <= severity_rank (getAlertSeverity rt ty (Num (Fin c))))%nat.
Proof.
  intros rt ty c c' Hcc.
  pose proof (Qle_bool_trans (9 # 10) c c' Hcc) as H9.
  pose proof (Qle_bool_trans (7 # 10) c c' Hcc) as H7.
  pose proof (Qle_bool_trans (5 # 10) c c' Hcc) as H5.
  unfold getAlertSeverity, severity_of_type, ge_lit. cbn [ToNumber num_le].
  destruct (includes criticalViolations ty), (includes highViolations ty),
    (includes mediumViolations ty);
    destruct (Qle_bool (9 # 10) c); try rewrite (H9 eq_refl);
    destruct (Qle_bool (7 # 10) c); try rewrite (H7 eq_refl);
    destruct (Qle_bool (5 # 10) c); try rewrite (H5 eq_refl);
    destruct (Qle_bool (9 # 10) c'); destruct (Qle_bool (7 # 10) c');
    destruct (Qle_bool (5 # 10) c'); cbn; split; lia.
Qed.

(** A suspicious_audio detection at confidences 0.2 and 0.6. *)
Lemma severity_grows_witness :
  (2 # 10 <= 6 # 10)%Q
  /\ getAlertSeverity decimal_runtime (Str "suspicious_audio") (Num (Fin (2 # 10))) = high
  /\ (severity_rank (getAlertSeverity decimal_runtime (Str "gaze_deviation")
                       (Num (Fin (2 # 10))))
        <= severity_rank (getAlertSeverity decimal_runtime (Str "gaze_deviation")
                            (Num (Fin (6 # 10)))))%nat.
Proof.
  assert (H : (2 # 10 <= 6 # 10)%Q) by (unfold Qle; cbn; lia).
  split; [ exact H | split; [ reflexivity | ] ].
  exact (proj1 (severity_grows_with_confidence decimal_runtime
                  (Str "gaze_deviation") (2 # 10) (6 # 10) H)).
Defined.

Lemma pushed_is_accepted (ty : string) (conf : Q) (det : string) (e : behaviorEvent) :
  String.eqb ty "" = false ->
  Qle_bool (6 # 10) conf = true ->
  Qle_bool conf 1 = true ->
  let d := pushed ty conf det e in
  (forall rt, (1 <= severity_rank (getAlertSeverity rt (d_type d) (d_confidence d)))%nat)
  /\ (forall rt s now,
        validateViolation rt (new_violation s d now) =
          truthy (currentSession s) && truthy (socket_userId s)
          && truthy (num_of_Z now)).
Proof.
  intros Hty Hlo Hhi d. subst d. split.
  - intro rt. cbn [pushed d_type d_confidence].
    assert (H5 : Qle_bool (5 # 10) conf = true).
    { apply Qle_bool_iff. apply Qle_bool_iff in Hlo.
      apply Qle_trans with (6 # 10); [ unfold Qle; cbn; lia | exact Hlo ]. }
    unfold getAlertSeverity, ge_lit. cbn [ToNumber num_le]. rewrite H5.
    destruct (includes criticalViolations (Str ty) || Qle_bool (9 # 10) conf);
      [ cbn; lia | ].
    destruct (includes highViolations (Str ty) || Qle_bool (7 # 10) conf);
      [ cbn; lia | ].
    rewrite orb_true_r. cbn. lia.
  - intros rt s now. rewrite validateViolation_eq.
    cbn [new_violation pushed sessionId userId type confidence timestamp
         d_type d_confidence truthy].
    rewrite Hty. cbn [negb].
    assert (Hnz : Qeq_bool conf 0 = false).
    { destruct (Qeq_bool conf 0) eqn:E; [ | reflexivity ].
      apply Qeq_bool_iff in E. apply Qle_bool_iff in Hlo. rewrite E in Hlo.
      exfalso. revert Hlo. unfold Qle. cbn. lia. }
    assert (Hlt : lt_lit rt (Num (Fin conf)) 0 = false).
    { unfold lt_lit. cbn [ToNumber num_lt]. unfold Qltb.
      apply negb_false_iff. apply Qle_bool_iff. apply Qle_bool_iff in Hlo.
      apply Qle_trans with (6 # 10); [ unfold Qle; cbn; lia | exact Hlo ]. }
    assert (Hgt : gt_lit rt (Num (Fin conf)) 1 = false).
    { unfold gt_lit. cbn [ToNumber num_lt]. unfold Qltb. now rewrite Hhi. }
    rewrite Hnz, Hlt, Hgt. cbn [negb orb].
    destruct (truthy (currentSession s)), (truthy (socket_userId s)),
      (truthy (num_of_Z now)); reflexivity.
Qed.

(** X8.  What the classifier hands over is always fit for the queue: at
    most one violation per event, of severity medium or above, and one that
    validation accepts as soon as the connection has a session and a user
    (and the clock does not read 0): the type and the confidence that the
    classifier sets never cause a rejection. *)
Theorem classifier_output_passes_validation :
  forall e : behaviorEvent,
    (List.length (yielded (analyzeBehavior e)) <= 1)%nat
    /\ Forall
         (fun d =>
            (forall rt,
               (1 <= severity_rank (getAlertSeverity rt (d_type d) (d_confidence d)))%nat)
            /\ (forall rt s now,
                  validateViolation rt (new_violation s d now) =
                    truthy (currentSession s) && truthy (socket_userId s)
                    && truthy (num_of_Z now)))
         (yielded (analyzeBehavior e)).
Proof.
  intro e. unfold analyzeBehavior.
  repeat match goal with
         | |- context [if ?b then _ else _] => destruct b
         | |- context [match ?o with Some _ => _ | None => _ end] => destruct o
         end;
    cbn [yielded List.length]; split; try lia; repeat constructor;
    try (apply pushed_is_accepted; reflexivity);
    apply (pushed_is_accepted _ _ _ e); reflexivity.
Qed.

Lemma fold_left_add_NaN (rt : Runtime) (vs : list violation) :
  fold_left (fun sum v => Number_add sum (mul_lit rt (confidence v) (1 # 10))) vs NaN
  = NaN.
Proof. induction vs as [ | v vs IH ]; [ reflexivity | exact IH ]. Qed.

Lemma riskIncrement_NaN (rt : Runtime) (vs : list violation) (v : violation) :
  In v vs -> ToNumber rt (confidence v) = NaN -> riskIncrement rt vs = NaN.
Proof.
  unfold riskIncrement. generalize (Fin 0).
  induction vs as [ | x vs IH ]; intros a Hin Hnan; [ contradiction | ].
  cbn [fold_left]. destruct Hin as [Hx | Hin].
  - subst x. unfold mul_lit at 2. rewrite Hnan.
    replace (Number_add a (Number_multiply (binary64 NaN) (binary64 (Fin (1 # 10)))))
      with NaN by (destruct a; reflexivity).
    apply fold_left_add_NaN.
  - now apply IH.
Qed.

(** X9.  The range check does not reject a confidence that is not a
    number.  A violation whose five required members are truthy and whose
    confidence has no numeric value (a text that is not a numeral, for one)
    passes validation; its severity is then the grade of its type alone,
    and the risk increment of every group it is part of is NaN. *)
Theorem non_numeric_confidence_is_accepted :
  forall (rt : Runtime) (v : violation),
    truthy (sessionId v) = true -> truthy (userId v) = true ->
    truthy (type v) = true -> truthy (confidence v) = true ->
    truthy (timestamp v) = true ->
    ToNumber rt (confidence v) = NaN ->
    validateViolation rt v = true
    /\ getAlertSeverity rt (type v) (confidence v) = severity_of_type (type v)
    /\ (forall vs, In v vs -> riskIncrement rt vs = NaN).
Proof.
  intros rt v Hs Hu Ht Hc Hts Hnan. split; [ | split ].
  - rewrite validateViolation_eq, Hs, Hu, Ht, Hc, Hts.
    unfold lt_lit, gt_lit. rewrite Hnan. reflexivity.
  - unfold getAlertSeverity, severity_of_type, ge_lit. rewrite Hnan.
    cbn [num_le]. rewrite !orb_false_r. reflexivity.
  - intros vs Hin. exact (riskIncrement_NaN rt vs v Hin Hnan).
Qed.

(** A report whose confidence is the text high. *)
Lemma non_numeric_confidence_witness :
  let v := new_violation (student "k1" "S1" "u1")
             {| d_type := Str "phone_detected"; d_confidence := Str "high";
                d_details := Undefined; d_screenshot := Undefined;
                d_metadata := None |} 1000 in
  ToNumber decimal_runtime (confidence v) = NaN
  /\ validateViolation decimal_runtime v = true
  /\ getAlertSeverity decimal_runtime (type v) (confidence v) = high
  /\ riskIncrement decimal_runtime [full_confidence_report; v] = NaN.
Proof.
  cbv zeta.
  destruct (non_numeric_confidence_is_accepted decimal_runtime
              (new_violation (student "k1" "S1" "u1")
                 {| d_type := Str "phone_detected"; d_confidence := Str "high";
                    d_details := Undefined; d_screenshot := Undefined;
                    d_metadata := None |} 1000)
              eq_refl eq_refl eq_refl eq_refl eq_refl eq_refl)
    as [Hv [Hsev Hrisk]].
  split; [ reflexivity | split; [ exact Hv | split; [ exact Hsev | ] ] ].
  apply Hrisk. right. now left.
Defined.

(** ** An accepted violation *)

Lemma storeViolation_run (v : violation) (w : world) :
  storeViolation v w = (Ok tt, set_requests (requests w ++ [store_request v]) w).
Proof.
  unfold storeViolation, try_catch, bind, axios_post, ret, store_request.
  destruct (backend w (requests w) _); reflexivity.
Qed.

Lemma map_get_map_set_same {V : Type} (k : string) (x : V) (g : list (string * V)) :
  map_get k (map_set k x g) = Some x.
Proof. rewrite map_get_map_set, String.eqb_refl. reflexivity. Qed.

Lemma map_get_In {V : Type} (k : string) (x : V) (g : list (string * V)) :
  map_get k g = Some x -> In x (map snd g).
Proof.
  induction g as [ | [k0 v0] g IH ]; cbn [map_get map snd]; [ discriminate | ].
  destruct (String.eqb k k0).
  - intro H. inversion H. now left.
  - intro H. right. now apply IH.
Qed.

Lemma map_set_length {V : Type} (k : string) (x : V) (g : list (string * V)) :
  List.length (map_set k x g) =
    if existsb (String.eqb k) (map fst g) then List.length g else S (List.length g).
Proof.
  rewrite <- (length_map fst (map_set k x g)), map_set_keys.
  destruct (existsb (String.eqb k) (map fst g)).
  - apply length_map.
  - rewrite length_app, length_map. cbn. lia.
Qed.

(** X10.  An accepted violation is filed in the queue under its generated
    identifier, where a lookup finds it, and one request to store it is
    issued; the handler returns and the state it leaves does not depend on
    whether the backend answered.  The queue grows by one entry, unless the
    identifier was in use, in which case the entry that held it is
    replaced. *)
Theorem accepted_violation_is_queued_and_stored :
  forall (rt : Runtime) (s : socket) (d : violationData) (w : world),
    let v := new_violation s d (clock w (reads w)) in
    let id := queue_id rt v (random w (S (reads w))) in
    validateViolation rt v = true ->
    exists w',
      handleViolationDetected rt s (Some d) w = (Ok tt, w')
      /\ violationQueue w' = map_set id v (violationQueue w)
      /\ map_get id (violationQueue w') = Some v
      /\ In v (map snd (violationQueue w'))
      /\ List.length (violationQueue w') =
           (if existsb (String.eqb id) (map fst (violationQueue w))
            then List.length (violationQueue w)
            else S (List.length (violationQueue w)))
      /\ requests w' = requests w ++ [store_request v]
      /\ reads w' = S (S (reads w)).
Proof.
  intros rt s d w v id Hv. subst v id.
  unfold handleViolationDetected, try_catch, bind at 1, Date_now.
  cbv zeta. rewrite Hv. cbn [negb].
  unfold bind at 1, addToQueue, bind at 1, Math_random.
  unfold bind at 1. rewrite sendViolationAlert_outbox.
  unfold bind at 1. rewrite notifyAdmins_outbox, storeViolation_run.
  eexists. split; [ reflexivity | ].
  destruct w. unfold queue_id. cbn -[map_set map_get].
  repeat split.
  - apply map_get_map_set_same.
  - eapply map_get_In. apply map_get_map_set_same.
  - apply map_set_length.
Qed.

(** One accepted report on an idle server. *)
Lemma accepted_violation_witness :
  let s := student "k1" "S1" "u1" in
  let d := detection "phone_detected" (8 # 10) in
  validateViolation decimal_runtime (new_violation s d 1000) = true
  /\ exists w',
       handleViolationDetected decimal_runtime s (Some d) (idle 1000) = (Ok tt, w')
       /\ map fst (violationQueue w') = ["S1_1000_0"]
       /\ requests w' = [store_request (new_violation s d 1000)].
Proof.
  cbv zeta.
  assert (Hv : validateViolation decimal_runtime
                 (new_violation (student "k1" "S1" "u1")
                    (detection "phone_detected" (8 # 10)) 1000) = true)
    by (vm_compute; reflexivity).
  split; [ exact Hv | ].
  destruct (accepted_violation_is_queued_and_stored decimal_runtime
              (student "k1" "S1" "u1") (detection "phone_detected" (8 # 10))
              (idle 1000) Hv)
    as [w' [E [Hq [_ [_ [_ [Hr _]]]]]]].
  exists w'. split; [ exact E | ]. rewrite Hq, Hr. split; vm_compute; reflexivity.
Defined.

(** ** Bulk actions, action by action *)

Lemma sendBulkMessage_run (rt : Runtime) (session message admin : value) (w : world) :
  sendBulkMessage rt session message admin w =
    (Ok (MessageSent
           (String.append "msg_"
              (NumberToString rt (Fin (inject_Z (clock w (S (reads w)))))))
           session),
     set_outbox
       (outbox w ++ [{| to := ToRoom (session_room rt session);
                        event := "admin_message";
                        body := AdminMessage session message admin
                                  (clock w (reads w)) |}])
       (set_reads (S (S (reads w))) w)).
Proof. destruct w. reflexivity. Qed.

Lemma bulk_loop_send_message (rt : Runtime) (s : socket) (p : bulkParameters)
    (ids : list value) :
  forall (results : list bulkEntry) (w : world),
    exists w',
      bulk_loop rt s (Str "send_message") (Some p) ids results w =
        (Ok (results ++ message_entries rt (clock w) (reads w) ids), w')
      /\ outbox w' =
           outbox w
           ++ message_emissions rt (clock w) (reads w) (p_message p) (adminId s) ids
      /\ requests w' = requests w
      /\ timers w' = timers w
      /\ reads w' = (reads w + 2 * List.length ids)%nat
      /\ clock w' = clock w.
Proof.
  induction ids as [ | session rest IH ]; intros results w.
  - exists w. cbn. rewrite !app_nil_r. repeat split. lia.
  - cbn [bulk_loop message_entries message_emissions].
    unfold bind at 1, try_catch, bind at 1, bulk_item.
    cbn [is_str String.eqb Ascii.eqb Bool.eqb andb].
    rewrite sendBulkMessage_run. unfold ret.
    match goal with |- context [bulk_loop _ _ _ _ rest ?r ?x] =>
      destruct (IH r x) as [w' [E [Ho [Hr [Ht [Hn Hc]]]]]] end.
    exists w'. rewrite E. destruct w. cbn in *.
    rewrite Ho, Hr, Ht, Hn, Hc, <- !app_assoc.
    repeat split. lia.
Qed.

Lemma message_emissions_rooms (rt : Runtime) (clk : nat -> Z) (message admin : value)
    (ids : list value) :
  forall n,
    map to (message_emissions rt clk n message admin ids) =
      map (fun id => ToRoom (session_room rt id)) ids.
Proof.
  induction ids as [ | id ids IH ]; intro n; [ reflexivity | ].
  cbn [message_emissions map to]. now rewrite IH.
Qed.

Lemma message_entries_succeed (rt : Runtime) (clk : nat -> Z) (ids : list value) :
  forall n,
    map entry_sessionId (message_entries rt clk n ids) = ids
    /\ map entry_status (message_entries rt clk n ids) = map (fun _ => "success") ids.
Proof.
  induction ids as [ | id ids IH ]; intro n; [ split; reflexivity | ].
  cbn [message_entries map]. destruct (IH (S (S n))) as [H1 H2].
  rewrite H1, H2. split; reflexivity.
Qed.

(** X11.  A bulk message sends one message per identifier of the list, in
    list order, each to the room of its own session, and then one
    completion to the issuer in which every entry is a success; an
    identifier listed twice gets the message twice.  Nothing checks that
    the session exists, no request goes to the backend and no timer is
    set. *)
Theorem bulk_message_reaches_every_room :
  forall (rt : Runtime) (s : socket) (d : bulkData) (ids : list value)
         (p : bulkParameters) (w : world),
    hasPermission s "bulk_actions" = Ok true ->
    sessionIds d = Some ids ->
    action d = Str "send_message" ->
    parameters d = Some p ->
    exists sent results t w',
      handleBulkAction rt s (Some d) w = (Ok tt, w')
      /\ outbox w' = outbox w ++ sent ++ [completion s (action d) results t]
      /\ sent = message_emissions rt (clock w) (reads w) (p_message p) (adminId s) ids
      /\ map to sent = map (fun id => ToRoom (session_room rt id)) ids
      /\ map entry_sessionId results = ids
      /\ map entry_status results = map (fun _ => "success") ids
      /\ requests w' = requests w
      /\ timers w' = timers w.
Proof.
  intros rt s d ids p w Hperm Hids Hact Hpar.
  unfold handleBulkAction, try_catch, bind at 1, lift. rewrite Hperm.
  cbn [negb]. rewrite Hids, Hact, Hpar. unfold bind at 1.
  destruct (bulk_loop_send_message rt s p ids [] w)
    as [w1 [E [Ho [Hr [Ht [Hn Hc]]]]]].
  rewrite E. cbn [app].
  exists (message_emissions rt (clock w) (reads w) (p_message p) (adminId s) ids),
    (message_entries rt (clock w) (reads w) ids), (clock w1 (reads w1)).
  eexists. unfold bind, Date_now, emit, completion.
  split; [ reflexivity | ].
  destruct (message_entries_succeed rt (clock w) ids (reads w)) as [H1 H2].
  destruct w1. cbn in *. rewrite Ho, <- app_assoc.
  repeat split; try assumption.
  apply message_emissions_rooms.
Qed.

(** A message to sA and sB. *)
Lemma bulk_message_witness :
  let s := observer "k9" "teacher" ["bulk_actions"] in
  let d := {| sessionIds := Some [Str "sA"; Str "sB"];
              action := Str "send_message";
              parameters := Some {| p_message := Str "five minutes left";
                                    p_reason := Undefined |} |} in
  hasPermission s "bulk_actions" = Ok true
  /\ exists w',
       handleBulkAction decimal_runtime s (Some d) (idle 1000) = (Ok tt, w')
       /\ map (fun e => (to e, event e)) (outbox w') =
            [(ToRoom "session_sA", "admin_message");
             (ToRoom "session_sB", "admin_message");
             (ToSocket "k9", "bulk_action_completed")]
       /\ requests w' = [].
Proof.
  cbv zeta. split; [ reflexivity | ].
  destruct (bulk_message_reaches_every_room decimal_runtime
              (observer "k9" "teacher" ["bulk_actions"])
              {| sessionIds := Some [Str "sA"; Str "sB"];
                 action := Str "send_message";
                 parameters := Some {| p_message := Str "five minutes left";
                                       p_reason := Undefined |} |}
              [Str "sA"; Str "sB"]
              {| p_message := Str "five minutes left"; p_reason := Undefined |}
              (idle 1000) eq_refl eq_refl eq_refl eq_refl)
    as [sent [results [t [w' [E [Ho [Hs [_ [_ [_ [Hr _]]]]]]]]]]].
  exists w'. split; [ exact E | ]. rewrite Ho, Hr, Hs.
  split; vm_compute; reflexivity.
Defined.

Lemma bulk_loop_throwing (rt : Runtime) (s : socket) (act : value)
    (params : option bulkParameters) (e : exn) (ids : list value) :
  (forall session w, bulk_item rt s act params session w = (Throw e, w)) ->
  forall (results : list bulkEntry) (w : world),
    bulk_loop rt s act params ids results w =
      (Ok (results ++ map (fun id => Failure id (exn_message e)) ids), w).
Proof.
  intro Hthrow. induction ids as [ | session rest IH ]; intros results w.
  - cbn. now rewrite app_nil_r.
  - cbn [bulk_loop map]. unfold bind at 1, try_catch.
    unfold bind at 1. rewrite Hthrow. unfold ret.
    rewrite IH, <- app_assoc. reflexivity.
Qed.

Lemma bulk_item_cannot_run (rt : Runtime) (s : socket) (act : value)
    (params : option bulkParameters) :
  unknown_action act = true \/ params = None ->
  exists e,
    (forall session w, bulk_item rt s act params session w = (Throw e, w))
    /\ (unknown_action act = true ->
        exn_message e = String.append "Unknown bulk action: " (ToString rt act)).
Proof.
  unfold unknown_action, bulk_item. intros [H | H].
  - apply negb_true_iff in H. apply orb_false_iff in H. destruct H as [H H3].
    apply orb_false_iff in H. destruct H as [H1 H2]. rewrite H1, H2, H3.
    eexists. split; [ reflexivity | reflexivity ].
  - subst params.
    destruct (is_str act "send_message");
      [ | destruct (is_str act "terminate"); [ | destruct (is_str act "flag") ] ];
      (eexists; split; [ reflexivity | ]); cbn; try discriminate. reflexivity.
Qed.

(** X12.  A bulk action that cannot run is still answered item by item.
    When the action is none of send_message, terminate and flag, or when
    the payload has no parameters, every identifier of the list gets an
    error entry with the same message, the issuer gets the one completion,
    and nothing else happens: no room is written to and no request is
    issued.  For an unknown action the message names the action. *)
Theorem bulk_action_that_cannot_run :
  forall (rt : Runtime) (s : socket) (d : bulkData) (ids : list value) (w : world),
    hasPermission s "bulk_actions" = Ok true ->
    sessionIds d = Some ids ->
    unknown_action (action d) = true \/ parameters d = None ->
    exists msg,
      handleBulkAction rt s (Some d) w =
        (Ok tt,
         set_outbox
           (outbox w
            ++ [completion s (action d) (map (fun id => Failure id msg) ids)
                  (clock w (reads w))])
           (set_reads (S (reads w)) w))
      /\ (unknown_action (action d) = true ->
          msg = String.append "Unknown bulk action: " (ToString rt (action d))).
Proof.
  intros rt s d ids w Hperm Hids Hcannot.
  destruct (bulk_item_cannot_run rt s (action d) (parameters d) Hcannot)
    as [e [Hthrow Hmsg]].
  exists (exn_message e). split; [ | exact Hmsg ].
  unfold handleBulkAction, try_catch, bind at 1, lift. rewrite Hperm.
  cbn [negb]. rewrite Hids. unfold bind at 1.
  rewrite (bulk_loop_throwing rt s (action d) (parameters d) e ids Hthrow).
  cbn [app]. unfold bind, Date_now, emit, completion.
  destruct w. reflexivity.
Qed.

(** The action pause, which the loop does not know, on sA and sB. *)
Lemma bulk_cannot_run_witness :
  let s := observer "k9" "teacher" ["bulk_actions"] in
  let d := {| sessionIds := Some [Str "sA"; Str "sB"]; action := Str "pause";
              parameters := None |} in
  hasPermission s "bulk_actions" = Ok true
  /\ unknown_action (action d) = true
  /\ handleBulkAction decimal_runtime s (Some d) (idle 1000) =
       (Ok tt,
        set_outbox
          [completion s (Str "pause")
             [Failure (Str "sA") "Unknown bulk action: pause";
              Failure (Str "sB") "Unknown bulk action: pause"] 1000]
          (set_reads 1 (idle 1000))).
Proof.
  cbv zeta. split; [ reflexivity | split; [ reflexivity | ] ].
  destruct (bulk_action_that_cannot_run decimal_runtime
              (observer "k9" "teacher" ["bulk_actions"])
              {| sessionIds := Some [Str "sA"; Str "sB"]; action := Str "pause";
                 parameters := None |}
              [Str "sA"; Str "sB"] (idle 1000) eq_refl eq_refl
              (or_introl eq_refl))
    as [msg [E Hmsg]].
  rewrite E, (Hmsg eq_refl). reflexivity.
Defined.

Lemma bulk_loop_flag (rt : Runtime) (s : socket) (p : bulkParameters)
    (ids : list value) :
  forall (results : list bulkEntry) (w : world),
    bulk_loop rt s (Str "flag") (Some p) ids results w =
      (Ok (results ++ flag_outcomes (backend w) (requests w)
                        (p_reason p) (adminId s) ids),
       set_requests
         (requests w ++ map (fun id => PostFlag id (p_reason p) (adminId s)) ids)
         w).
Proof.
  induction ids as [ | session rest IH ]; intros results w.
  - cbn. rewrite !app_nil_r, set_requests_same. reflexivity.
  - cbn [bulk_loop flag_outcomes map]. unfold bind at 1, try_catch, bind at 1.
    unfold bulk_item. cbn [is_str String.eqb Ascii.eqb Bool.eqb andb].
    unfold flagSessionForReview, try_catch, bind, axios_post, ret, throw.
    destruct (backend w (requests w) (PostFlag session (p_reason p) (adminId s)))
      as [data | ].
    + fold (bind (A := list bulkEntry) (B := list bulkEntry)).
      rewrite IH. destruct w. cbn. rewrite <- !app_assoc. reflexivity.
    + rewrite IH. destruct w. cbn. rewrite <- !app_assoc. reflexivity.
Qed.

(** X13.  A bulk termination and a bulk flag tell nobody but the issuer:
    the only emission is the completion, nothing goes to the room of a
    session that was terminated or flagged.  A bulk flag issues one flag
    request per identifier, in list order, each with the reason of the
    payload and the identity of the administrator, and the entry of an
    identifier records the answer to its own request. *)
Theorem bulk_backend_actions_tell_only_the_issuer :
  forall (rt : Runtime) (s : socket) (d : bulkData) (ids : list value)
         (p : bulkParameters) (w : world),
    hasPermission s "bulk_actions" = Ok true ->
    sessionIds d = Some ids ->
    action d = Str "terminate" \/ action d = Str "flag" ->
    parameters d = Some p ->
    exists results w',
      handleBulkAction rt s (Some d) w = (Ok tt, w')
      /\ outbox w' = outbox w ++ [completion s (action d) results (clock w (reads w))]
      /\ timers w' = timers w
      /\ List.length (requests w') = (List.length (requests w) + List.length ids)%nat
      /\ (action d = Str "flag" ->
          results = flag_outcomes (backend w) (requests w) (p_reason p) (adminId s) ids
          /\ requests w' =
               requests w ++ map (fun id => PostFlag id (p_reason p) (adminId s)) ids).
Proof.
  intros rt s d ids p w Hperm Hids Hact Hpar.
  unfold handleBulkAction, try_catch, bind at 1, lift. rewrite Hperm.
  cbn [negb]. rewrite Hids, Hpar. unfold bind at 1.
  destruct Hact as [Hact | Hact]; rewrite Hact.
  - rewrite bulk_loop_terminate. cbn [app].
    exists (terminate_outcomes (backend w) (requests w) (p_reason p) (adminId s) ids).
    eexists. unfold bind, Date_now, emit, completion.
    split; [ reflexivity | ].
    destruct w. cbn. rewrite length_app, length_map.
    split; [ reflexivity | split; [ reflexivity | split; [ reflexivity | ] ] ].
    intro H. discriminate H.
  - rewrite bulk_loop_flag. cbn [app].
    exists (flag_outcomes (backend w) (requests w) (p_reason p) (adminId s) ids).
    eexists. unfold bind, Date_now, emit, completion.
    split; [ reflexivity | ].
    destruct w. cbn. rewrite length_app, length_map.
    split; [ reflexivity | split; [ reflexivity | split; [ reflexivity | ] ] ].
    intros _. split; reflexivity.
Qed.

(** A bulk flag of sA and sB on a backend that accepts everything. *)
Lemma bulk_flag_witness :
  let s := observer "k9" "teacher" ["bulk_actions"] in
  let p := {| p_message := Undefined; p_reason := Str "review" |} in
  let d := {| sessionIds := Some [Str "sA"; Str "sB"]; action := Str "flag";
              parameters := Some p |} in
  hasPermission s "bulk_actions" = Ok true
  /\ exists results w',
       handleBulkAction decimal_runtime s (Some d) (idle 1000) = (Ok tt, w')
       /\ outbox w' = [completion s (Str "flag") results 1000]
       /\ map entry_status results = ["success"; "success"]
       /\ requests w' =
            [PostFlag (Str "sA") (Str "review") (Str "teacher");
             PostFlag (Str "sB") (Str "review") (Str "teacher")].
Proof.
  cbv zeta. split; [ reflexivity | ].
  destruct (bulk_backend_actions_tell_only_the_issuer decimal_runtime
              (observer "k9" "teacher" ["bulk_actions"])
              {| sessionIds := Some [Str "sA"; Str "sB"]; action := Str "flag";
                 parameters := Some {| p_message := Undefined;
                                       p_reason := Str "review" |} |}
              [Str "sA"; Str "sB"]
              {| p_message := Undefined; p_reason := Str "review" |}
              (idle 1000) eq_refl eq_refl (or_intror eq_refl) eq_refl)
    as [results [w' [E [Ho [_ [_ Hflag]]]]]].
  destruct (Hflag eq_refl) as [Hres Hreq].
  exists results, w'. split; [ exact E | ]. rewrite Ho, Hreq, Hres.
  repeat split; vm_compute; reflexivity.
Defined.

(** ** Screenshot requests *)

(** X14.  What a permitted screenshot request does.  The session room gets
    the request, the issuer the acknowledgement, and one timer is set; the
    three carry the same request identifier, built from the clock and the
    random source, and the request and the acknowledgement the same time.
    Nothing checks that the session exists and no request goes to the
    backend.  A request without a payload sets no timer: the issuer gets
    the error 'Failed to request screenshot' and nothing else happens. *)
Theorem screenshot_request_is_sent_and_acknowledged :
  forall (rt : Runtime) (s : socket) (w : world),
    hasPermission s "request_screenshots" = Ok true ->
    (forall d : screenshotData,
       let requestId :=
         String.append "scr_"
           (String.append (NumberToString rt (Fin (inject_Z (clock w (reads w)))))
              (String.append "_" (NumberToString rt (random w (S (reads w)))))) in
       let t := clock w (S (S (reads w))) in
       exists w',
         handleRequestScreenshot rt s (Some d) w = (Ok tt, w')
         /\ outbox w' =
              outbox w
              ++ [{| to := ToRoom (session_room rt (sc_sessionId d));
                     event := "screenshot_requested";
                     body := ScreenshotRequest requestId (sc_sessionId d)
                               (adminId s) t |};
                  {| to := ToSocket (socket_id s);
                     event := "screenshot_request_sent";
                     body := ScreenshotRequestSent requestId (sc_sessionId d) t |}]
         /\ timers w' =
              timers w
              ++ [{| delay := 30000;
                     on_fire := ScreenshotTimeoutCallback (socket_id s) requestId
                                  (sc_sessionId d) |}]
         /\ requests w' = requests w
         /\ sessions w' = sessions w)
    /\ handleRequestScreenshot rt s None w =
         (Ok tt, set_outbox (outbox w ++ [screenshot_failure s]) w).
Proof.
  intros rt s w Hperm. split.
  - intro d. cbv zeta.
    unfold handleRequestScreenshot, try_catch, bind at 1, lift. rewrite Hperm.
    cbn [negb]. unfold bind, Date_now, Math_random, emit, setTimeout.
    eexists. split; [ reflexivity | ].
    destruct w. cbn. rewrite <- app_assoc. repeat split.
  - unfold handleRequestScreenshot, try_catch, bind, lift. rewrite Hperm.
    reflexivity.
Qed.

(** A request for session S1, and a request with no payload. *)
Lemma screenshot_request_witness :
  let s := observer "k9" "teacher" ["request_screenshots"] in
  let d := {| sc_sessionId := Str "S1"; sc_userId := Str "u1" |} in
  hasPermission s "request_screenshots" = Ok true
  /\ (exists w',
        handleRequestScreenshot decimal_runtime s (Some d) (idle 1000) = (Ok tt, w')
        /\ timers w' =
             [{| delay := 30000;
                 on_fire := ScreenshotTimeoutCallback "k9" "scr_1000_0" (Str "S1") |}]
        /\ requests w' = [])
  /\ handleRequestScreenshot decimal_runtime s None (idle 1000) =
       (Ok tt, set_outbox [screenshot_failure s] (idle 1000)).
Proof.
  cbv zeta. split; [ reflexivity | ].
  destruct (screenshot_request_is_sent_and_acknowledged decimal_runtime
              (observer "k9" "teacher" ["request_screenshots"]) (idle 1000) eq_refl)
    as [Hsome Hnone].
  split; [ | exact Hnone ].
  destruct (Hsome {| sc_sessionId := Str "S1"; sc_userId := Str "u1" |})
    as [w' [E [_ [Ht [Hr _]]]]].
  exists w'. split; [ exact E | ]. rewrite Ht, Hr.
  split; vm_compute; reflexivity.
Defined.

(** ** The session registry *)

Lemma map_get_map_delete {V : Type} (k id : string) (m : list (string * V)) :
  map_get k (map_delete id m) = if String.eqb id k then None else map_get k m.
Proof.
  unfold map_delete.
  induction m as [ | [k0 v0] m IH ]; cbn [filter map_get fst].
  - now destruct (String.eqb id k).
  - destruct (String.eqb id k0) eqn:E0; cbn [negb map_get].
    + rewrite IH. apply String.eqb_eq in E0. subst k0.
      rewrite (String.eqb_sym k id). now destruct (String.eqb id k).
    + rewrite IH. destruct (String.eqb k k0) eqn:E1; [ | reflexivity ].
      apply String.eqb_eq in E1. subst k0. now rewrite E0.
Qed.

Lemma NoDup_keys_filter {V : Type} (f : string * V -> bool) (m : list (string * V)) :
  NoDup (map fst m) -> NoDup (map fst (filter f m)).
Proof.
  induction m as [ | e m IH ]; cbn [filter map]; intro H; [ constructor | ].
  inversion H as [ | ? ? Hnotin Hnd ]; subst.
  destruct (f e); [ | now apply IH ].
  cbn [map]. constructor; [ | now apply IH ].
  intro Hin. apply Hnotin. apply in_map_iff in Hin.
  destruct Hin as [e' [Hk He']]. apply filter_In in He'.
  rewrite <- Hk. apply in_map. tauto.
Qed.

(** X15.  Deleting a session always reports success, also for an
    identifier that the registry does not hold.  Afterwards a lookup of
    that identifier finds nothing, every other identifier is looked up as
    before, and the keys of the registry stay distinct.  The Redis copy is
    deleted, under the key 'session:' followed by the identifier, when and
    only when the client is connected. *)
Theorem deleteSession_removes_one_key :
  forall (id : string) (w : world),
    exists w',
      deleteSession id w = (Ok true, w')
      /\ map_get id (sessions w') = None
      /\ (forall k, String.eqb id k = false ->
                    map_get k (sessions w') = map_get k (sessions w))
      /\ (forall e, In e (sessions w') <-> In e (sessions w) /\ fst e <> id)
      /\ (NoDup (map fst (sessions w)) -> NoDup (map fst (sessions w')))
      /\ redis_deleted w' = redis_deleted w ++ redis_keys (redis_connected w) [id]
      /\ outbox w' = outbox w.
Proof.
  intros id w. rewrite deleteSession_run. eexists. split; [ reflexivity | ].
  assert (Hsess :
    sessions (set_sessions (map_delete id (sessions w))
                (if redis_connected w
                 then set_redis_deleted
                        (redis_deleted w ++ [String.append "session:" id]) w
                 else w)) = map_delete id (sessions w))
    by (destruct w as [q ss o ts rs rd n c r b up]; destruct up; reflexivity).
  rewrite Hsess.
  split; [ rewrite map_get_map_delete, String.eqb_refl; reflexivity | ].
  split; [ intros k Hk; rewrite map_get_map_delete, Hk; reflexivity | ].
  split.
  { intro e. unfold map_delete. rewrite filter_In, negb_true_iff.
    split; intros [Hin Hk]; (split; [ exact Hin | ]).
    - intro Heq. rewrite Heq, String.eqb_refl in Hk. discriminate.
    - apply String.eqb_neq. intro Heq. apply Hk. now symmetry. }
  split; [ apply NoDup_keys_filter | ].
  destruct w as [q ss o ts rs rd n c r b up]. destruct up; cbn.
  - split; reflexivity.
  - rewrite app_nil_r. split; reflexivity.
Qed.

Lemma for_of_deleteSession_effects (ids : list string) :
  forall w,
    exists w',
      for_of ids (fun id => deleteSession id ;; ret tt) w = (Ok tt, w')
      /\ sessions w' = delete_all ids (sessions w)
      /\ redis_deleted w' = redis_deleted w ++ redis_keys (redis_connected w) ids
      /\ redis_connected w' = redis_connected w
      /\ requests w' = requests w
      /\ reads w' = reads w.
Proof.
  induction ids as [ | id ids IH ]; intro w.
  - exists w. unfold redis_keys.
    destruct (redis_connected w); rewrite app_nil_r; repeat split.
  - cbn [for_of]. unfold bind at 1, bind at 1. rewrite deleteSession_run.
    unfold ret at 1.
    match goal with |- context [for_of ids _ ?x] => destruct (IH x) as [w' [E H]] end.
    exists w'. split; [ exact E | ].
    destruct H as [Hs [Hd [Hc [Hr Hn]]]]. rewrite Hs, Hd, Hc, Hr, Hn.
    destruct w as [q ss o ts rs rd n c r b up]. unfold redis_keys.
    destruct up; cbn; rewrite <- ?app_assoc; repeat split.
Qed.

Lemma expired_earlier (t now : Z) (s : session) :
  (t <= now)%Z -> expired now s = false -> expired t s = false.
Proof.
  unfold expired. intros Ht H. apply Z.ltb_ge. apply Z.ltb_ge in H. lia.
Qed.

Lemma cleanupExpiredSessions_run (w : world) :
  let gone := map fst (filter (fun e => expired (clock w (reads w)) (snd e))
                         (sessions w)) in
  exists w',
    cleanupExpiredSessions w = (Ok (List.length gone), w')
    /\ sessions w' = delete_all gone (sessions w)
    /\ redis_deleted w' = redis_deleted w ++ redis_keys (redis_connected w) gone
    /\ requests w' = requests w
    /\ reads w' = S (reads w).
Proof.
  cbv zeta. unfold cleanupExpiredSessions, try_catch.
  unfold bind at 1, Date_now. unfold bind at 1.
  match goal with |- context [for_of ?ids _ ?x] =>
    destruct (for_of_deleteSession_effects ids x) as [w' [E [Hs [Hd [_ [Hr Hn]]]]]] end.
  rewrite E. unfold ret. exists w'.
  destruct w as [q ss o ts rs rd n c r b up]. cbn in *.
  rewrite Hs, Hd, Hr, Hn. repeat split.
Qed.

(** X16.  What a sweep leaves behind.  Every session that survives was in
    the registry before and is not expired at the time of the sweep, and
    the keys of the registry stay distinct.  For every session removed the
    Redis copy is deleted too, in registry order, when the client is
    connected; the backend is not called.  A sweep is idempotent: one more
    sweep on the registry it left, at a time not later than the first,
    removes nothing and returns 0. *)
Theorem sweep_leaves_no_expired_session :
  forall w : world,
    let now := clock w (reads w) in
    let gone := map fst (filter (fun e => expired now (snd e)) (sessions w)) in
    exists w',
      cleanupExpiredSessions w = (Ok (List.length gone), w')
      /\ (forall e, In e (sessions w') -> In e (sessions w) /\ expired now (snd e) = false)
      /\ (NoDup (map fst (sessions w)) -> NoDup (map fst (sessions w')))
      /\ redis_deleted w' = redis_deleted w ++ redis_keys (redis_connected w) gone
      /\ requests w' = requests w
      /\ (forall w2,
            sessions w2 = sessions w' ->
            (clock w2 (reads w2) <= now)%Z ->
            fst (cleanupExpiredSessions w2) = Ok 0%nat
            /\ sessions (snd (cleanupExpiredSessions w2)) = sessions w2).
Proof.
  intros w now gone. destruct (cleanupExpiredSessions_run w) as [w' [E [Hs [Hd [Hr _]]]]].
  fold now in E, Hs, Hd. fold gone in E, Hs, Hd.
  exists w'. split; [ exact E | ].
  assert (Hsurv : forall e, In e (sessions w') ->
                            In e (sessions w) /\ expired now (snd e) = false).
  { intros e He. rewrite Hs, delete_all_filter in He.
    apply filter_In in He. destruct He as [Hin Hk]. split; [ exact Hin | ].
    destruct (expired now (snd e)) eqn:Ex; [ | reflexivity ].
    apply negb_true_iff in Hk.
    assert (Hex : existsb (fun id => String.eqb id (fst e)) gone = true).
    { apply existsb_exists. exists (fst e). split; [ | apply String.eqb_refl ].
      unfold gone. apply in_map. apply filter_In. now split. }
    congruence. }
  split; [ exact Hsurv | ].
  split; [ rewrite Hs, delete_all_filter; apply NoDup_keys_filter | ].
  split; [ exact Hd | split; [ exact Hr | ] ].
  intros w2 Hw2 Ht.
  destruct (cleanupExpiredSessions_run w2) as [w3 [E2 [Hs2 _]]].
  assert (Hnone : filter (fun e => expired (clock w2 (reads w2)) (snd e)) (sessions w2)
                  = []).
  { rewrite Hw2.
    assert (Hall : forall l : list (string * session),
               (forall e, In e l -> expired now (snd e) = false) ->
               filter (fun e => expired (clock w2 (reads w2)) (snd e)) l = []).
    { induction l as [ | e l IH ]; intro H; [ reflexivity | ].
      cbn [filter].
      rewrite (expired_earlier _ now (snd e) Ht (H e (or_introl eq_refl))).
      apply IH. intros e' He'. apply H. now right. }
    apply Hall. intros e He. exact (proj2 (Hsurv e He)). }
  rewrite Hnone in E2, Hs2. rewrite E2. cbn [fst snd]. split; [ reflexivity | ].
  exact Hs2.
Qed.

(** ** Maps keyed by values *)

Lemma num_same_refl (a : number) : ValueMap.num_same a a = true.
Proof. destruct a; cbn; try reflexivity. apply Qeq_bool_refl. Qed.

Lemma same_value_zero_refl (a : value) : ValueMap.same_value_zero a a = true.
Proof.
  destruct a as [ | | b | n | s ]; cbn; try reflexivity.
  - now destruct b.
  - apply num_same_refl.
  - apply String.eqb_refl.
Qed.

Lemma same_value_zero_sym (a b : value) :
  ValueMap.same_value_zero a b = ValueMap.same_value_zero b a.
Proof.
  destruct a as [ | | x | x | x ], b as [ | | y | y | y ]; cbn; try reflexivity.
  - now destruct x, y.
  - destruct x, y; cbn; try reflexivity.
    destruct (Qeq_bool q q0) eqn:E.
    + symmetry. now apply Qeq_bool_sym.
    + destruct (Qeq_bool q0 q) eqn:E'; [ | reflexivity ].
      apply Qeq_bool_sym in E'. congruence.
  - apply String.eqb_sym.
Qed.

Lemma same_value_zero_trans (a b c : value) :
  ValueMap.same_value_zero a b = true -> ValueMap.same_value_zero b c = true ->
  ValueMap.same_value_zero a c = true.
Proof.
  destruct a as [ | | x | x | x ], b as [ | | y | y | y ], c as [ | | z | z | z ];
    cbn; try congruence.
  - destruct x, y, z; cbn; congruence.
  - destruct x, y, z; cbn; try congruence. apply Qeq_bool_trans.
  - intros H1 H2. apply String.eqb_eq in H1. apply String.eqb_eq in H2.
    subst. apply String.eqb_refl.
Qed.

Lemma same_value_zero_other (a b c : value) :
  ValueMap.same_value_zero a b = true -> ValueMap.same_value_zero c a = false ->
  ValueMap.same_value_zero c b = false.
Proof.
  intros Hab Hca. destruct (ValueMap.same_value_zero c b) eqn:E; [ | reflexivity ].
  rewrite same_value_zero_sym in Hab.
  rewrite (same_value_zero_trans c b a E Hab) in Hca. discriminate.
Qed.

Lemma ValueMap_get_set_same {V : Type} (k : value) (x : V) (m : list (value * V)) :
  ValueMap.get k (ValueMap.set k x m) = Some x.
Proof.
  induction m as [ | [k0 v0] m IH ]; cbn [ValueMap.set ValueMap.get].
  - now rewrite same_value_zero_refl.
  - destruct (ValueMap.same_value_zero k k0) eqn:E; cbn [ValueMap.get]; rewrite E;
      [ reflexivity | exact IH ].
Qed.

Lemma ValueMap_get_set_other {V : Type} (k k' : value) (x : V) (m : list (value * V)) :
  ValueMap.same_value_zero k k' = false ->
  ValueMap.get k (ValueMap.set k' x m) = ValueMap.get k m.
Proof.
  intro Hk. induction m as [ | [k0 v0] m IH ]; cbn [ValueMap.set ValueMap.get].
  - now rewrite Hk.
  - destruct (ValueMap.same_value_zero k' k0) eqn:E; cbn [ValueMap.get].
    + now rewrite (same_value_zero_other k' k0 k E Hk).
    + now rewrite IH.
Qed.

(** ** The rate limiter *)

Lemma rateLimit_within_window (maxEvents windowMs : Z) (s : socket) (now : Z)
    (clients : list (value * Auth.client)) (k r : Z) :
  ValueMap.get (Auth.clientId s) clients
    = Some {| Auth.count := k; Auth.resetTime := r |} ->
  (now <= r)%Z ->
  Auth.rateLimit maxEvents windowMs s now clients =
    if (maxEvents <=? k)%Z then (Auth.rejected, clients)
    else (Auth.Next,
          ValueMap.set (Auth.clientId s)
            {| Auth.count := k + 1; Auth.resetTime := r |} clients).
Proof.
  intros Hget Hnow. unfold Auth.rateLimit. rewrite Hget. cbn [Auth.resetTime Auth.count].
  assert (E : (r <? now)%Z = false) by (apply Z.ltb_ge; lia).
  rewrite E. reflexivity.
Qed.

Lemma passes_within_window (maxEvents windowMs : Z) (s : socket) (r : Z)
    (times : list Z) :
  Forall (fun t => (t <= r)%Z) times ->
  forall (clients : list (value * Auth.client)) (k : Z),
    (1 <= k)%Z ->
    ValueMap.get (Auth.clientId s) clients
      = Some {| Auth.count := k; Auth.resetTime := r |} ->
    let a := Nat.min (List.length times) (Z.to_nat (Z.max k maxEvents - k)) in
    fst (Auth.passes maxEvents windowMs s times clients) =
      repeat Auth.Next a ++ repeat Auth.rejected (List.length times - a)
    /\ ValueMap.get (Auth.clientId s)
         (snd (Auth.passes maxEvents windowMs s times clients))
       = Some {| Auth.count := k + Z.of_nat a; Auth.resetTime := r |}.
Proof.
  induction 1 as [ | t times Ht Htimes IH ]; intros clients k Hk Hget; cbv zeta.
  - cbn. rewrite Z.add_0_r. split; [ reflexivity | exact Hget ].
  - cbn [Auth.passes List.length].
    rewrite (rateLimit_within_window maxEvents windowMs s t clients k r Hget Ht).
    destruct (maxEvents <=? k)%Z eqn:E.
    + apply Z.leb_le in E.
      destruct (IH clients k Hk Hget) as [Hv Hc]. cbv zeta in Hv, Hc.
      destruct (Auth.passes maxEvents windowMs s times clients) as [vs clients'].
      cbn [fst snd] in *.
      replace (Z.to_nat (Z.max k maxEvents - k)) with 0%nat in * by lia.
      rewrite Nat.min_0_r in *. cbn [repeat app] in *. rewrite Nat.sub_0_r in *.
      rewrite Hv. split; [ reflexivity | exact Hc ].
    + apply Z.leb_gt in E.
      assert (Hget' :
        ValueMap.get (Auth.clientId s)
          (ValueMap.set (Auth.clientId s)
             {| Auth.count := k + 1; Auth.resetTime := r |} clients)
        = Some {| Auth.count := k + 1; Auth.resetTime := r |})
        by apply ValueMap_get_set_same.
      destruct (IH _ (k + 1)%Z ltac:(lia) Hget') as [Hv Hc]. cbv zeta in Hv, Hc.
      destruct (Auth.passes maxEvents windowMs s times _) as [vs clients'].
      cbn [fst snd] in *.
      replace (Z.to_nat (Z.max k maxEvents - k))
        with (S (Z.to_nat (Z.max (k + 1) maxEvents - (k + 1)))) by lia.
      rewrite <- Nat.succ_min_distr. cbn [repeat app Nat.sub].
      rewrite Hv. split; [ reflexivity | ].
      rewrite Hc. f_equal. f_equal. lia.
Qed.

(** X17.  The rate limiter counts in fixed windows.  For a client that the
    limiter has not seen, the first connection opens a window of windowMs
    milliseconds; of the connections made up to the end of that window,
    the first one and, in all, the first maxEvents pass and every later
    one is turned away with 'Rate limit exceeded'.  At least one always
    passes, also when maxEvents is 0 or negative.  The first connection
    after the end of the window passes and opens the next window. *)
Theorem rate_limit_counts_in_fixed_windows :
  forall (maxEvents windowMs : Z) (s : socket) (t0 : Z) (times : list Z)
         (clients : list (value * Auth.client)),
    ValueMap.get (Auth.clientId s) clients = None ->
    Forall (fun t => (t <= t0 + windowMs)%Z) times ->
    let n := S (List.length times) in
    let a := Nat.min n (Auth.quota maxEvents) in
    let after := snd (Auth.passes maxEvents windowMs s (t0 :: times) clients) in
    fst (Auth.passes maxEvents windowMs s (t0 :: times) clients) =
      repeat Auth.Next a ++ repeat Auth.rejected (n - a)
    /\ (1 <= a)%nat
    /\ ValueMap.get (Auth.clientId s) after
       = Some {| Auth.count := Z.of_nat a; Auth.resetTime := t0 + windowMs |}
    /\ (forall t, (t0 + windowMs < t)%Z ->
          fst (Auth.rateLimit maxEvents windowMs s t after) = Auth.Next
          /\ ValueMap.get (Auth.clientId s)
               (snd (Auth.rateLimit maxEvents windowMs s t after))
             = Some {| Auth.count := 1; Auth.resetTime := t + windowMs |}).
Proof.
  intros maxEvents windowMs s t0 times clients Hnew Htimes n a after.
  subst n a after. unfold Auth.quota.
  assert (Hstep :
    Auth.rateLimit maxEvents windowMs s t0 clients =
      (Auth.Next,
       ValueMap.set (Auth.clientId s)
         {| Auth.count := 1; Auth.resetTime := t0 + windowMs |} clients))
    by (unfold Auth.rateLimit; now rewrite Hnew).
  cbn [Auth.passes]. rewrite Hstep.
  assert (Hget :
    ValueMap.get (Auth.clientId s)
      (ValueMap.set (Auth.clientId s)
         {| Auth.count := 1; Auth.resetTime := t0 + windowMs |} clients)
    = Some {| Auth.count := 1; Auth.resetTime := t0 + windowMs |})
    by apply ValueMap_get_set_same.
  destruct (passes_within_window maxEvents windowMs s (t0 + windowMs) times Htimes
              _ 1%Z ltac:(lia) Hget) as [Hv Hc].
  cbv zeta in Hv, Hc.
  destruct (Auth.passes maxEvents windowMs s times _) as [vs clients'].
  cbn [fst snd] in *.
  replace (Z.to_nat (Z.max 1 maxEvents))
    with (S (Z.to_nat (Z.max 1 maxEvents - 1))) by lia.
  rewrite <- Nat.succ_min_distr. cbn [repeat app Nat.sub].
  rewrite Hv. split; [ reflexivity | ]. split; [ lia | ].
  split; [ rewrite Hc; f_equal; f_equal; lia | ].
  intros t Ht. unfold Auth.rateLimit. rewrite Hc. cbn [Auth.resetTime].
  assert (E : (t0 + windowMs <? t)%Z = true) by (apply Z.ltb_lt; lia).
  rewrite E. cbn [fst snd]. split; [ reflexivity | apply ValueMap_get_set_same ].
Qed.

(** Five connections of one user in one minute under a limit of three. *)
Lemma rate_limit_witness :
  let s := student "k1" "S1" "u1" in
  ValueMap.get (Auth.clientId s) [] = @None Auth.client
  /\ Forall (fun t => (t <= 1000 + 60000)%Z) [2000; 3000; 4000; 61000]%Z
  /\ fst (Auth.passes 3 60000 s [1000; 2000; 3000; 4000; 61000]%Z []) =
       [Auth.Next; Auth.Next; Auth.Next; Auth.rejected; Auth.rejected].
Proof.
  cbv zeta.
  assert (Hnew : ValueMap.get (Auth.clientId (student "k1" "S1" "u1")) []
                 = @None Auth.client) by reflexivity.
  assert (Htimes : Forall (fun t => (t <= 1000 + 60000)%Z) [2000; 3000; 4000; 61000]%Z)
    by (repeat constructor; lia).
  split; [ exact Hnew | split; [ exact Htimes | ] ].
  destruct (rate_limit_counts_in_fixed_windows 3 60000 (student "k1" "S1" "u1")
              1000 [2000; 3000; 4000; 61000]%Z [] Hnew Htimes) as [Hv _].
  rewrite Hv. vm_compute. reflexivity.
Defined.

(** X18.  The rate limiter keeps clients apart, and a refusal costs
    nothing.  A connection of one client leaves the record of every other
    client as it was, so the verdicts of a client do not depend on what
    other clients do; a connection that is turned away leaves the whole
    map as it was, so it does not extend the window.  Two connections are
    the same client when they have the same user, whatever their socket
    identifiers. *)
Theorem rate_limit_keeps_clients_apart :
  forall (maxEvents windowMs : Z) (s s' : socket) (now : Z)
         (clients : list (value * Auth.client)),
    (ValueMap.same_value_zero (Auth.clientId s) (Auth.clientId s') = false ->
       ValueMap.get (Auth.clientId s)
         (snd (Auth.rateLimit maxEvents windowMs s' now clients))
       = ValueMap.get (Auth.clientId s) clients)
    /\ (forall clients',
          ValueMap.get (Auth.clientId s) clients'
            = ValueMap.get (Auth.clientId s) clients ->
          fst (Auth.rateLimit maxEvents windowMs s now clients')
            = fst (Auth.rateLimit maxEvents windowMs s now clients))
    /\ (fst (Auth.rateLimit maxEvents windowMs s now clients) <> Auth.Next ->
        snd (Auth.rateLimit maxEvents windowMs s now clients) = clients)
    /\ (truthy (socket_userId s) = true ->
        socket_userId s' = socket_userId s ->
        Auth.clientId s' = Auth.clientId s).
Proof.
  intros maxEvents windowMs s s' now clients. repeat split.
  - intro Hk. unfold Auth.rateLimit.
    destruct (ValueMap.get (Auth.clientId s') clients) as [c | ];
      [ destruct (Auth.resetTime c <? now)%Z; [ | destruct (maxEvents <=? Auth.count c)%Z ] | ];
      cbn [snd]; try reflexivity; now apply ValueMap_get_set_other.
  - intros clients' H. unfold Auth.rateLimit. rewrite H.
    destruct (ValueMap.get (Auth.clientId s) clients) as [c | ]; [ | reflexivity ].
    destruct (Auth.resetTime c <? now)%Z; [ reflexivity | ].
    destruct (maxEvents <=? Auth.count c)%Z; reflexivity.
  - unfold Auth.rateLimit.
    destruct (ValueMap.get (Auth.clientId s) clients) as [c | ];
      [ | intro H; now contradiction H ].
    destruct (Auth.resetTime c <? now)%Z; [ intro H; now contradiction H | ].
    destruct (maxEvents <=? Auth.count c)%Z; [ reflexivity | ].
    intro H; now contradiction H.
  - intros Ht Hu. unfold Auth.clientId. rewrite Hu, Ht. reflexivity.
Qed.

(** ** The session records *)

Lemma own_define_same (k : string) (v : Registry.field) (o : Registry.object) :
  Registry.own k (Registry.define k v o) = Some v.
Proof.
  induction o as [ | [k0 v0] o IH ]; cbn [Registry.define Registry.own].
  - now rewrite String.eqb_refl.
  - destruct (String.eqb k k0) eqn:E; cbn [Registry.own]; rewrite E;
      [ reflexivity | exact IH ].
Qed.

Lemma own_define_other (k k' : string) (v : Registry.field) (o : Registry.object) :
  String.eqb k k' = false ->
  Registry.own k (Registry.define k' v o) = Registry.own k o.
Proof.
  intro Hk. induction o as [ | [k0 v0] o IH ]; cbn [Registry.define Registry.own].
  - now rewrite Hk.
  - destruct (String.eqb k' k0) eqn:E; cbn [Registry.own].
    + apply String.eqb_eq in E. subst k0. now rewrite Hk.
    + now rewrite IH.
Qed.

Lemma own_define (k k' : string) (v : Registry.field) (o : Registry.object) :
  Registry.own k (Registry.define k' v o) =
    if String.eqb k k' then Some v else Registry.own k o.
Proof.
  destruct (String.eqb k k') eqn:E.
  - apply String.eqb_eq in E. subst k'. apply own_define_same.
  - now apply own_define_other.
Qed.

(** Spreading an object, each of whose names occurs once, over another. *)
Lemma own_spread (k : string) (src : Registry.object) :
  NoDup (map fst src) ->
  forall acc,
    Registry.own k
      (fold_left (fun acc' e => Registry.define (fst e) (snd e) acc') src acc) =
      match Registry.own k src with
      | Some v => Some v
      | None => Registry.own k acc
      end.
Proof.
  induction src as [ | [k0 v0] src IH ]; intros Hnd acc; [ reflexivity | ].
  cbn [map fst] in Hnd. inversion Hnd as [ | ? ? Hnotin Hnd' ]; subst.
  cbn [fold_left fst snd Registry.own]. rewrite (IH Hnd').
  destruct (String.eqb k k0) eqn:E.
  - apply String.eqb_eq in E. subst k0.
    assert (Hnone : Registry.own k src = None).
    { clear -Hnotin. induction src as [ | [k1 v1] src IH ]; [ reflexivity | ].
      cbn [Registry.own]. destruct (String.eqb k k1) eqn:E1.
      - apply String.eqb_eq in E1. subst k1. exfalso. apply Hnotin. now left.
      - apply IH. intro H. apply Hnotin. now right. }
    rewrite Hnone. apply own_define_same.
  - rewrite (own_define_other k k0 v0 acc E). reflexivity.
Qed.

Lemma getSession_in_memory (rt : Runtime) (sessionId : value) (st : Registry.state) :
  Registry.in_memory st ->
  Registry.getSession rt sessionId st =
    (Ok (ValueMap.get sessionId (Registry.sessions st)), st).
Proof.
  unfold Registry.in_memory. intro H.
  unfold Registry.getSession, Stateful.try_catch, Stateful.bind, Stateful.gets,
    Stateful.ret.
  rewrite H. reflexivity.
Qed.

Lemma createSession_in_memory (rt : Runtime) (sessionId : value)
    (sessionData : Registry.object) (st : Registry.state) :
  Registry.in_memory st ->
  let session :=
    Registry.literal
      [Registry.Entry "id" (Registry.Scalar sessionId); Registry.Spread sessionData;
       Registry.Entry "createdAt"
         (Registry.DateAt (Registry.clock st (Registry.ticks st)));
       Registry.Entry "lastActivity"
         (Registry.DateAt (Registry.clock st (S (Registry.ticks st))));
       Registry.Entry "isActive" (Registry.Scalar (Bool true))] in
  Registry.createSession rt sessionId sessionData st =
    (Ok session,
     Registry.set_sessions (ValueMap.set sessionId session (Registry.sessions st))
       (Registry.set_ticks (S (S (Registry.ticks st))) st)).
Proof.
  unfold Registry.in_memory. intro H. cbv zeta.
  unfold Registry.createSession, Stateful.try_catch, Stateful.bind, Stateful.gets,
    Stateful.ret, Stateful.modify, Registry.new_Date.
  destruct st. cbn in *. subst. reflexivity.
Qed.

Lemma updateSession_in_memory (rt : Runtime) (sessionId : value)
    (updateData : Registry.object) (st : Registry.state) :
  Registry.in_memory st ->
  Registry.updateSession rt sessionId updateData st =
    match ValueMap.get sessionId (Registry.sessions st) with
    | None => (Throw (Error "Session not found"), st)
    | Some existing =>
        let updated :=
          Registry.literal
            [Registry.Spread existing; Registry.Spread updateData;
             Registry.Entry "lastActivity"
               (Registry.DateAt (Registry.clock st (Registry.ticks st)))] in
        (Ok updated,
         Registry.set_sessions
           (ValueMap.set sessionId updated (Registry.sessions st))
           (Registry.set_ticks (S (Registry.ticks st)) st))
    end.
Proof.
  intro H. unfold Registry.updateSession, Stateful.try_catch.
  unfold Stateful.bind at 1. rewrite (getSession_in_memory rt sessionId st H).
  destruct (ValueMap.get sessionId (Registry.sessions st)) as [existing | ];
    [ | reflexivity ].
  unfold Registry.in_memory in H.
  unfold Stateful.bind, Stateful.gets, Stateful.ret, Stateful.modify,
    Registry.new_Date.
  destruct st. cbn in *. subst. reflexivity.
Qed.

(** X19.  A created session is found again, and the caller cannot forge
    its life cycle.  With the registry working from memory, the record
    that createSession returns is the one that getSession then finds under
    the identifier.  It is active, and its creation and last-activity times
    are the times of the call, whatever the caller's data say; every other
    member is the caller's, with the identifier as the default of the
    member id, so data that have a member id replace it.  Records under
    other identifiers are untouched. *)
Theorem created_session_is_found :
  forall (rt : Runtime) (sessionId : value) (sessionData : Registry.object)
         (st : Registry.state),
    Registry.in_memory st ->
    NoDup (map fst sessionData) ->
    exists session st',
      Registry.createSession rt sessionId sessionData st = (Ok session, st')
      /\ Registry.getSession rt sessionId st' = (Ok (Some session), st')
      /\ Registry.member "isActive" session = Registry.Scalar (Bool true)
      /\ Registry.member "createdAt" session =
           Registry.DateAt (Registry.clock st (Registry.ticks st))
      /\ Registry.member "lastActivity" session =
           Registry.DateAt (Registry.clock st (S (Registry.ticks st)))
      /\ (forall k,
            existsb (String.eqb k) ["createdAt"; "lastActivity"; "isActive"] = false ->
            Registry.own k session =
              match Registry.own k sessionData with
              | Some v => Some v
              | None => if String.eqb k "id" then Some (Registry.Scalar sessionId)
                        else None
              end)
      /\ (forall other,
            ValueMap.same_value_zero other sessionId = false ->
            ValueMap.get other (Registry.sessions st') =
              ValueMap.get other (Registry.sessions st))
      /\ Registry.roomSessions st' = Registry.roomSessions st.
Proof.
  intros rt sessionId sessionData st Hmem Hnd.
  pose proof (createSession_in_memory rt sessionId sessionData st Hmem) as E.
  cbv zeta in E. eexists. eexists. split; [ exact E | ].
  assert (Hmem' : Registry.in_memory
            (Registry.set_sessions
               (ValueMap.set sessionId
                  (Registry.literal
                     [Registry.Entry "id" (Registry.Scalar sessionId);
                      Registry.Spread sessionData;
                      Registry.Entry "createdAt"
                        (Registry.DateAt (Registry.clock st (Registry.ticks st)));
                      Registry.Entry "lastActivity"
                        (Registry.DateAt (Registry.clock st (S (Registry.ticks st))));
                      Registry.Entry "isActive" (Registry.Scalar (Bool true))])
                  (Registry.sessions st))
               (Registry.set_ticks (S (S (Registry.ticks st))) st)))
    by (unfold Registry.in_memory in *; destruct st; exact Hmem).
  split.
  { rewrite (getSession_in_memory rt sessionId _ Hmem').
    f_equal. f_equal. destruct st. cbn [Registry.sessions Registry.set_sessions].
    apply ValueMap_get_set_same. }
  unfold Registry.member, Registry.literal. cbn [fold_left].
  split; [ now rewrite own_define_same | ].
  split.
  { rewrite own_define_other by reflexivity.
    rewrite own_define_other by reflexivity.
    now rewrite own_define_same. }
  split.
  { rewrite own_define_other by reflexivity. now rewrite own_define_same. }
  split.
  { intros k Hk. cbn [existsb] in Hk.
    apply orb_false_iff in Hk. destruct Hk as [H1 Hk].
    apply orb_false_iff in Hk. destruct Hk as [H2 Hk].
    apply orb_false_iff in Hk. destruct Hk as [H3 _].
    rewrite (own_define_other k _ _ _ H3), (own_define_other k _ _ _ H2),
      (own_define_other k _ _ _ H1), (own_spread k sessionData Hnd).
    destruct (Registry.own k sessionData); [ reflexivity | ].
    cbn [Registry.define Registry.own]. now destruct (String.eqb k "id"). }
  split.
  { intros other Hother. destruct st. cbn [Registry.sessions Registry.set_sessions
      Registry.set_ticks]. now apply ValueMap_get_set_other. }
  destruct st. reflexivity.
Qed.

(** A session created for user u1 with data that claim to be inactive. *)
Lemma created_session_witness :
  let data := [("userId", Registry.Scalar (Str "u1"));
               ("isActive", Registry.Scalar (Bool false))] in
  Registry.in_memory (Registry.empty 1000)
  /\ NoDup (map fst data)
  /\ exists session st',
       Registry.createSession decimal_runtime (Str "S1") data (Registry.empty 1000)
         = (Ok session, st')
       /\ Registry.member "isActive" session = Registry.Scalar (Bool true)
       /\ Registry.own "userId" session = Some (Registry.Scalar (Str "u1"))
       /\ Registry.own "id" session = Some (Registry.Scalar (Str "S1")).
Proof.
  cbv zeta.
  assert (Hmem : Registry.in_memory (Registry.empty 1000)) by reflexivity.
  assert (Hnd : NoDup (map fst [("userId", Registry.Scalar (Str "u1"));
                                ("isActive", Registry.Scalar (Bool false))])).
  { cbn. repeat constructor; cbn; intuition discriminate. }
  split; [ exact Hmem | split; [ exact Hnd | ] ].
  destruct (created_session_is_found decimal_runtime (Str "S1")
              [("userId", Registry.Scalar (Str "u1"));
               ("isActive", Registry.Scalar (Bool false))]
              (Registry.empty 1000) Hmem Hnd)
    as [session [st' [E [_ [Hact [_ [_ [Hown _]]]]]]]].
  exists session, st'. split; [ exact E | split; [ exact Hact | ] ].
  rewrite (Hown "userId" eq_refl), (Hown "id" eq_refl). split; reflexivity.
Defined.

(** X20.  An update needs a session and refreshes its activity.  With the
    registry working from memory, updating an identifier that has no
    record throws 'Session not found' and changes nothing.  Updating a
    record stores and returns the merged record: its last-activity time is
    the time of the update, whatever the update says; every other member
    is the update's where the update has it and the old one elsewhere, so
    an update can set isActive.  Other records and the rooms are
    untouched. *)
Theorem update_refreshes_last_activity :
  forall (rt : Runtime) (sessionId : value) (updateData : Registry.object)
         (st : Registry.state),
    Registry.in_memory st ->
    (ValueMap.get sessionId (Registry.sessions st) = None ->
     Registry.updateSession rt sessionId updateData st =
       (Throw (Error "Session not found"), st))
    /\ (forall existing,
          ValueMap.get sessionId (Registry.sessions st) = Some existing ->
          exists updated st',
            Registry.updateSession rt sessionId updateData st = (Ok updated, st')
            /\ ValueMap.get sessionId (Registry.sessions st') = Some updated
            /\ Registry.member "lastActivity" updated =
                 Registry.DateAt (Registry.clock st (Registry.ticks st))
            /\ (NoDup (map fst existing) -> NoDup (map fst updateData) ->
                forall k,
                  String.eqb k "lastActivity" = false ->
                  Registry.own k updated =
                    match Registry.own k updateData with
                    | Some v => Some v
                    | None => Registry.own k existing
                    end)
            /\ (forall other,
                  ValueMap.same_value_zero other sessionId = false ->
                  ValueMap.get other (Registry.sessions st') =
                    ValueMap.get other (Registry.sessions st))
            /\ Registry.roomSessions st' = Registry.roomSessions st).
Proof.
  intros rt sessionId updateData st Hmem.
  pose proof (updateSession_in_memory rt sessionId updateData st Hmem) as E.
  split.
  - intro Hnone. rewrite Hnone in E. exact E.
  - intros existing Hsome. rewrite Hsome in E. cbv zeta in E.
    eexists. eexists. split; [ exact E | ].
    split.
    { destruct st. cbn [Registry.sessions Registry.set_sessions].
      apply ValueMap_get_set_same. }
    unfold Registry.member, Registry.literal. cbn [fold_left].
    split; [ now rewrite own_define_same | ].
    split.
    { intros Hex Hup k Hk.
      rewrite (own_define_other k _ _ _ Hk), (own_spread k updateData Hup),
        (own_spread k existing Hex).
      destruct (Registry.own k updateData); [ reflexivity | ].
      now destruct (Registry.own k existing). }
    split.
    { intros other Hother. destruct st.
      cbn [Registry.sessions Registry.set_sessions Registry.set_ticks].
      now apply ValueMap_get_set_other. }
    destruct st. reflexivity.
Qed.

(** An update of a session that does not exist, on an empty registry. *)
Lemma update_witness :
  Registry.in_memory (Registry.empty 1000)
  /\ Registry.updateSession decimal_runtime (Str "S1")
       [("isActive", Registry.Scalar (Bool false))] (Registry.empty 1000)
     = (Throw (Error "Session not found"), Registry.empty 1000).
Proof.
  assert (Hmem : Registry.in_memory (Registry.empty 1000)) by reflexivity.
  split; [ exact Hmem | ].
  exact (proj1 (update_refreshes_last_activity decimal_runtime (Str "S1")
                  [("isActive", Registry.Scalar (Bool false))]
                  (Registry.empty 1000) Hmem) eq_refl).
Defined.

(** X21.  A created session validates its user, and no other.  With the
    registry working from memory, validateSession after createSession
    answers whether the member userId of the caller's data is strictly
    equal to the user given, and changes nothing; data without that member
    validate exactly the user that is undefined.  An identifier that has no
    record is answered with null. *)
Theorem created_session_validates_its_user :
  forall (rt : Runtime) (sessionId userId : value) (sessionData : Registry.object)
         (st : Registry.state),
    Registry.in_memory st ->
    NoDup (map fst sessionData) ->
    let st' := snd (Registry.createSession rt sessionId sessionData st) in
    Registry.validateSession rt sessionId userId st' =
      (Ok (Bool (Registry.field_is (Registry.member "userId" sessionData) userId)), st')
    /\ (forall other,
          ValueMap.same_value_zero other sessionId = false ->
          ValueMap.get other (Registry.sessions st) = None ->
          Registry.validateSession rt other userId st' = (Ok Null, st')).
Proof.
  intros rt sessionId userId sessionData st Hmem Hnd st'. subst st'.
  rewrite (createSession_in_memory rt sessionId sessionData st Hmem).
  cbv zeta. cbn [snd].
  match goal with |- context [Registry.validateSession _ _ _ ?x] =>
    assert (Hmem' : Registry.in_memory x)
      by (unfold Registry.in_memory in *; destruct st; exact Hmem)
  end.
  unfold Registry.validateSession, Stateful.bind.
  rewrite !(getSession_in_memory rt _ _ Hmem').
  split.
  - destruct st as [ss rs rw n c up stored].
    cbn [Registry.sessions Registry.set_sessions Registry.set_ticks Registry.clock
         Registry.ticks].
    rewrite ValueMap_get_set_same. unfold Stateful.ret. do 3 f_equal.
    unfold Registry.member, Registry.literal. cbn [fold_left].
    rewrite !own_define_other by reflexivity.
    rewrite (own_spread "userId" sessionData Hnd).
    destruct (Registry.own "userId" sessionData); reflexivity.
  - intros other Hother Hnone.
    rewrite (getSession_in_memory rt other _ Hmem').
    destruct st as [ss rs rw n c up stored].
    cbn [Registry.sessions Registry.set_sessions Registry.set_ticks] in *.
    rewrite (ValueMap_get_set_other other sessionId _ ss Hother), Hnone.
    reflexivity.
Qed.

(** A session created for user u1: u1 is validated, u2 is not. *)
Lemma validate_witness :
  let data := [("userId", Registry.Scalar (Str "u1"))] in
  let st' := snd (Registry.createSession decimal_runtime (Str "S1") data
                    (Registry.empty 1000)) in
  Registry.in_memory (Registry.empty 1000)
  /\ NoDup (map fst data)
  /\ Registry.validateSession decimal_runtime (Str "S1") (Str "u1") st'
     = (Ok (Bool true), st')
  /\ Registry.validateSession decimal_runtime (Str "S1") (Str "u2") st'
     = (Ok (Bool false), st').
Proof.
  cbv zeta.
  assert (Hmem : Registry.in_memory (Registry.empty 1000)) by reflexivity.
  assert (Hnd : NoDup (map fst [("userId", Registry.Scalar (Str "u1"))])).
  { cbn. repeat constructor. intros []. }
  split; [ exact Hmem | split; [ exact Hnd | ] ].
  split.
  - exact (proj1 (created_session_validates_its_user decimal_runtime (Str "S1")
                    (Str "u1") [("userId", Registry.Scalar (Str "u1"))]
                    (Registry.empty 1000) Hmem Hnd)).
  - exact (proj1 (created_session_validates_its_user decimal_runtime (Str "S1")
                    (Str "u2") [("userId", Registry.Scalar (Str "u1"))]
                    (Registry.empty 1000) Hmem Hnd)).
Defined.

(** ** The rooms *)

Lemma ValueMap_get_delete_same {V : Type} (k : value) (m : list (value * V)) :
  ValueMap.get k (ValueMap.delete k m) = None.
Proof.
  unfold ValueMap.delete.
  induction m as [ | [k0 v0] m IH ]; cbn [filter ValueMap.get fst]; [ reflexivity | ].
  destruct (ValueMap.same_value_zero k k0) eqn:E; cbn [negb]; [ exact IH | ].
  cbn [ValueMap.get]. now rewrite E.
Qed.

Lemma ValueMap_get_delete_other {V : Type} (k k' : value) (m : list (value * V)) :
  ValueMap.same_value_zero k k' = false ->
  ValueMap.get k (ValueMap.delete k' m) = ValueMap.get k m.
Proof.
  intro Hk. unfold ValueMap.delete.
  induction m as [ | [k0 v0] m IH ]; cbn [filter ValueMap.get fst]; [ reflexivity | ].
  destruct (ValueMap.same_value_zero k' k0) eqn:E; cbn [negb ValueMap.get].
  - rewrite (same_value_zero_other k' k0 k E Hk). exact IH.
  - now rewrite IH.
Qed.

Lemma forallb_ValueMap_set {V : Type} (p : value * V -> bool) (k : value) (x : V)
    (m : list (value * V)) :
  (forall k', p (k', x) = true) ->
  forallb p m = true -> forallb p (ValueMap.set k x m) = true.
Proof.
  intros Hx. induction m as [ | [k0 v0] m IH ]; cbn [ValueMap.set forallb]; intro H.
  - now rewrite Hx.
  - apply andb_true_iff in H. destruct H as [H0 H].
    destruct (ValueMap.same_value_zero k k0); cbn [forallb].
    + now rewrite Hx, H.
    + now rewrite H0, IH.
Qed.

Lemma forallb_filter {A : Type} (p f : A -> bool) (l : list A) :
  forallb p l = true -> forallb p (filter f l) = true.
Proof.
  induction l as [ | a l IH ]; cbn [filter forallb]; intro H; [ reflexivity | ].
  apply andb_true_iff in H. destruct H as [H0 H].
  destruct (f a); cbn [forallb]; [ now rewrite H0, IH | now apply IH ].
Qed.

Lemma member_of_set_add (x : value) (l : list value) :
  Registry.member_of x (Registry.set_add x l) = true
  /\ (List.length (Registry.set_add x l) =? 0)%nat = false.
Proof.
  unfold Registry.member_of, Registry.set_add.
  destruct (existsb (ValueMap.same_value_zero x) l) eqn:E.
  - split; [ exact E | ]. destruct l; [ discriminate | reflexivity ].
  - split.
    + rewrite existsb_app. cbn. now rewrite same_value_zero_refl, orb_true_r.
    + rewrite length_app. cbn. apply Nat.eqb_neq. lia.
Qed.

Lemma member_of_set_delete (x : value) (l : list value) :
  Registry.member_of x (Registry.set_delete x l) = false.
Proof.
  unfold Registry.member_of, Registry.set_delete.
  induction l as [ | y l IH ]; cbn [filter existsb]; [ reflexivity | ].
  destruct (ValueMap.same_value_zero x y) eqn:E; cbn [negb existsb]; [ exact IH | ].
  now rewrite E.
Qed.

Lemma joinRoom_in_memory (rt : Runtime) (sessionId roomId : value)
    (st : Registry.state) (existing : Registry.object) :
  Registry.in_memory st ->
  ValueMap.get sessionId (Registry.sessions st) = Some existing ->
  let updated :=
    Registry.literal
      [Registry.Spread existing;
       Registry.Spread
         (Registry.literal
            [Registry.Entry "roomId" (Registry.Scalar roomId);
             Registry.Entry "joinedRoomAt"
               (Registry.DateAt (Registry.clock st (Registry.ticks st)))]);
       Registry.Entry "lastActivity"
         (Registry.DateAt (Registry.clock st (S (Registry.ticks st))))] in
  let members :=
    match ValueMap.get roomId (Registry.roomSessions st) with
    | Some l => l
    | None => []
    end in
  Registry.joinRoom rt sessionId roomId st =
    (Ok true,
     Registry.set_roomSessions
       (ValueMap.set roomId (Registry.set_add sessionId members)
          (Registry.roomSessions st))
       (Registry.set_sessions
          (ValueMap.set sessionId updated (Registry.sessions st))
          (Registry.set_ticks (S (S (Registry.ticks st))) st))).
Proof.
  intros Hmem Hsome. cbv zeta.
  unfold Registry.joinRoom, Stateful.try_catch.
  unfold Stateful.bind at 1. rewrite (getSession_in_memory rt sessionId st Hmem), Hsome.
  unfold Stateful.bind at 1, Registry.new_Date.
  unfold Stateful.bind at 1.
  rewrite updateSession_in_memory
    by (unfold Registry.in_memory in *; destruct st; exact Hmem).
  assert (Hsome' :
    ValueMap.get sessionId
      (Registry.sessions (Registry.set_ticks (S (Registry.ticks st)) st))
    = Some existing) by (destruct st; exact Hsome).
  rewrite Hsome'. cbv zeta.
  unfold Stateful.bind, Stateful.modify, Stateful.ret, ValueMap.has.
  destruct st as [ss rs rw n c up stored].
  unfold Registry.set_roomSessions, Registry.set_sessions, Registry.set_ticks.
  cbn [Registry.sessions Registry.roomSessions Registry.redis_written Registry.ticks
       Registry.clock Registry.redis_connected Registry.redis_stored].
  destruct (ValueMap.get roomId rs) as [l | ] eqn:Er;
    cbn [Registry.sessions Registry.roomSessions Registry.redis_written
         Registry.ticks Registry.clock Registry.redis_connected
         Registry.redis_stored].
  - rewrite Er. reflexivity.
  - rewrite ValueMap_get_set_same. f_equal. f_equal. clear.
    induction rs as [ | [k0 v0] rs IH ]; cbn [ValueMap.set].
    + now rewrite same_value_zero_refl.
    + destruct (ValueMap.same_value_zero roomId k0) eqn:E; cbn [ValueMap.set];
        rewrite E; [ reflexivity | now rewrite IH ].
Qed.

Lemma leaveRoom_in_memory (rt : Runtime) (sessionId roomId : value)
    (st : Registry.state) :
  Registry.in_memory st ->
  exists st1,
    Registry.roomSessions st1 = Registry.roomSessions st
    /\ Registry.leaveRoom rt sessionId roomId st =
         (Ok true,
          match ValueMap.get roomId (Registry.roomSessions st) with
          | Some members =>
              if (List.length (Registry.set_delete sessionId members) =? 0)%nat
              then Registry.set_roomSessions
                     (ValueMap.delete roomId (Registry.roomSessions st)) st1
              else Registry.set_roomSessions
                     (ValueMap.set roomId (Registry.set_delete sessionId members)
                        (Registry.roomSessions st)) st1
          | None => st1
          end).
Proof.
  intro Hmem.
  unfold Registry.leaveRoom, Stateful.try_catch.
  unfold Stateful.bind at 1. unfold Stateful.bind at 1.
  rewrite (getSession_in_memory rt sessionId st Hmem).
  destruct (ValueMap.get sessionId (Registry.sessions st)) as [existing | ] eqn:Hsome.
  - unfold Stateful.bind at 1, Registry.new_Date.
    unfold Stateful.bind at 1.
    rewrite updateSession_in_memory
      by (unfold Registry.in_memory in *; destruct st; exact Hmem).
    assert (Hsome' :
      ValueMap.get sessionId
        (Registry.sessions (Registry.set_ticks (S (Registry.ticks st)) st))
      = Some existing) by (destruct st; exact Hsome).
    rewrite Hsome'. cbv zeta.
    unfold Stateful.bind, Stateful.modify, Stateful.ret.
    eexists. split; [ | reflexivity ]. destruct st; reflexivity.
  - unfold Stateful.bind, Stateful.modify, Stateful.ret.
    exists st. split; [ reflexivity | ].
    destruct (ValueMap.get roomId (Registry.roomSessions st)) as [members | ];
      [ | reflexivity ].
    destruct (List.length (Registry.set_delete sessionId members) =? 0)%nat;
      reflexivity.
Qed.

(** X22.  The rooms follow joinRoom and leaveRoom.  With the registry
    working from memory: joining with an identifier that has no record
    throws 'Session not found' and changes nothing; joining with a known
    one lists it in the room and writes the room into its record.  Leaving
    always returns true, also for a session or a room that is unknown, and
    the identifier is then not listed in the room.  Neither touches the
    list of another room, so joining a second room leaves the session
    listed in the first.  A room whose last member leaves is dropped: if
    every listed room had a member before, every listed room has one
    after. *)
Theorem rooms_follow_join_and_leave :
  forall (rt : Runtime) (sessionId roomId : value) (st : Registry.state),
    Registry.in_memory st ->
    (ValueMap.get sessionId (Registry.sessions st) = None ->
     Registry.joinRoom rt sessionId roomId st =
       (Throw (Error "Session not found"), st))
    /\ (ValueMap.has sessionId (Registry.sessions st) = true ->
        exists st' record,
          Registry.joinRoom rt sessionId roomId st = (Ok true, st')
          /\ Registry.member_of sessionId (Registry.getRoomSessions roomId st') = true
          /\ ValueMap.get sessionId (Registry.sessions st') = Some record
          /\ Registry.member "roomId" record = Registry.Scalar roomId
          /\ (forall other,
                ValueMap.same_value_zero other roomId = false ->
                Registry.getRoomSessions other st' = Registry.getRoomSessions other st)
          /\ (Registry.rooms_inhabited st = true -> Registry.rooms_inhabited st' = true))
    /\ (exists st',
          Registry.leaveRoom rt sessionId roomId st = (Ok true, st')
          /\ Registry.member_of sessionId (Registry.getRoomSessions roomId st') = false
          /\ (forall other,
                ValueMap.same_value_zero other roomId = false ->
                Registry.getRoomSessions other st' = Registry.getRoomSessions other st)
          /\ (Registry.rooms_inhabited st = true -> Registry.rooms_inhabited st' = true)).
Proof.
  intros rt sessionId roomId st Hmem. split; [ | split ].
  - intro Hnone. unfold Registry.joinRoom, Stateful.try_catch, Stateful.bind.
    rewrite (getSession_in_memory rt sessionId st Hmem), Hnone. reflexivity.
  - unfold ValueMap.has.
    destruct (ValueMap.get sessionId (Registry.sessions st)) as [existing | ] eqn:Hsome;
      [ intros _ | discriminate ].
    pose proof (joinRoom_in_memory rt sessionId roomId st existing Hmem Hsome) as E.
    cbv zeta in E. eexists.
    exists (Registry.literal
              [Registry.Spread existing;
               Registry.Spread
                 (Registry.literal
                    [Registry.Entry "roomId" (Registry.Scalar roomId);
                     Registry.Entry "joinedRoomAt"
                       (Registry.DateAt (Registry.clock st (Registry.ticks st)))]);
               Registry.Entry "lastActivity"
                 (Registry.DateAt (Registry.clock st (S (Registry.ticks st))))]).
    split; [ exact E | ].
    unfold Registry.getRoomSessions, Registry.rooms_inhabited.
    destruct st as [ss rs rw n c up stored].
    cbn [Registry.roomSessions Registry.set_roomSessions Registry.sessions
         Registry.set_sessions Registry.set_ticks Registry.clock Registry.ticks].
    split; [ rewrite ValueMap_get_set_same; apply member_of_set_add | ].
    split; [ apply ValueMap_get_set_same | ].
    split.
    { unfold Registry.member, Registry.literal. cbn [fold_left].
      rewrite own_define_other by reflexivity.
      rewrite own_spread.
      - reflexivity.
      - cbn. repeat constructor; cbn; intuition discriminate. }
    split.
    { intros other Hother. now rewrite ValueMap_get_set_other. }
    apply forallb_ValueMap_set. intro k'. cbn [snd].
    now rewrite (proj2 (member_of_set_add sessionId _)).
  - destruct (leaveRoom_in_memory rt sessionId roomId st Hmem) as [st1 [Hrooms E]].
    eexists. split; [ exact E | ].
    unfold Registry.getRoomSessions, Registry.rooms_inhabited. rewrite <- Hrooms.
    destruct (ValueMap.get roomId (Registry.roomSessions st1)) as [members | ] eqn:Er.
    + destruct (List.length (Registry.set_delete sessionId members) =? 0)%nat eqn:El;
        destruct st1 as [ss rs rw n c up stored];
        cbn [Registry.roomSessions Registry.set_roomSessions] in *.
      * rewrite ValueMap_get_delete_same. split; [ reflexivity | ].
        split; [ intros other Hother; now rewrite ValueMap_get_delete_other | ].
        apply forallb_filter.
      * rewrite ValueMap_get_set_same. split; [ apply member_of_set_delete | ].
        split; [ intros other Hother; now rewrite ValueMap_get_set_other | ].
        apply forallb_ValueMap_set. intro k'. cbn [snd]. now rewrite El.
    + rewrite Er. split; [ reflexivity | ]. split; [ reflexivity | tauto ].
Qed.

(** Session S1 joins room A and then room B: it is listed in both, and its
    record names B. *)
Lemma rooms_witness :
  let st0 := snd (Registry.createSession decimal_runtime (Str "S1") []
                    (Registry.empty 1000)) in
  let st1 := snd (Registry.joinRoom decimal_runtime (Str "S1") (Str "A") st0) in
  Registry.in_memory st1
  /\ ValueMap.has (Str "S1") (Registry.sessions st1) = true
  /\ exists st2 record,
       Registry.joinRoom decimal_runtime (Str "S1") (Str "B") st1 = (Ok true, st2)
       /\ Registry.getRoomSessions (Str "A") st2 = [Str "S1"]
       /\ Registry.getRoomSessions (Str "B") st2 = [Str "S1"]
       /\ ValueMap.get (Str "S1") (Registry.sessions st2) = Some record
       /\ Registry.member "roomId" record = Registry.Scalar (Str "B").
Proof.
  cbv zeta.
  set (st1 := snd (Registry.joinRoom decimal_runtime (Str "S1") (Str "A")
                     (snd (Registry.createSession decimal_runtime (Str "S1") []
                             (Registry.empty 1000))))).
  assert (Hmem : Registry.in_memory st1) by (vm_compute; reflexivity).
  assert (Hhas : ValueMap.has (Str "S1") (Registry.sessions st1) = true)
    by (vm_compute; reflexivity).
  split; [ exact Hmem | split; [ exact Hhas | ] ].
  destruct (rooms_follow_join_and_leave decimal_runtime (Str "S1") (Str "B") st1 Hmem)
    as [_ [Hjoin _]].
  destruct (Hjoin Hhas) as [st2 [record [E [_ [Hget [Hroom [Hother _]]]]]]].
  exists st2, record. split; [ exact E | ].
  split; [ rewrite (Hother (Str "A") eq_refl); vm_compute; reflexivity | ].
  split; [ | split; [ exact Hget | exact Hroom ] ].
  assert (E2 : st2 = snd (Registry.joinRoom decimal_runtime (Str "S1") (Str "B") st1))
    by (rewrite E; reflexivity).
  rewrite E2. vm_compute. reflexivity.
Defined.

Lemma sum_of_inhabited (rooms : list (list value)) :
  forallb (fun members => negb (List.length members =? 0)%nat) rooms = true ->
  forall start,
    (start + List.length rooms
     <= fold_left (fun sum members => (sum + List.length members)%nat) rooms start)%nat.
Proof.
  induction rooms as [ | members rooms IH ]; cbn [forallb fold_left List.length];
    intros H start; [ lia | ].
  apply andb_true_iff in H. destruct H as [H0 H].
  apply negb_true_iff in H0. apply Nat.eqb_neq in H0.
  specialize (IH H (start + List.length members)%nat). lia.
Qed.

(** X23.  The statistics are consistent.  The number of active sessions
    never exceeds the number of sessions.  The average number of sessions
    per room is 0 when there is no room, so nothing is divided by zero,
    and it is at least 1 as soon as every listed room has a member, which
    joinRoom and leaveRoom maintain. *)
Theorem statistics_are_consistent :
  forall st : Registry.state,
    let stats := Registry.getStats st in
    (Registry.activeSessions stats <= Registry.totalSessions stats)%nat
    /\ (Registry.totalRooms stats = 0%nat ->
        Registry.averageSessionsPerRoom stats = 0%Q)
    /\ (Registry.rooms_inhabited st = true ->
        (0 < Registry.totalRooms stats)%nat ->
        (1 <= Registry.averageSessionsPerRoom stats)%Q).
Proof.
  intro st. cbv zeta. unfold Registry.getStats.
  cbn [Registry.activeSessions Registry.totalSessions Registry.totalRooms
       Registry.averageSessionsPerRoom].
  split; [ | split ].
  - unfold Registry.getActiveSessions.
    rewrite <- (length_map snd (Registry.sessions st)). apply filter_length_le.
  - intro H. rewrite H. reflexivity.
  - intros Hin Hpos.
    assert (E : (0 <? List.length (Registry.roomSessions st))%nat = true)
      by (apply Nat.ltb_lt; exact Hpos).
    rewrite E.
    unfold Registry.rooms_inhabited in Hin.
    assert (Hin' : forallb (fun members => negb (List.length members =? 0)%nat)
                     (map snd (Registry.roomSessions st)) = true).
    { clear -Hin. induction (Registry.roomSessions st) as [ | room rooms IH ];
        [ reflexivity | ].
      cbn [forallb map] in *. apply andb_true_iff in Hin. destruct Hin as [H0 H].
      now rewrite H0, IH. }
    pose proof (sum_of_inhabited _ Hin' 0%nat) as Hsum.
    rewrite length_map in Hsum. cbn [Nat.add] in Hsum.
    apply Qle_shift_div_l.
    + change 0%Q with (inject_Z 0). rewrite <- Zlt_Qlt. lia.
    + rewrite Qmult_1_l. rewrite <- Zle_Qle. lia.
Qed.

(** ** Monitoring: alerts *)

Lemma is_str_exclusive (v : value) (a b : string) :
  String.eqb a b = false -> is_str v a = true -> is_str v b = false.
Proof.
  destruct v as [ | | x | x | x ]; cbn; try discriminate.
  intros Hab Ha. apply String.eqb_eq in Ha. subst x. exact Hab.
Qed.

Lemma handleAlert_run (rt : Runtime) (s : socket) (d : Monitoring.alertData)
    (st : Monitoring.state) (ms : Monitoring.monitoringSession) :
  truthy (Monitoring.alert_sessionId d) = true ->
  truthy (Monitoring.alert_alertType d) = true ->
  truthy (Monitoring.alert_severity d) = true ->
  ValueMap.get (Monitoring.alert_sessionId d) (Monitoring.monitoringData st) = Some ms ->
  let r := Monitoring.registry st in
  let m := Monitoring.session_metrics ms in
  let severity := Monitoring.alert_severity d in
  let ms' :=
    {| Monitoring.sessionId := Monitoring.sessionId ms;
       Monitoring.examId := Monitoring.examId ms;
       Monitoring.userId := Monitoring.userId ms;
       Monitoring.socketId := Monitoring.socketId ms;
       Monitoring.startTime := Monitoring.startTime ms;
       Monitoring.isActive := Monitoring.isActive ms;
       Monitoring.endTime := Monitoring.endTime ms;
       Monitoring.duration := Monitoring.duration ms;
       Monitoring.session_metrics :=
         {| Monitoring.violations :=
              (Monitoring.violations m + one_if (is_str severity "info"))%nat;
            Monitoring.warnings :=
              (Monitoring.warnings m + one_if (is_str severity "warning"))%nat;
            Monitoring.alerts :=
              (Monitoring.alerts m + one_if (is_str severity "critical"))%nat;
            Monitoring.lastActivity := Registry.clock r (Registry.ticks r) |} |} in
  let a := alert_of d ms (Registry.clock r (S (Registry.ticks r))) in
  Monitoring.handleAlert rt s (Some d) st =
    (Ok tt,
     Monitoring.set_sent
       (Monitoring.sent st
        ++ {| Monitoring.to := Monitoring.Room (Monitoring.monitoring_room rt
                                                  (Monitoring.examId ms));
              Monitoring.event := "monitor:alert";
              Monitoring.content := Monitoring.Alert a |}
           :: (if is_str severity "critical"
               then [{| Monitoring.to := Monitoring.Room "admin";
                        Monitoring.event := "monitor:critical_alert";
                        Monitoring.content := Monitoring.Alert a |}]
               else []))
       (Monitoring.set_monitoringData
          (ValueMap.set (Monitoring.alert_sessionId d) ms'
             (Monitoring.monitoringData st))
          (Monitoring.set_registry
             (Registry.set_ticks (S (S (Registry.ticks r))) r) st))).
Proof.
  intros H1 H2 H3 Hget. cbv zeta.
  unfold Monitoring.handleAlert, Stateful.try_catch. rewrite H1, H2, H3.
  cbn [negb orb]. unfold Stateful.bind at 1, Stateful.gets at 1. rewrite Hget.
  unfold Stateful.bind, Stateful.modify, Stateful.ret, Monitoring.emit,
    Monitoring.new_Date, Monitoring.sessionManager, Registry.new_Date, alert_of.
  destruct ms as [a1 a2 a3 a4 a5 a6 a7 a8 [m1 m2 m3 m4]].
  destruct st as [r md snt jn]. destruct r as [ss rs rw n c up stored].
  destruct (is_str (Monitoring.alert_severity d) "critical") eqn:Ec.
  - rewrite (is_str_exclusive _ "critical" "warning" eq_refl Ec),
      (is_str_exclusive _ "critical" "info" eq_refl Ec).
    cbn. rewrite !Nat.add_0_r, Nat.add_1_r, <- app_assoc. reflexivity.
  - destruct (is_str (Monitoring.alert_severity d) "warning") eqn:Ew.
    + rewrite (is_str_exclusive _ "warning" "info" eq_refl Ew).
      cbn. rewrite !Nat.add_0_r, Nat.add_1_r. reflexivity.
    + destruct (is_str (Monitoring.alert_severity d) "info") eqn:Ei;
        cbn; rewrite ?Nat.add_0_r, ?Nat.add_1_r; reflexivity.
Qed.

(** X24.  An alert is counted by its severity, for any session that is in
    the monitoring map.  A critical alert adds one to the alerts of the
    session, a warning one to its warnings, an info one to its violations,
    and an alert of any other severity (high, medium, low, ...) is counted
    nowhere.  In every case the last activity of the session is set to the
    time of the alert, the alert is broadcast to the monitoring room of the
    session's exam, carrying the user and the exam of the session, and a
    critical alert goes to the room 'admin' as well.  Whether the session
    is still active is neither checked nor changed, and no other record is
    touched. *)
Theorem alert_is_counted_by_its_severity :
  forall (rt : Runtime) (s : socket) (d : Monitoring.alertData)
         (st : Monitoring.state) (ms : Monitoring.monitoringSession),
    truthy (Monitoring.alert_sessionId d) = true ->
    truthy (Monitoring.alert_alertType d) = true ->
    truthy (Monitoring.alert_severity d) = true ->
    ValueMap.get (Monitoring.alert_sessionId d) (Monitoring.monitoringData st)
      = Some ms ->
    let severity := Monitoring.alert_severity d in
    let m := Monitoring.session_metrics ms in
    exists st' ms' stamp,
      Monitoring.handleAlert rt s (Some d) st = (Ok tt, st')
      /\ ValueMap.get (Monitoring.alert_sessionId d) (Monitoring.monitoringData st')
         = Some ms'
      /\ Monitoring.alerts (Monitoring.session_metrics ms') =
           (Monitoring.alerts m + one_if (is_str severity "critical"))%nat
      /\ Monitoring.warnings (Monitoring.session_metrics ms') =
           (Monitoring.warnings m + one_if (is_str severity "warning"))%nat
      /\ Monitoring.violations (Monitoring.session_metrics ms') =
           (Monitoring.violations m + one_if (is_str severity "info"))%nat
      /\ Monitoring.counted (Monitoring.session_metrics ms') =
           (Monitoring.counted m + one_if (Monitoring.is_counted severity))%nat
      /\ Monitoring.lastActivity (Monitoring.session_metrics ms') =
           Registry.clock (Monitoring.registry st)
             (Registry.ticks (Monitoring.registry st))
      /\ Monitoring.isActive ms' = Monitoring.isActive ms
      /\ (forall other,
            ValueMap.same_value_zero other (Monitoring.alert_sessionId d) = false ->
            ValueMap.get other (Monitoring.monitoringData st') =
              ValueMap.get other (Monitoring.monitoringData st))
      /\ Monitoring.sent st' =
           Monitoring.sent st
           ++ {| Monitoring.to := Monitoring.Room (Monitoring.monitoring_room rt
                                                     (Monitoring.examId ms));
                 Monitoring.event := "monitor:alert";
                 Monitoring.content := Monitoring.Alert (alert_of d ms stamp) |}
              :: (if is_str severity "critical"
                  then [{| Monitoring.to := Monitoring.Room "admin";
                           Monitoring.event := "monitor:critical_alert";
                           Monitoring.content := Monitoring.Alert (alert_of d ms stamp) |}]
                  else []).
Proof.
  intros rt s d st ms H1 H2 H3 Hget severity m.
  pose proof (handleAlert_run rt s d st ms H1 H2 H3 Hget) as E. cbv zeta in E.
  destruct st as [r md snt jn].
  eexists. eexists.
  exists (Registry.clock r (S (Registry.ticks r))).
  split; [ exact E | ].
  cbn [Monitoring.registry Monitoring.monitoringData Monitoring.sent
       Monitoring.set_registry Monitoring.set_monitoringData Monitoring.set_sent
       Monitoring.session_metrics Monitoring.alerts Monitoring.warnings
       Monitoring.violations Monitoring.lastActivity Monitoring.isActive].
  split; [ apply ValueMap_get_set_same | ].
  split; [ reflexivity | split; [ reflexivity | split; [ reflexivity | ] ] ].
  split.
  { unfold Monitoring.counted, Monitoring.is_counted. subst severity m.
    cbn [Monitoring.alerts Monitoring.warnings Monitoring.violations].
    destruct (is_str (Monitoring.alert_severity d) "critical") eqn:Ec.
    - rewrite (is_str_exclusive _ "critical" "warning" eq_refl Ec),
        (is_str_exclusive _ "critical" "info" eq_refl Ec). cbn. lia.
    - destruct (is_str (Monitoring.alert_severity d) "warning") eqn:Ew.
      + rewrite (is_str_exclusive _ "warning" "info" eq_refl Ew). cbn. lia.
      + destruct (is_str (Monitoring.alert_severity d) "info"); cbn; lia. }
  split; [ reflexivity | split; [ reflexivity | ] ].
  split; [ | reflexivity ].
  intros other Hother. now apply ValueMap_get_set_other.
Qed.

(** An alert of severity high for the monitored session S1: broadcast, and
    counted nowhere. *)
Lemma alert_witness :
  let s := student "k1" "S1" "u1" in
  let d := {| Monitoring.alert_sessionId := Str "S1";
              Monitoring.alert_alertType := Str "phone_detected";
              Monitoring.alert_severity := Str "high";
              Monitoring.alert_message := Undefined |} in
  ValueMap.has (Str "S1") (Monitoring.monitoringData monitored_S1) = true
  /\ exists st' ms',
       Monitoring.handleAlert decimal_runtime s (Some d) monitored_S1 = (Ok tt, st')
       /\ ValueMap.get (Str "S1") (Monitoring.monitoringData st') = Some ms'
       /\ Monitoring.counted (Monitoring.session_metrics ms') = 1%nat
       /\ Monitoring.lastActivity (Monitoring.session_metrics ms') = 2000000%Z
       /\ map Monitoring.to (Monitoring.sent st') = [Monitoring.Room "monitoring:E1"].
Proof.
  cbv zeta. split; [ reflexivity | ].
  destruct (alert_is_counted_by_its_severity decimal_runtime (student "k1" "S1" "u1")
              {| Monitoring.alert_sessionId := Str "S1";
                 Monitoring.alert_alertType := Str "phone_detected";
                 Monitoring.alert_severity := Str "high";
                 Monitoring.alert_message := Undefined |}
              monitored_S1 _ eq_refl eq_refl eq_refl eq_refl)
    as [st' [ms' [stamp [E [Hget [_ [_ [_ [Hc [Hl [_ [_ Hs]]]]]]]]]]]].
  exists st', ms'. split; [ exact E | split; [ exact Hget | ] ].
  rewrite Hc, Hl, Hs. repeat split.
Defined.

(** ** Monitoring: the metrics of an exam *)

Lemma ValueMap_set_found {V : Type} (k : value) (v : V) (m : list (value * V)) :
  ValueMap.get k m = Some v ->
  exists l1 k0 l2,
    m = l1 ++ (k0, v) :: l2
    /\ forall x, ValueMap.set k x m = l1 ++ (k0, x) :: l2.
Proof.
  induction m as [ | [k1 v1] m IH ]; cbn [ValueMap.get]; [ discriminate | ].
  destruct (ValueMap.same_value_zero k k1) eqn:E.
  - intro H. inversion H; subst. exists [], k1, m. split; [ reflexivity | ].
    intro x. cbn [ValueMap.set app]. now rewrite E.
  - intro H. destruct (IH H) as [l1 [k0 [l2 [Hm Hset]]]].
    exists ((k1, v1) :: l1), k0, l2. split; [ cbn; now rewrite Hm | ].
    intro x. cbn [ValueMap.set app]. now rewrite E, Hset.
Qed.

Lemma fold_left_sum {A : Type} (f : A -> nat) (l : list A) :
  forall a,
    fold_left (fun sum x => (sum + f x)%nat) l a =
      (a + fold_left (fun sum x => (sum + f x)%nat) l 0)%nat.
Proof.
  induction l as [ | x l IH ]; intro a; cbn [fold_left]; [ lia | ].
  rewrite (IH (a + f x)%nat), (IH (0 + f x)%nat). lia.
Qed.

Lemma fold_left_sum_replace {A : Type} (f : A -> nat) (l1 l2 : list A) (x y : A) :
  forall n,
    f y = (f x + n)%nat ->
    fold_left (fun sum z => (sum + f z)%nat) (l1 ++ y :: l2) 0%nat =
      (fold_left (fun sum z => (sum + f z)%nat) (l1 ++ x :: l2) 0 + n)%nat.
Proof.
  intros n H. rewrite !fold_left_app. cbn [fold_left].
  rewrite (fold_left_sum f l2 (_ + f y)%nat), (fold_left_sum f l2 (_ + f x)%nat).
  lia.
Qed.

(** X25.  The metrics of an exam follow the alerts.  Handling an alert
    for a monitored session leaves the number of sessions and of active
    sessions of every exam as it was, and adds one to the total of the
    matching counter (alerts for critical, warnings for warning,
    violations for info) of the exam of that session, and of no other
    exam. *)
Theorem exam_metrics_follow_the_alerts :
  forall (rt : Runtime) (s : socket) (d : Monitoring.alertData)
         (st : Monitoring.state) (ms : Monitoring.monitoringSession) (exam : value),
    truthy (Monitoring.alert_sessionId d) = true ->
    truthy (Monitoring.alert_alertType d) = true ->
    truthy (Monitoring.alert_severity d) = true ->
    ValueMap.get (Monitoring.alert_sessionId d) (Monitoring.monitoringData st)
      = Some ms ->
    let severity := Monitoring.alert_severity d in
    let st' := snd (Monitoring.handleAlert rt s (Some d) st) in
    let before := Monitoring.aggregate (Monitoring.examSessions exam st) in
    let after := Monitoring.aggregate (Monitoring.examSessions exam st') in
    let here := ValueMap.strict_equal (Monitoring.examId ms) exam in
    Monitoring.totalSessions after = Monitoring.totalSessions before
    /\ Monitoring.activeSessions after = Monitoring.activeSessions before
    /\ Monitoring.totalAlerts after =
         (Monitoring.totalAlerts before
          + one_if (here && is_str severity "critical"))%nat
    /\ Monitoring.totalWarnings after =
         (Monitoring.totalWarnings before
          + one_if (here && is_str severity "warning"))%nat
    /\ Monitoring.totalViolations after =
         (Monitoring.totalViolations before
          + one_if (here && is_str severity "info"))%nat.
Proof.
  intros rt s d st ms exam H1 H2 H3 Hget severity st' before after here.
  subst st' before after here severity.
  rewrite (handleAlert_run rt s d st ms H1 H2 H3 Hget). cbv zeta. cbn [snd].
  destruct (ValueMap_set_found _ _ _ Hget) as [l1 [k0 [l2 [Hm Hset]]]].
  unfold Monitoring.examSessions.
  destruct st as [r md snt jn].
  cbn [Monitoring.registry Monitoring.monitoringData Monitoring.sent
       Monitoring.set_registry Monitoring.set_monitoringData Monitoring.set_sent] in *.
  rewrite Hset, Hm, !map_app, !filter_app. cbn [map filter snd Monitoring.examId].
  unfold Monitoring.aggregate.
  cbn [Monitoring.totalSessions Monitoring.activeSessions Monitoring.totalAlerts
       Monitoring.totalWarnings Monitoring.totalViolations].
  destruct (ValueMap.strict_equal (Monitoring.examId ms) exam); cbn [andb one_if].
  - rewrite !filter_app. cbn [filter Monitoring.isActive].
    rewrite !length_app. cbn [List.length].
    split; [ reflexivity | ].
    split; [ destruct (Monitoring.isActive ms); rewrite ?length_app; reflexivity | ].
    split; [ | split ]; apply fold_left_sum_replace; reflexivity.
  - rewrite !Nat.add_0_r. repeat split.
Qed.

(** A critical alert for S1, seen from its exam E1 and from another. *)
Lemma exam_metrics_witness :
  let s := student "k1" "S1" "u1" in
  let d := {| Monitoring.alert_sessionId := Str "S1";
              Monitoring.alert_alertType := Str "multiple_faces";
              Monitoring.alert_severity := Str "critical";
              Monitoring.alert_message := Undefined |} in
  let st' := snd (Monitoring.handleAlert decimal_runtime s (Some d) monitored_S1) in
  ValueMap.has (Str "S1") (Monitoring.monitoringData monitored_S1) = true
  /\ Monitoring.totalAlerts (Monitoring.aggregate (Monitoring.examSessions (Str "E1") st'))
     = 2%nat
  /\ Monitoring.totalAlerts (Monitoring.aggregate (Monitoring.examSessions (Str "E2") st'))
     = 0%nat.
Proof.
  cbv zeta. split; [ reflexivity | ].
  split.
  - destruct (exam_metrics_follow_the_alerts decimal_runtime (student "k1" "S1" "u1")
                {| Monitoring.alert_sessionId := Str "S1";
                   Monitoring.alert_alertType := Str "multiple_faces";
                   Monitoring.alert_severity := Str "critical";
                   Monitoring.alert_message := Undefined |}
                monitored_S1 _ (Str "E1") eq_refl eq_refl eq_refl eq_refl)
      as [_ [_ [Ha _]]].
    cbv zeta in Ha. rewrite Ha. reflexivity.
  - vm_compute. reflexivity.
Defined.

(** ** Monitoring: the records are kept *)

Lemma keys_ValueMap_set {V : Type} (k : value) (x : V) (m : list (value * V)) :
  exists added, map fst (ValueMap.set k x m) = map fst m ++ added.
Proof.
  induction m as [ | [k0 v0] m IH ]; cbn [ValueMap.set map fst].
  - now exists [k].
  - destruct (ValueMap.same_value_zero k k0); cbn [map fst].
    + exists []. now rewrite app_nil_r.
    + destruct IH as [added IH]. exists added. now rewrite IH.
Qed.

Lemma keeps_ret {A : Type} (a : A) : keeps_records (Stateful.ret a).
Proof. intro st. exists []. now rewrite app_nil_r. Qed.

Lemma keeps_throw {A : Type} (e : exn) : keeps_records (@Stateful.throw _ A e).
Proof. intro st. exists []. now rewrite app_nil_r. Qed.

Lemma keeps_gets {A : Type} (f : Monitoring.state -> A) :
  keeps_records (Stateful.gets f).
Proof. intro st. exists []. now rewrite app_nil_r. Qed.

Lemma keeps_bind {A B : Type} (m : Monitoring.H A) (k : A -> Monitoring.H B) :
  keeps_records m -> (forall a, keeps_records (k a)) ->
  keeps_records (Stateful.bind m k).
Proof.
  intros Hm Hk st. unfold Stateful.bind. destruct (Hm st) as [added1 H1].
  destruct (m st) as [[a | e] st1]; cbn [snd] in *.
  - destruct (Hk a st1) as [added2 H2]. exists (added1 ++ added2).
    now rewrite H2, H1, app_assoc.
  - now exists added1.
Qed.

Lemma keeps_try_catch {A : Type} (m : Monitoring.H A) (h : exn -> Monitoring.H A) :
  keeps_records m -> (forall e, keeps_records (h e)) ->
  keeps_records (Stateful.try_catch m h).
Proof.
  intros Hm Hh st. unfold Stateful.try_catch. destruct (Hm st) as [added1 H1].
  destruct (m st) as [[a | e] st1]; cbn [snd] in *.
  - now exists added1.
  - destruct (Hh e st1) as [added2 H2]. exists (added1 ++ added2).
    now rewrite H2, H1, app_assoc.
Qed.

Lemma keeps_modify (f : Monitoring.state -> Monitoring.state) :
  (forall st, exists added,
      Monitoring.keys (f st) = Monitoring.keys st ++ added) ->
  keeps_records (Stateful.modify f).
Proof. intros H st. exact (H st). Qed.

Lemma keeps_emit (t : Monitoring.recipient) (ev : string) (b : Monitoring.body) :
  keeps_records (Monitoring.emit t ev b).
Proof.
  apply keeps_modify. intro st. exists []. rewrite app_nil_r. now destruct st.
Qed.

Lemma keeps_sessionManager {A : Type} (m : Registry.R A) :
  keeps_records (Monitoring.sessionManager m).
Proof.
  intro st. exists []. rewrite app_nil_r. unfold Monitoring.sessionManager.
  destruct (m (Monitoring.registry st)). now destruct st.
Qed.

Lemma keeps_join (socket room : string) : keeps_records (Monitoring.join socket room).
Proof.
  apply keeps_modify. intro st. exists []. rewrite app_nil_r.
  destruct (existsb _ _); now destruct st.
Qed.

Lemma keeps_leave (socket room : string) : keeps_records (Monitoring.leave socket room).
Proof.
  apply keeps_modify. intro st. exists []. rewrite app_nil_r. now destruct st.
Qed.

Lemma keeps_set (k : value) (ms : Monitoring.monitoringSession) :
  keeps_records
    (Stateful.modify
       (fun st =>
          Monitoring.set_monitoringData
            (ValueMap.set k ms (Monitoring.monitoringData st)) st)).
Proof.
  apply keeps_modify. intro st. unfold Monitoring.keys.
  destruct st as [r md snt jn]. cbn [Monitoring.monitoringData Monitoring.set_monitoringData].
  apply keys_ValueMap_set.
Qed.

Create HintDb monitoring.

#[local] Hint Resolve keeps_ret keeps_throw keeps_gets keeps_emit keeps_sessionManager
  keeps_join keeps_leave keeps_set : monitoring.

Ltac keeps_step :=
  first
    [ apply keeps_try_catch; [ | intro ]
    | apply keeps_bind; [ | intro ]
    | match goal with
      | |- keeps_records (match ?x with _ => _ end) => destruct x
      end
    | solve [ auto with monitoring ]
    | apply keeps_sessionManager ].

Lemma end_sessions_of_run (socket : string)
    (entries : list (value * Monitoring.monitoringSession)) :
  forall st,
    exists entries' r',
      Monitoring.end_sessions_of socket entries st =
        (Ok entries', Monitoring.set_registry r' st)
      /\ Forall2 (ended_by socket) entries entries'.
Proof.
  induction entries as [ | [key ms] entries IH ]; intro st.
  - exists [], (Monitoring.registry st). split; [ now destruct st | constructor ].
  - cbn [Monitoring.end_sessions_of]. unfold Stateful.bind at 1.
    destruct (String.eqb (Monitoring.socketId ms) socket && Monitoring.isActive ms)
      eqn:Eb.
    + unfold Stateful.bind at 1, Monitoring.new_Date, Monitoring.sessionManager,
        Registry.new_Date, Stateful.ret at 1.
      cbn [fst snd]. unfold Stateful.bind at 1.
      match goal with |- context [Monitoring.end_sessions_of socket entries ?x] =>
        destruct (IH x) as [entries' [r' [E HF]]] end.
      rewrite E. unfold Stateful.ret. eexists. exists r'.
      split; [ now destruct st | ].
      constructor; [ | exact HF ].
      split; [ reflexivity | ]. cbn [snd]. rewrite Eb. eexists. reflexivity.
    + unfold Stateful.ret at 1. unfold Stateful.bind at 1.
      destruct (IH st) as [entries' [r' [E HF]]].
      rewrite E. unfold Stateful.ret. eexists. exists r'.
      split; [ reflexivity | ].
      constructor; [ | exact HF ].
      split; [ reflexivity | ]. cbn [snd]. now rewrite Eb.
Qed.

Lemma ended_by_keys (socket : string)
    (entries entries' : list (value * Monitoring.monitoringSession)) :
  Forall2 (ended_by socket) entries entries' -> map fst entries' = map fst entries.
Proof.
  induction 1 as [ | e e' l l' [Hk _] _ IH ]; [ reflexivity | ].
  cbn [map]. now rewrite Hk, IH.
Qed.

(** X26.  The monitoring map only grows.  Whatever the payload and the
    state, each of startMonitoring, stopMonitoring, getMonitoringStatus,
    getMetrics, handleAlert, handleDisconnection and cleanupExpired leaves
    every record of the map in place, under its key and in its order:
    stopping, disconnecting and expiring mark a record as inactive and
    never delete it. *)
Theorem monitoring_map_only_grows :
  forall (rt : Runtime) (s : socket),
    (forall data, keeps_records (Monitoring.startMonitoring rt s data))
    /\ (forall data, keeps_records (Monitoring.stopMonitoring rt s data))
    /\ (forall data, keeps_records (Monitoring.getMonitoringStatus s data))
    /\ (forall data, keeps_records (Monitoring.getMetrics s data))
    /\ (forall data, keeps_records (Monitoring.handleAlert rt s data))
    /\ keeps_records (Monitoring.handleDisconnection s)
    /\ keeps_records Monitoring.cleanupExpired.
Proof.
  intros rt s.
  split; [ | split; [ | split; [ | split; [ | split; [ | split ] ] ] ] ].
  - intro data. unfold Monitoring.startMonitoring, Monitoring.new_Date.
    repeat keeps_step.
  - intro data. unfold Monitoring.stopMonitoring, Monitoring.new_Date.
    repeat keeps_step.
  - intro data. unfold Monitoring.getMonitoringStatus, Monitoring.new_Date.
    repeat keeps_step.
  - intro data. unfold Monitoring.getMetrics. repeat keeps_step.
  - intro data. unfold Monitoring.handleAlert, Monitoring.new_Date.
    repeat keeps_step.
  - intro st. exists []. rewrite app_nil_r.
    unfold Monitoring.handleDisconnection, Stateful.try_catch, Stateful.bind,
      Stateful.gets, Stateful.modify.
    destruct (end_sessions_of_run (socket_id s) (Monitoring.monitoringData st) st)
      as [entries' [r' [E HF]]].
    rewrite E. unfold Monitoring.keys.
    destruct st as [r md snt jn].
    cbn [snd Monitoring.monitoringData Monitoring.set_monitoringData
         Monitoring.set_registry] in *.
    now apply (ended_by_keys (socket_id s)).
  - intro st. exists []. rewrite app_nil_r.
    unfold Monitoring.cleanupExpired, Stateful.try_catch, Stateful.bind,
      Stateful.gets, Stateful.modify, Stateful.ret, Monitoring.new_Date,
      Monitoring.sessionManager, Registry.new_Date, Monitoring.keys.
    destruct st as [r md snt jn]. cbn. rewrite map_map. reflexivity.
Qed.

(** ** Monitoring: disconnection and expiry *)

Lemma ended_by_active (socket : string)
    (entries entries' : list (value * Monitoring.monitoringSession)) :
  Forall2 (ended_by socket) entries entries' ->
  filter Monitoring.isActive (map snd entries') =
    filter (fun ms => negb (String.eqb (Monitoring.socketId ms) socket))
      (filter Monitoring.isActive (map snd entries)).
Proof.
  induction 1 as [ | e e' l l' [_ He] _ IH ]; [ reflexivity | ].
  cbn [map filter].
  destruct (String.eqb (Monitoring.socketId (snd e)) socket) eqn:Es;
    destruct (Monitoring.isActive (snd e)) eqn:Ea; cbn [andb] in He.
  - destruct He as [t He]. rewrite He. cbn [Monitoring.isActive filter].
    rewrite Es. cbn [negb]. exact IH.
  - rewrite He, Ea. exact IH.
  - rewrite He, Ea. cbn [filter]. rewrite Es. cbn [negb]. now rewrite IH.
  - rewrite He, Ea. exact IH.
Qed.

(** X27.  A disconnection ends the monitoring of the socket, silently.
    handleDisconnection returns whatever the state; afterwards the active
    sessions are those that were active and belong to another socket; a
    record that it ends is marked inactive and given an end time, and is
    otherwise unchanged, as is every other record.  Nothing is sent: the
    other monitors of the exam are not told that the session stopped, and
    the socket is not taken out of any room. *)
Theorem disconnection_ends_the_sessions_of_the_socket :
  forall (s : socket) (st : Monitoring.state),
    exists st',
      Monitoring.handleDisconnection s st = (Ok tt, st')
      /\ Monitoring.getActiveSessions st' =
           filter (fun ms => negb (String.eqb (Monitoring.socketId ms) (socket_id s)))
             (Monitoring.getActiveSessions st)
      /\ Forall2 (ended_by (socket_id s))
           (Monitoring.monitoringData st) (Monitoring.monitoringData st')
      /\ Monitoring.sent st' = Monitoring.sent st
      /\ Monitoring.joined st' = Monitoring.joined st.
Proof.
  intros s st.
  unfold Monitoring.handleDisconnection, Stateful.try_catch, Stateful.bind,
    Stateful.gets, Stateful.modify.
  destruct (end_sessions_of_run (socket_id s) (Monitoring.monitoringData st) st)
    as [entries' [r' [E HF]]].
  rewrite E. eexists. split; [ reflexivity | ].
  unfold Monitoring.getActiveSessions.
  destruct st as [r md snt jn].
  cbn [Monitoring.monitoringData Monitoring.set_monitoringData
       Monitoring.set_registry Monitoring.sent Monitoring.joined] in *.
  split; [ now apply ended_by_active | ].
  split; [ exact HF | split; reflexivity ].
Qed.

Lemma expire_not_idle (now t : Z) (ms : Monitoring.monitoringSession) :
  Monitoring.is_idle now ms = true ->
  Monitoring.is_idle t (Monitoring.expire now ms) = false.
Proof.
  intro H. unfold Monitoring.expire. rewrite H. reflexivity.
Qed.

Lemma expired_are_not_reported_again (now t : Z)
    (md : list (value * Monitoring.monitoringSession)) :
  filter (fun e => Monitoring.is_idle t (snd e))
    (map (fun e => (fst e, Monitoring.expire now (snd e))) md)
  = filter (fun e => Monitoring.is_idle t (snd e))
      (filter (fun e => negb (Monitoring.is_idle now (snd e))) md).
Proof.
  induction md as [ | [k ms] md IH ]; [ reflexivity | ].
  cbn [map filter fst snd].
  destruct (Monitoring.is_idle now ms) eqn:E.
  - rewrite (expire_not_idle now t ms E). cbn [negb]. exact IH.
  - cbn [negb filter snd]. unfold Monitoring.expire at 1 2. rewrite E.
    destruct (Monitoring.is_idle t ms); [ now rewrite IH | exact IH ].
Qed.

(** X28.  Monitoring expires after thirty minutes without activity.
    cleanupExpired returns the keys, in map order, of the sessions that are
    active and whose last activity lies more than 1 800 000 ms before the
    time of the call; it marks exactly these inactive, with that time as
    their end, and leaves every other record as it was.  Afterwards no
    record is idle, and a record that was expired is not reported again,
    at whatever time the next call comes.  Nothing is sent and no record
    is removed. *)
Theorem monitoring_expires_after_thirty_minutes :
  forall st : Monitoring.state,
    let now := Registry.clock (Monitoring.registry st)
                 (Registry.ticks (Monitoring.registry st)) in
    exists st',
      Monitoring.cleanupExpired st =
        (Ok (map fst (filter (fun e => Monitoring.is_idle now (snd e))
                        (Monitoring.monitoringData st))), st')
      /\ (forall ms,
            Monitoring.is_idle now ms =
              Monitoring.isActive ms
              && (1800000 <? now - Monitoring.lastActivity
                                     (Monitoring.session_metrics ms))%Z)
      /\ Monitoring.monitoringData st' =
           map (fun e => (fst e, Monitoring.expire now (snd e)))
             (Monitoring.monitoringData st)
      /\ (forall ms,
            Monitoring.is_idle now ms = false -> Monitoring.expire now ms = ms)
      /\ (forall ms,
            Monitoring.is_idle now ms = true ->
            Monitoring.isActive (Monitoring.expire now ms) = false
            /\ Monitoring.endTime (Monitoring.expire now ms) = Some now
            /\ Monitoring.session_metrics (Monitoring.expire now ms)
               = Monitoring.session_metrics ms)
      /\ (forall t,
            filter (fun e => Monitoring.is_idle t (snd e)) (Monitoring.monitoringData st')
            = filter (fun e => Monitoring.is_idle t (snd e))
                (filter (fun e => negb (Monitoring.is_idle now (snd e)))
                   (Monitoring.monitoringData st)))
      /\ Monitoring.sent st' = Monitoring.sent st.
Proof.
  intros st now.
  unfold Monitoring.cleanupExpired, Stateful.try_catch, Stateful.bind,
    Stateful.gets, Stateful.modify, Stateful.ret, Monitoring.new_Date,
    Monitoring.sessionManager, Registry.new_Date.
  subst now. destruct st as [r md snt jn].
  cbn [Monitoring.registry Monitoring.monitoringData Monitoring.sent fst snd
       Monitoring.set_registry Monitoring.set_monitoringData].
  eexists. split; [ reflexivity | ].
  cbn [Monitoring.monitoringData Monitoring.sent Monitoring.set_registry
       Monitoring.set_monitoringData].
  split; [ reflexivity | split; [ reflexivity | ] ].
  split; [ intros ms H; unfold Monitoring.expire; now rewrite H | ].
  split; [ intros ms H; unfold Monitoring.expire; rewrite H; repeat split | ].
  split; [ | reflexivity ].
  intro t. apply expired_are_not_reported_again.
Qed.

(** ** Monitoring: the start *)

Lemma Stateful_bind_ok {S A B : Type} (m : Stateful.t S A) (k : A -> Stateful.t S B)
    (st st' : S) (a : A) :
  m st = (Ok a, st') -> Stateful.bind m k st = k a st'.
Proof. intro H. unfold Stateful.bind. now rewrite H. Qed.

Lemma Stateful_bind_throw {S A B : Type} (m : Stateful.t S A)
    (k : A -> Stateful.t S B) (st st' : S) (e : exn) :
  m st = (Throw e, st') -> Stateful.bind m k st = (Throw e, st').
Proof. intro H. unfold Stateful.bind. now rewrite H. Qed.

Lemma new_Date_run (st : Monitoring.state) :
  Monitoring.new_Date st =
    (Ok (Registry.clock (Monitoring.registry st)
           (Registry.ticks (Monitoring.registry st))),
     Monitoring.set_registry
       (Registry.set_ticks (S (Registry.ticks (Monitoring.registry st)))
          (Monitoring.registry st)) st).
Proof. reflexivity. Qed.

Lemma modify_run {S : Type} (f : S -> S) (st : S) :
  Stateful.modify f st = (Ok tt, f st).
Proof. reflexivity. Qed.

Lemma join_run (socket room : string) (st : Monitoring.state) :
  Monitoring.join socket room st =
    (Ok tt,
     Monitoring.set_joined
       (if existsb (Monitoring.is_member socket room) (Monitoring.joined st)
        then Monitoring.joined st
        else Monitoring.joined st ++ [(socket, room)]) st).
Proof.
  unfold Monitoring.join, Stateful.modify.
  destruct (existsb _ _); destruct st; reflexivity.
Qed.

Lemma joined_after_join (socket room : string) (jn : list (string * string)) :
  existsb (Monitoring.is_member socket room)
    (if existsb (Monitoring.is_member socket room) jn then jn
     else jn ++ [(socket, room)]) = true.
Proof.
  destruct (existsb _ jn) eqn:Ej; [ exact Ej | ].
  rewrite existsb_app. cbn [existsb]. unfold Monitoring.is_member at 2.
  cbn [fst snd]. now rewrite !String.eqb_refl, orb_true_r.
Qed.

Lemma sessionManager_updateSession (rt : Runtime) (sessionId : value)
    (updateData : Registry.object) (st : Monitoring.state) :
  Registry.in_memory (Monitoring.registry st) ->
  Monitoring.sessionManager (Registry.updateSession rt sessionId updateData) st =
    match ValueMap.get sessionId (Registry.sessions (Monitoring.registry st)) with
    | None =>
        (Throw (Error "Session not found"),
         Monitoring.set_registry (Monitoring.registry st) st)
    | Some existing =>
        let r := Monitoring.registry st in
        let updated :=
          Registry.literal
            [Registry.Spread existing; Registry.Spread updateData;
             Registry.Entry "lastActivity"
               (Registry.DateAt (Registry.clock r (Registry.ticks r)))] in
        (Ok updated,
         Monitoring.set_registry
           (Registry.set_sessions
              (ValueMap.set sessionId updated (Registry.sessions r))
              (Registry.set_ticks (S (Registry.ticks r)) r)) st)
    end.
Proof.
  intro Hmem. unfold Monitoring.sessionManager.
  rewrite (updateSession_in_memory rt sessionId updateData _ Hmem).
  destruct (ValueMap.get sessionId (Registry.sessions (Monitoring.registry st)));
    reflexivity.
Qed.

(** X29.  startMonitoring files the session before it asks the session
    manager.  For a payload with the three members, the record is put in
    the monitoring map, replacing any record of the same session and so
    resetting its counters to 0, and the socket joins the monitoring room
    of the exam, before the session manager is asked to update the
    session.  With the registry working from memory: if it holds the
    session, the socket is told that monitoring started and the other
    members of the room that the session started; if it does not, the
    socket is only told 'Failed to start monitoring', and the session
    stays in the monitoring map, active, with the socket in the room. *)
Theorem start_files_the_session_before_it_asks :
  forall (rt : Runtime) (s : socket) (d : Monitoring.startData)
         (st : Monitoring.state),
    truthy (Monitoring.start_sessionId d) = true ->
    truthy (Monitoring.start_examId d) = true ->
    truthy (Monitoring.start_userId d) = true ->
    Registry.in_memory (Monitoring.registry st) ->
    let r := Monitoring.registry st in
    let record :=
      fresh_record s d (Registry.clock r (Registry.ticks r))
        (Registry.clock r (S (Registry.ticks r))) in
    let room := Monitoring.monitoring_room rt (Monitoring.start_examId d) in
    exists st',
      Monitoring.startMonitoring rt s (Some d) st = (Ok tt, st')
      /\ ValueMap.get (Monitoring.start_sessionId d) (Monitoring.monitoringData st')
         = Some record
      /\ In record (Monitoring.getActiveSessions st')
      /\ existsb (Monitoring.is_member (socket_id s) room) (Monitoring.joined st') = true
      /\ Monitoring.sent st' =
           Monitoring.sent st
           ++ (if ValueMap.has (Monitoring.start_sessionId d) (Registry.sessions r)
               then [{| Monitoring.to := Monitoring.Direct (socket_id s);
                        Monitoring.event := "monitor:started";
                        Monitoring.content :=
                          Monitoring.Started (Monitoring.start_sessionId d)
                            "Monitoring started successfully" |};
                     {| Monitoring.to := Monitoring.Others room (socket_id s);
                        Monitoring.event := "monitor:session_started";
                        Monitoring.content :=
                          Monitoring.SessionStarted (Monitoring.start_sessionId d)
                            (Monitoring.start_userId d)
                            (Registry.clock r (Registry.ticks r)) |}]
               else [monitor_error s "Failed to start monitoring"]).
Proof.
  intros rt s d st H1 H2 H3 Hmem r record room. subst r record room.
  unfold Monitoring.startMonitoring, Stateful.try_catch. rewrite H1, H2, H3.
  cbn [negb orb].
  erewrite Stateful_bind_ok by apply new_Date_run.
  erewrite Stateful_bind_ok by apply new_Date_run.
  erewrite Stateful_bind_ok by apply modify_run.
  erewrite Stateful_bind_ok by apply join_run.
  erewrite Stateful_bind_ok by apply new_Date_run.
  destruct st as [r md snt jn]. unfold Registry.in_memory in Hmem.
  cbn [Monitoring.registry] in Hmem.
  unfold Monitoring.set_registry, Monitoring.set_monitoringData, Monitoring.set_joined.
  cbn [Monitoring.registry Monitoring.monitoringData Monitoring.sent Monitoring.joined].
  pose proof (joined_after_join (socket_id s)
                (Monitoring.monitoring_room rt (Monitoring.start_examId d)) jn) as Hjn.
  set (jn' := if existsb _ jn then jn else _) in *.
  set (md' := ValueMap.set (Monitoring.start_sessionId d) _ md).
  assert (Hrec : ValueMap.get (Monitoring.start_sessionId d) md'
                 = Some (fresh_record s d (Registry.clock r (Registry.ticks r))
                           (Registry.clock r (S (Registry.ticks r)))))
    by (subst md'; destruct r; apply ValueMap_get_set_same).
  assert (Hact : In (fresh_record s d (Registry.clock r (Registry.ticks r))
                       (Registry.clock r (S (Registry.ticks r))))
                   (filter Monitoring.isActive (map snd md'))).
  { apply filter_In. split; [ | reflexivity ].
    destruct (ValueMap_set_found _ _ _ Hrec) as [l1 [k0 [l2 [Hm _]]]].
    rewrite Hm, map_app. apply in_or_app. right. now left. }
  unfold ValueMap.has.
  destruct (ValueMap.get (Monitoring.start_sessionId d) (Registry.sessions r))
    as [existing | ] eqn:Hs.
  - erewrite Stateful_bind_ok.
    2:{ rewrite sessionManager_updateSession
          by (unfold Registry.in_memory; destruct r; exact Hmem).
        cbn [Monitoring.registry].
        replace (ValueMap.get (Monitoring.start_sessionId d) (Registry.sessions _))
          with (Some existing) by (destruct r; exact (eq_sym Hs)).
        cbv zeta. reflexivity. }
    unfold Stateful.bind, Monitoring.emit, Stateful.modify.
    eexists. split; [ reflexivity | ].
    unfold Monitoring.getActiveSessions, Monitoring.set_sent, Monitoring.set_registry.
    cbn [Monitoring.registry Monitoring.monitoringData Monitoring.sent
         Monitoring.joined].
    split; [ exact Hrec | split; [ exact Hact | split; [ exact Hjn | ] ] ].
    rewrite <- app_assoc. destruct r; reflexivity.
  - erewrite Stateful_bind_throw.
    2:{ rewrite sessionManager_updateSession
          by (unfold Registry.in_memory; destruct r; exact Hmem).
        cbn [Monitoring.registry].
        replace (ValueMap.get (Monitoring.start_sessionId d) (Registry.sessions _))
          with (@None Registry.object) by (destruct r; exact (eq_sym Hs)).
        reflexivity. }
    unfold Monitoring.emit, Stateful.modify.
    eexists. split; [ reflexivity | ].
    unfold Monitoring.getActiveSessions, Monitoring.set_sent, Monitoring.set_registry.
    cbn [Monitoring.registry Monitoring.monitoringData Monitoring.sent
         Monitoring.joined].
    split; [ exact Hrec | split; [ exact Hact | split; [ exact Hjn | reflexivity ] ] ].
Qed.

(** A start for a session that the registry does not hold. *)
Lemma start_witness :
  let s := observer "k9" "teacher" [] in
  let d := {| Monitoring.start_sessionId := Str "S7";
              Monitoring.start_examId := Str "E1";
              Monitoring.start_userId := Str "u7" |} in
  Registry.in_memory (Monitoring.registry monitored_S1)
  /\ exists st',
       Monitoring.startMonitoring decimal_runtime s (Some d) monitored_S1 = (Ok tt, st')
       /\ Monitoring.sent st' = [monitor_error s "Failed to start monitoring"]
       /\ map Monitoring.sessionId (Monitoring.getActiveSessions st') = [Str "S1"; Str "S7"]
       /\ Monitoring.joined st' = [("k1", "monitoring:E1"); ("k9", "monitoring:E1")].
Proof.
  cbv zeta.
  assert (Hmem : Registry.in_memory (Monitoring.registry monitored_S1)) by reflexivity.
  split; [ exact Hmem | ].
  destruct (start_files_the_session_before_it_asks decimal_runtime
              (observer "k9" "teacher" [])
              {| Monitoring.start_sessionId := Str "S7";
                 Monitoring.start_examId := Str "E1";
                 Monitoring.start_userId := Str "u7" |}
              monitored_S1 eq_refl eq_refl eq_refl Hmem)
    as [st' [E [_ [_ [_ Hsent]]]]].
  exists st'. split; [ exact E | ]. split; [ exact Hsent | ].
  assert (E2 : st' = snd (Monitoring.startMonitoring decimal_runtime
                            (observer "k9" "teacher" [])
                            (Some {| Monitoring.start_sessionId := Str "S7";
                                     Monitoring.start_examId := Str "E1";
                                     Monitoring.start_userId := Str "u7" |})
                            monitored_S1))
    by (rewrite E; reflexivity).
  rewrite E2. split; vm_compute; reflexivity.
Defined.

(** ** The termination of one session *)

(** X30.  A single termination tells the student only after the backend
    has accepted it.  For a connection that holds the permission
    terminate_sessions, the request to terminate goes to the backend
    first.  If the backend accepts, the room of the session is told, then
    the other administrators, then the issuer, in this order and each
    once.  If the backend refuses or cannot be reached, the issuer gets
    'Failed to terminate session' and nobody else is told anything.  In
    both cases exactly one request is issued. *)
Theorem termination_is_announced_after_the_backend_accepts :
  forall (rt : Runtime) (s : socket) (d : Admin.terminateData) (st : Admin.state),
    hasPermission s "terminate_sessions" = Ok true ->
    let w := Admin.server st in
    let request := PostTerminate (Admin.t_sessionId d) (Admin.t_reason d) (adminId s) in
    exists st',
      Admin.handleTerminateSession rt s (Some d) st = (Ok tt, st')
      /\ requests (Admin.server st') = requests w ++ [request]
      /\ Admin.sent st' =
           Admin.sent st
           ++ match backend w (requests w) request with
              | Some _ => Admin.notices rt s d (clock w) (reads w)
              | None => [Admin.failure s]
              end
      /\ outbox (Admin.server st') = outbox w
      /\ timers (Admin.server st') = timers w.
Proof.
  intros rt s d st Hperm w request. subst w request.
  unfold Admin.handleTerminateSession, Stateful.try_catch.
  erewrite Stateful_bind_ok
    by (unfold Admin.on_server, lift; rewrite Hperm; reflexivity).
  cbn [negb].
  unfold Stateful.bind at 1, Admin.on_server at 1.
  unfold terminateSessionInBackend, try_catch, bind, axios_post, ret, throw.
  destruct st as [w snt]. cbn [Admin.server Admin.sent].
  destruct (backend w (requests w)
              (PostTerminate (Admin.t_sessionId d) (Admin.t_reason d) (adminId s)))
    as [data | ].
  - unfold Stateful.bind, Admin.on_server, Admin.emit, Stateful.modify, Date_now,
      Admin.notices.
    eexists. split; [ reflexivity | ].
    destruct w. cbn. rewrite <- !app_assoc. repeat split.
  - unfold Admin.emit, Stateful.modify, Admin.failure.
    eexists. split; [ reflexivity | ].
    destruct w. cbn. repeat split.
Qed.

(** The termination of sB on the backend that refuses sB, and of sA. *)
Lemma termination_witness :
  let s := observer "k9" "teacher" ["terminate_sessions"] in
  let st := {| Admin.server := refuses_sB (idle 1000); Admin.sent := [] |} in
  let dA := {| Admin.t_sessionId := Str "sA"; Admin.t_reason := Str "exam over";
               Admin.t_userId := Str "uA" |} in
  let dB := {| Admin.t_sessionId := Str "sB"; Admin.t_reason := Str "exam over";
               Admin.t_userId := Str "uB" |} in
  hasPermission s "terminate_sessions" = Ok true
  /\ (exists st',
        Admin.handleTerminateSession decimal_runtime s (Some dB) st = (Ok tt, st')
        /\ Admin.sent st' = [Admin.failure s])
  /\ (exists st',
        Admin.handleTerminateSession decimal_runtime s (Some dA) st = (Ok tt, st')
        /\ map Admin.to (Admin.sent st') =
             [Monitoring.Room "session_sA";
              Monitoring.Others "admin_monitoring" "k9";
              Monitoring.Direct "k9"]).
Proof.
  cbv zeta. split; [ reflexivity | ]. split.
  - destruct (termination_is_announced_after_the_backend_accepts decimal_runtime
                (observer "k9" "teacher" ["terminate_sessions"])
                {| Admin.t_sessionId := Str "sB"; Admin.t_reason := Str "exam over";
                   Admin.t_userId := Str "uB" |}
                {| Admin.server := refuses_sB (idle 1000); Admin.sent := [] |}
                eq_refl)
      as [st' [E [_ [Hs _]]]].
    exists st'. split; [ exact E | ]. rewrite Hs. reflexivity.
  - destruct (termination_is_announced_after_the_backend_accepts decimal_runtime
                (observer "k9" "teacher" ["terminate_sessions"])
                {| Admin.t_sessionId := Str "sA"; Admin.t_reason := Str "exam over";
                   Admin.t_userId := Str "uA" |}
                {| Admin.server := refuses_sB (idle 1000); Admin.sent := [] |}
                eq_refl)
      as [st' [E [_ [Hs _]]]].
    exists st'. split; [ exact E | ]. rewrite Hs. reflexivity.
Defined.
